(** * Artifact validation and report composition engine

    A shallow embedding of the three [compose_report.py] scripts
    (deck-review, ic-sim, market-sizing): the artifact store, the rule
    engine [validate_artifacts], the provenance classifier, the
    acceptance resolver and the strict-mode exit of [main].

    Modelling conventions.
    - A parsed JSON document is a [json] value.  Python's [None] is
      [JNull]; an [int] is [JInt]; a [float] read from a document is
      [JFloat] carrying its exact rational value.  Comparisons of numbers
      are exact, as in Python.
    - The floats the scripts compute ([float(v)], [-], [/], [*],
      [round(x, 1)]) are IEEE 754 binary64 numbers, [float]: each
      operation rounds to the nearest float, ties to even; infinities
      and NaN are values of the type.  A JSON number is turned into the
      float nearest to it, so a number too large for a float is read as
      an infinity; the literals [NaN] and [Infinity], which are not JSON,
      are not numbers of the model, while the strings [float] reads as
      NaN or as an infinity are.
    - A Python [str] is a [string]; [lower], [strip] and whitespace
      normalisation act on the ASCII range and leave other bytes alone.
    - A Python [dict] is the list of its items in insertion order; a key
      is looked up at its first binding.
    - Code that can raise returns a [result]; the exception classes are
      the ones the interpreter raises at that point.
    - What the interpreter prints for a float, a list or a dict, how
      [float] reads a string and what [str.title] returns are left
      abstract in a [PyRuntime]. *)

From Stdlib Require Import String Ascii List ZArith QArith Qround Qabs Bool Lia DecimalString.
From Stdlib Require Import SpecFloat.
Import ListNotations.
Open Scope string_scope.
Set Warnings "-register-all".

(* ================================================================== *)
(** * Python values and built-ins *)
(* ================================================================== *)

Module Py.

Inductive json : Type :=
| JNull
| JBool (b : bool)
| JInt (z : Z)
| JFloat (q : Q)
| JStr (s : string)
| JList (l : list json)
| JDict (kvs : list (string * json)).

Inductive exn : Type :=
  AttributeError | TypeError | ValueError | KeyError | OSError | OverflowError.

Inductive result (A : Type) : Type :=
| Ok (a : A)
| Raise (e : exn).
Arguments Ok {A} a.
Arguments Raise {A} e.

Definition bind {A B} (r : result A) (k : A -> result B) : result B :=
  match r with
  | Ok a => k a
  | Raise e => Raise e
  end.

Definition is_ok {A} (r : result A) : bool :=
  match r with Ok _ => true | Raise _ => false end.

(** ** Floats

    A Python [float] is an IEEE 754 binary64 number.  The operations are
    those of the Standard Library's specification of floating-point
    arithmetic at 53 bits of precision and a largest exponent of 1024:
    every result is rounded to the nearest float, ties to even; overflow
    gives an infinity and an invalid operation NaN. *)

Definition float : Type := spec_float.

Definition prec : Z := 53.
Definition emax : Z := 1024.

Definition fsub : float -> float -> float := SFsub prec emax.
Definition fmul : float -> float -> float := SFmul prec emax.
Definition fdiv : float -> float -> float := SFdiv prec emax.
Definition fabs : float -> float := SFabs.

(** [x <= y] and [x < y]: false when an operand is NaN *)
Definition fleb : float -> float -> bool := SFleb.
Definition fltb : float -> float -> bool := SFltb.

Definition is_finite (x : float) : bool :=
  match x with
  | S754_zero _ | S754_finite _ _ _ => true
  | S754_infinity _ | S754_nan => false
  end.

(** The float nearest to [n / d], with the sign [s]: the quotient to
    enough bits and the position of the rest, then the rounding. *)
Definition nearest (s : bool) (n d : positive) : float :=
  let '(m, e, l) := SFdiv_core_binary prec emax (Zpos n) 0 (Zpos d) 0 in
  binary_round_aux prec emax s m e l.

(** The float nearest to a rational.  It is exact on the rationals that
    are floats, and an infinity beyond the largest float. *)
Definition of_Q (q : Q) : float :=
  match Qnum q with
  | Z0 => S754_zero false
  | Zpos n => nearest false n (Qden q)
  | Zneg n => nearest true n (Qden q)
  end.

Definition of_Z (z : Z) : float := of_Q (inject_Z z).

(** The exact value of a finite float *)
Definition magnitude (m : positive) (e : Z) : Q :=
  match e with
  | Z0 => inject_Z (Zpos m)
  | Zpos k => inject_Z (Zpos m * 2 ^ Zpos k)
  | Zneg k => Zpos m # (2 ^ k)
  end.

Definition to_Q (x : float) : option Q :=
  match x with
  | S754_zero _ => Some 0%Q
  | S754_finite s m e => Some (if s then Qopp (magnitude m e) else magnitude m e)
  | S754_infinity _ | S754_nan => None
  end.

(** What is left to the interpreter. *)
Record PyRuntime : Type := {
  (** [str(v)] for a float, a list or a dict *)
  str_other : json -> string;
  (** [float(s)] for a string: the float it reads, NaN and the infinities
      included; [None] is [ValueError] *)
  float_of_str : string -> option float;
  (** [str(l)] for a list of strings *)
  repr_strs : list string -> string;
  (** [format(x, spec)] for a float and a format spec such as [",.1f"] *)
  format_float : string -> float -> string;
  (** [s.title()] *)
  title : string -> string
}.

(** ** Strings *)

Definition lower_ascii (c : ascii) : ascii :=
  let n := nat_of_ascii c in
  if (65 <=? n)%nat && (n <=? 90)%nat then ascii_of_nat (n + 32) else c.

Fixpoint lower (s : string) : string :=
  match s with
  | EmptyString => EmptyString
  | String c s' => String (lower_ascii c) (lower s')
  end.

Fixpoint replace_char (a b : ascii) (s : string) : string :=
  match s with
  | EmptyString => EmptyString
  | String c s' => String (if Ascii.eqb c a then b else c) (replace_char a b s')
  end.

(** [needle in hay] *)
Fixpoint contains (needle hay : string) : bool :=
  String.prefix needle hay ||
  match hay with
  | EmptyString => false
  | String _ hay' => contains needle hay'
  end.

(** [str.isspace] on the ASCII range: TAB, LF, VT, FF, CR, FS, GS, RS, US
    and the space. *)
Definition is_space (c : ascii) : bool :=
  let n := nat_of_ascii c in
  ((9 <=? n)%nat && (n <=? 13)%nat) || ((28 <=? n)%nat && (n <=? 32)%nat).

Fixpoint lstrip (s : string) : string :=
  match s with
  | EmptyString => EmptyString
  | String c s' => if is_space c then lstrip s' else s
  end.

Fixpoint rstrip (s : string) : string :=
  match s with
  | EmptyString => EmptyString
  | String c s' =>
      match rstrip s' with
      | EmptyString => if is_space c then EmptyString else String c EmptyString
      | r => String c r
      end
  end.

Definition strip (s : string) : string := rstrip (lstrip s).

(** [re.sub(r"\s+", " ", s)]: every maximal run of whitespace becomes one
    space.  [in_run] tells whether the previous character was whitespace. *)
Fixpoint collapse_ws (in_run : bool) (s : string) : string :=
  match s with
  | EmptyString => EmptyString
  | String c s' =>
      if is_space c
      then (if in_run then collapse_ws true s' else String " " (collapse_ws true s'))
      else String c (collapse_ws false s')
  end.

Definition join (sep : string) (l : list string) : string := String.concat sep l.

Definition str_in (s : string) (l : list string) : bool :=
  existsb (String.eqb s) l.

(** [sorted(S)] for a set [S] of strings given as a list of its members *)
Fixpoint insert_sorted (s : string) (l : list string) : list string :=
  match l with
  | [] => [s]
  | x :: rest =>
      match String.compare s x with
      | Lt => s :: l
      | Eq => l
      | Gt => x :: insert_sorted s rest
      end
  end.

Definition sorted_set (l : list string) : list string :=
  fold_right insert_sorted [] l.

Definition str_of_Z (z : Z) : string := NilZero.string_of_int (Z.to_int z).
Definition str_of_nat (n : nat) : string := str_of_Z (Z.of_nat n).

(** ** Values *)

Definition truthy (v : json) : bool :=
  match v with
  | JNull => false
  | JBool b => b
  | JInt z => negb (z =? 0)%Z
  | JFloat q => negb (Qeq_bool q 0)
  | JStr s => negb (s =? "")
  | JList l => match l with [] => false | _ => true end
  | JDict kvs => match kvs with [] => false | _ => true end
  end.

(** [x or d] *)
Definition py_or (x d : json) : json := if truthy x then x else d.

Fixpoint lookup {A} (k : string) (kvs : list (string * A)) : option A :=
  match kvs with
  | [] => None
  | (k', v) :: rest => if k' =? k then Some v else lookup k rest
  end.

(** [d.get(k, dflt)] on a value known to be a dict *)
Definition dget (kvs : list (string * json)) (k : string) (dflt : json) : json :=
  match lookup k kvs with Some v => v | None => dflt end.

(** [v.get(k, dflt)] on any value: only a dict has the method *)
Definition get (v : json) (k : string) (dflt : json) : result json :=
  match v with
  | JDict kvs => Ok (dget kvs k dflt)
  | _ => Raise AttributeError
  end.

Definition is_dict (v : json) : bool :=
  match v with JDict _ => true | _ => false end.

Definition _as_list (v : json) : list json :=
  match v with JList l => l | _ => [] end.

Definition _as_dict (v : json) : list (string * json) :=
  match v with JDict kvs => kvs | _ => [] end.

(** The number a value stands for in a comparison or in arithmetic:
    [bool] is a subtype of [int]. *)
Definition num_val (v : json) : option Q :=
  match v with
  | JBool b => Some (if b then 1 else 0)
  | JInt z => Some (inject_Z z)
  | JFloat q => Some q
  | _ => None
  end.

Definition Qlt_bool (a b : Q) : bool := negb (Qle_bool b a).

(** [v > c], [v < c] against a numeric constant *)
Definition py_gt (v : json) (c : Q) : result bool :=
  match num_val v with
  | Some q => Ok (Qlt_bool c q)
  | None => Raise TypeError
  end.

Definition py_lt (v : json) (c : Q) : result bool :=
  match num_val v with
  | Some q => Ok (Qlt_bool q c)
  | None => Raise TypeError
  end.

(** [v == "literal"] *)
Definition eq_str (v : json) (s : string) : bool :=
  match v with JStr s' => s' =? s | _ => false end.

(** [v is True] *)
Definition is_True (v : json) : bool :=
  match v with JBool true => true | _ => false end.

(** [v in S] for a set (or dict) [S] of strings: hashing a list or a
    dict raises *)
Definition in_str_set (v : json) (l : list string) : result bool :=
  match v with
  | JList _ | JDict _ => Raise TypeError
  | JStr s => Ok (str_in s l)
  | _ => Ok false
  end.

(** [s in v] for a string literal [s] and a list [v] *)
Definition str_in_list (s : string) (l : list json) : bool :=
  existsb (fun v => eq_str v s) l.

(** What an f-string prints for a value. *)
Definition fmt (rt : PyRuntime) (v : json) : string :=
  match v with
  | JNull => "None"
  | JBool true => "True"
  | JBool false => "False"
  | JInt z => str_of_Z z
  | JStr s => s
  | _ => str_other rt v
  end.

(** [for x in l: ...] collecting what each iteration appends, stopping at
    the first exception. *)
Fixpoint for_each {A B} (f : A -> result (list B)) (l : list A) : result (list B) :=
  match l with
  | [] => Ok []
  | x :: rest =>
      match f x with
      | Ok ys =>
          match for_each f rest with
          | Ok zs => Ok (ys ++ zs)%list
          | Raise e => Raise e
          end
      | Raise e => Raise e
      end
  end.

(** A list comprehension with a filter that may raise. *)
Fixpoint filterM {A} (p : A -> result bool) (l : list A) : result (list A) :=
  match l with
  | [] => Ok []
  | x :: rest =>
      match p x with
      | Ok b =>
          match filterM p rest with
          | Ok ys => Ok (if b then x :: ys else ys)
          | Raise e => Raise e
          end
      | Raise e => Raise e
      end
  end.

Fixpoint mapM {A B} (f : A -> result B) (l : list A) : result (list B) :=
  match l with
  | [] => Ok []
  | x :: rest =>
      match f x with
      | Ok y =>
          match mapM f rest with
          | Ok ys => Ok (y :: ys)
          | Raise e => Raise e
          end
      | Raise e => Raise e
      end
  end.

End Py.

Export Py.

Notation "x <- c1 ;; c2" := (bind c1 (fun x => c2))
  (at level 61, c1 at next level, right associativity).

Definition nonempty {A} (l : list A) : bool :=
  match l with [] => false | _ => true end.

(* ================================================================== *)
(** * What the three scripts share *)
(* ================================================================== *)

Module Common.

Inductive severity : Type := High | Medium | Low | Info | Acknowledged.

Definition severity_eqb (a b : severity) : bool :=
  match a, b with
  | High, High | Medium, Medium | Low, Low | Info, Info
  | Acknowledged, Acknowledged => true
  | _, _ => false
  end.

(** A finding: [{"code": ..., "message": ..., "severity": ...}] *)
Record warning : Type := {
  code : string;
  message : string;
  sev : severity
}.

(** A severity table, [WARNING_SEVERITY] *)
Definition sev_table : Type := list (string * severity).

(** [_warn] *)
Definition _warn (table : sev_table) (c m : string) : warning :=
  {| code := c;
     message := m;
     sev := match lookup c table with Some s => s | None => Medium end |}.

(** ** Artifact store *)

(** A file of the directory: absent, present but not JSON (or not
    readable), or parsed. *)
Inductive file : Type :=
| Absent
| Unparseable
| Parsed (j : json).

(** What [_load_artifact] returns: the sentinel [_CORRUPT], told apart by
    identity, or a parsed value; [None] is [Val JNull]. *)
Inductive artifact : Type :=
| Corrupt
| Val (j : json).

Definition _load_artifact (f : file) : artifact :=
  match f with
  | Absent => Val JNull
  | Unparseable => Corrupt
  | Parsed j => Val j
  end.

Definition artifacts : Type := list (string * artifact).

(** [artifacts.get(name)] *)
Definition art_get (a : artifacts) (name : string) : artifact :=
  match lookup name a with Some x => x | None => Val JNull end.

Definition is_None (a : artifact) : bool :=
  match a with Val JNull => true | _ => false end.

Definition is_CORRUPT (a : artifact) : bool :=
  match a with Corrupt => true | _ => false end.

(** [_is_stub]: [isinstance(data, dict) and data.get("skipped") is True].
    The sentinel is the dict [{"__corrupt__": True}], which has no
    ["skipped"] key. *)
Definition _is_stub (a : artifact) : bool :=
  match a with
  | Val (JDict kvs) => is_True (dget kvs "skipped" JNull)
  | _ => false
  end.

(** [_usable] *)
Definition _usable (a : artifact) : bool :=
  negb (is_None a) && negb (is_CORRUPT a) && negb (_is_stub a).

(** The value behind a usable artifact. *)
Definition val (a : artifact) : json :=
  match a with Val j => j | Corrupt => JDict [("__corrupt__", JBool true)] end.

(** Rule 1 of every variant: required artifacts. *)
Definition required_rule (table : sev_table) (required : list string)
    (arts : artifacts) : list warning :=
  flat_map (fun name =>
    let data := art_get arts name in
    if is_CORRUPT data then
      [_warn table "CORRUPT_ARTIFACT" ("Artifact has invalid JSON: " ++ name)]
    else if is_None data then
      [_warn table "MISSING_ARTIFACT" ("Required artifact missing: " ++ name)]
    else []) required.

(** [(v or "").lower().replace("-", "_").replace(" ", "_")] *)
Definition norm_stage (v : json) : result string :=
  match py_or v (JStr "") with
  | JStr s => Ok (replace_char " " "_" (replace_char "-" "_" (lower s)))
  | _ => Raise AttributeError
  end.

Definition KNOWN_STAGES : list string := ["pre_seed"; "seed"; "series_a"].

Definition ACCEPTIBLE_SEVERITIES : list severity := [Medium].

(** ** Acceptance resolver

    The block of [compose] that reads [accepted_warnings] from the owner
    artifact and downgrades matching findings.  It is the same in the
    three scripts but for one guard: ic-sim tests [isinstance(aw, dict)]
    before each [aw.get], the other two call [aw.get] directly. *)

(** A directive that passed the checks:
    [{"code": code, "reason": reason, "match": match_str}] *)
Record acceptance : Type := {
  acc_code : string;
  acc_reason : string;
  acc_match : json
}.

Definition severity_of (table : sev_table) (c : string) : option severity :=
  lookup c table.

(** [code in WARNING_SEVERITY and WARNING_SEVERITY[code] in ACCEPTIBLE_SEVERITIES] *)
Definition acceptable (table : sev_table) (c : string) : bool :=
  match severity_of table c with
  | Some s => existsb (severity_eqb s) ACCEPTIBLE_SEVERITIES
  | None => false
  end.

Section Resolver.
Variable guarded : bool.
Variable table : sev_table.

(** [aw.get(k, "")], behind the guard where there is one *)
Definition aw_get (aw : json) (k : string) : result json :=
  if guarded then
    Ok (match aw with JDict kvs => dget kvs k (JStr "") | _ => JStr "" end)
  else get aw k (JStr "").

(** The body of the loop over [accepted_warnings]: what the entry appends
    to [acceptances].  Membership of a list or a dict in the severity table
    raises; a number or a bool is hashable and is no key of the table. *)
Definition directive (aw : json) : result (list acceptance) :=
  c <- aw_get aw "code" ;;
  match_str <- aw_get aw "match" ;;
  if negb (truthy c) || negb (truthy match_str) then Ok []
  else
    reason <- aw_get aw "reason" ;;
    match reason with
    | JStr r =>
        if strip r =? "" then Ok []
        else
          match c with
          | JStr cs =>
              if acceptable table cs then
                Ok [ {| acc_code := cs; acc_reason := r; acc_match := match_str |} ]
              else Ok []
          | JList _ | JDict _ => Raise TypeError
          | _ => Ok []
          end
    | _ => Ok []
    end.

Definition collect_acceptances (aws : list json) : result (list acceptance) :=
  for_each directive aws.

(** The two assignments of the inner loop *)
Definition accept (w : warning) (reason : string) : warning :=
  {| code := code w;
     message := message w ++ " [Accepted: " ++ reason ++ "]";
     sev := Acknowledged |}.

(** [w["code"] == acc["code"] and acc["match"].lower() in w.get("message", "").lower()]:
    the second operand is evaluated only when the codes are equal, and
    [lower] needs a [str]. *)
Definition matches (w : warning) (acc : acceptance) : result bool :=
  if code w =? acc_code acc then
    match acc_match acc with
    | JStr m => Ok (contains (lower m) (lower (message w)))
    | _ => Raise AttributeError
    end
  else Ok false.

(** The inner loop [for acc in acceptances: ... break] *)
Fixpoint apply_first (accs : list acceptance) (w : warning) : result warning :=
  match accs with
  | [] => Ok w
  | acc :: rest =>
      match matches w acc with
      | Ok true => Ok (accept w (acc_reason acc))
      | Ok false => apply_first rest w
      | Raise e => Raise e
      end
  end.

Definition apply_acceptances (accs : list acceptance) (ws : list warning)
    : result (list warning) :=
  mapM (apply_first accs) ws.

(** The whole block, for the artifact that owns the acceptances *)
Definition resolve (owner : artifact) (ws : list warning) : result (list warning) :=
  if _usable owner then
    aws <- get (val owner) "accepted_warnings" JNull ;;
    accs <- collect_acceptances (_as_list aws) ;;
    apply_acceptances accs ws
  else Ok ws.

End Resolver.

(** ** Composition *)

Definition directory : Type := string -> file.

Definition load_all (dir : directory) (names : list string) : artifacts :=
  map (fun n => (n, _load_artifact (dir n))) names.

Definition found_names (arts : artifacts) (names : list string) : list string :=
  filter (fun n => negb (is_None (art_get arts n)) && negb (is_CORRUPT (art_get arts n)))
         names.

Definition missing_names (arts : artifacts) (names : list string) : list string :=
  filter (fun n => is_None (art_get arts n)) names.

(** [_render_safe] *)
Definition _render_safe (a : artifact) : artifact :=
  match a with Corrupt => Val JNull | _ => a end.

Record validation : Type := {
  status : string;
  warnings : list warning;
  artifacts_found : list string;
  artifacts_missing : list string
}.

Definition status_of (ws : list warning) : string :=
  if nonempty ws then "warnings" else "clean".

(** ** [main] and [_write_output]

    A run is the list of what it writes and its exit code.  The trace
    records what [main] and [_write_output] do; the diagnostics [compose]
    prints on stderr are not part of it. *)

Inductive event : Type :=
| Stderr (text : string)
| Stdout (data : string)
| WriteFile (path data : string).

Inductive outcome (A : Type) : Type :=
| Return (a : A)
| Exit (exit_code : Z).
Arguments Return {A} a.
Arguments Exit {A} exit_code.

Definition proc (A : Type) : Type := list event * outcome A.

Definition pbind {A B} (p : proc A) (k : A -> proc B) : proc B :=
  match p with
  | (t, Return a) => let '(t', o) := k a in ((t ++ t')%list, o)
  | (t, Exit c) => (t, Exit c)
  end.

Record args : Type := {
  arg_dir : string;
  arg_pretty : bool;
  arg_output : option string;
  arg_strict : bool
}.

(** The file system as [main] sees it. *)
Record filesystem : Type := {
  isdir : string -> bool;
  (** [os.path.abspath] *)
  abspath : string -> string;
  (** [os.path.dirname] *)
  dirname : string -> string;
  (** whether [os.makedirs] and [open(path, "w")] succeed *)
  writable : string -> bool
}.

Section Main.
Variable fs : filesystem.
(** The result of [compose], its findings and [json.dumps] of it *)
Variable R : Type.
Variable compose : string -> result R.
Variable warnings_of : R -> list warning.
Variable dumps : bool -> R -> string.

(** An exception nobody catches: the interpreter prints the traceback and
    exits with status 1. *)
Definition uncaught {A} (e : exn) : proc A :=
  ([Stderr "Traceback (most recent call last)"], Exit 1%Z).

Definition _write_output (data : string) (output_path : option string) : proc unit :=
  match output_path with
  | Some path =>
      if path =? "" then ([Stdout data], Return tt)
      else
        let abs_path := abspath fs path in
        let parent := dirname fs abs_path in
        if parent =? "/" then
          ([Stderr ("Error: output path resolves to root directory: " ++ path)], Exit 1%Z)
        else if writable fs abs_path then ([WriteFile abs_path data], Return tt)
        else uncaught OSError
  | None => ([Stdout data], Return tt)
  end.

Definition blocking (w : warning) : bool :=
  match sev w with High | Medium => true | _ => false end.

Definition main (a : args) : proc unit :=
  if negb (isdir fs (arg_dir a)) then
    ([Stderr ("Error: directory not found: " ++ arg_dir a)], Exit 1%Z)
  else
    match compose (arg_dir a) with
    | Raise e => uncaught e
    | Ok result =>
        let out := dumps (arg_pretty a) result ++ String "010" EmptyString in
        pbind (_write_output out (arg_output a)) (fun _ =>
          if arg_strict a then
            if nonempty (filter blocking (warnings_of result)) then
              ([Stderr "STRICT MODE: Exiting with code 1 due to warnings"], Exit 1%Z)
            else ([], Return tt)
          else ([], Return tt))
    end.

(** The exit status of the process: 0 when [main] returns. *)
Definition exit_status (p : proc unit) : Z :=
  match snd p with
  | Return _ => 0%Z
  | Exit c => c
  end.

End Main.

(** ** The Warnings section of the report

    [_humanize_warning] and [_section_warnings] are the same in the three
    scripts but for the table [WARNING_LABELS]. *)

(** [WARNING_LABELS.get(code, code.replace("_", " ").title())] *)
Definition _humanize_warning (labels : list (string * string)) (rt : PyRuntime)
    (c : string) : string :=
  match lookup c labels with
  | Some l => l
  | None => title rt (replace_char "_" " " c)
  end.

(** [sev_icons.get(sev, "")] on the severities a finding can carry *)
Definition sev_icons (s : severity) : string :=
  match s with
  | High => "!!!"
  | Medium => "!!"
  | Acknowledged => "~"
  | Low => "i"
  | Info => "~"
  end.

(** The line the loop appends for a finding *)
Definition warning_line (labels : list (string * string)) (rt : PyRuntime)
    (w : warning) : string :=
  let label := _humanize_warning labels rt (code w) in
  let icon := sev_icons (sev w) in
  let prefix := if icon =? "" then "" else "[" ++ icon ++ "] " in
  "- " ++ prefix ++ "**" ++ label ++ ":** " ++ message w.

Definition newline : string := String "010" EmptyString.

(** [_section_warnings] *)
Definition _section_warnings (labels : list (string * string)) (rt : PyRuntime)
    (ws : list warning) : string :=
  if nonempty ws then
    join newline (("## Warnings" ++ newline) :: map (warning_line labels rt) ws)
    ++ newline
  else "".

End Common.

Export Common.

(* ================================================================== *)
(** * deck-review/scripts/compose_report.py *)
(* ================================================================== *)

Module DeckReview.

Definition WARNING_SEVERITY : sev_table :=
  [ ("CORRUPT_ARTIFACT", High);
    ("MISSING_ARTIFACT", High);
    ("CHECKLIST_FAILURES_CRITICAL", High);
    ("STAGE_MISMATCH", Medium);
    ("SLIDE_COUNT_EXTREME", Medium);
    ("UNCITED_CRITIQUE", Medium);
    ("AI_CRITERIA_SKIPPED", Medium);
    ("STAGE_OUT_OF_SCOPE", Low) ].

Definition REQUIRED_ARTIFACTS : list string :=
  [ "deck_inventory.json"; "stage_profile.json"; "slide_reviews.json";
    "checklist.json" ].

Definition OPTIONAL_ARTIFACTS : list string := [].

Definition warn := _warn WARNING_SEVERITY.

Section Rules.
Variable rt : PyRuntime.

(** 3. CHECKLIST_FAILURES_CRITICAL *)
Definition rule_checklist_failures (checklist : artifact) : result (list warning) :=
  if _usable checklist then
    s <- get (val checklist) "summary" JNull ;;
    let summary := _as_dict s in
    let fail_count := dget summary "fail" (JInt 0) in
    b <- py_gt fail_count 10 ;;
    if b then
      Ok [warn "CHECKLIST_FAILURES_CRITICAL"
            ("Checklist has " ++ fmt rt fail_count
             ++ " failures (>10 — critical threshold)")]
    else Ok []
  else Ok [].

(** 4. STAGE_MISMATCH *)
Definition rule_stage_mismatch (inventory profile : artifact) : result (list warning) :=
  if _usable inventory && _usable profile then
    c <- get (val inventory) "claimed_stage" JNull ;;
    claimed <- norm_stage c ;;
    d <- get (val profile) "detected_stage" JNull ;;
    detected <- norm_stage d ;;
    if negb (claimed =? "") && negb (detected =? "") && negb (claimed =? detected) then
      Ok [warn "STAGE_MISMATCH"
            ("Deck claims '" ++ claimed ++ "' but analysis detected '"
             ++ detected ++ "'")]
    else Ok []
  else Ok [].

(** 5. STAGE_OUT_OF_SCOPE *)
Definition rule_stage_out_of_scope (inventory profile : artifact) : result (list warning) :=
  out1 <- (if _usable profile then
             d <- get (val profile) "detected_stage" JNull ;;
             detected <- norm_stage d ;;
             if negb (detected =? "") && negb (str_in detected KNOWN_STAGES)
             then Ok [detected] else Ok []
           else Ok []) ;;
  out2 <- (if _usable inventory then
             c <- get (val inventory) "claimed_stage" JNull ;;
             claimed <- norm_stage c ;;
             if negb (claimed =? "") && negb (str_in claimed KNOWN_STAGES)
                && negb (str_in claimed out1)
             then Ok (out1 ++ [claimed])%list else Ok out1
           else Ok out1) ;;
  if nonempty out2 then
    Ok [warn "STAGE_OUT_OF_SCOPE"
          ("Stage '" ++ join ", " out2 ++ "' is outside calibrated range "
           ++ "(pre_seed, seed, series_a). Results may be less precise.")]
  else Ok [].

(** 6. SLIDE_COUNT_EXTREME *)
Definition rule_slide_count (inventory : artifact) : result (list warning) :=
  if _usable inventory then
    total <- get (val inventory) "total_slides" (JInt 0) ;;
    lt5 <- py_lt total 5 ;;
    if lt5 then
      Ok [warn "SLIDE_COUNT_EXTREME"
            ("Deck has only " ++ fmt rt total
             ++ " slides (<5 — too few for a complete pitch)")]
    else
      gt20 <- py_gt total 20 ;;
      if gt20 then
        Ok [warn "SLIDE_COUNT_EXTREME"
              ("Deck has " ++ fmt rt total
               ++ " slides (>20 — sharp engagement drop-off after ~18)")]
      else Ok []
  else Ok [].

(** 7. UNCITED_CRITIQUE: the body of the loop over the reviews *)
Definition uncited_critique (review : json) : result (list warning) :=
  w <- get review "weaknesses" JNull ;;
  r <- get review "best_practice_refs" JNull ;;
  if nonempty (_as_list w) && negb (nonempty (_as_list r)) then
    n <- get review "slide_number" (JStr "?") ;;
    Ok [warn "UNCITED_CRITIQUE"
          ("Slide " ++ fmt rt n ++ " has critiques without best-practice citations")]
  else Ok [].

Definition rule_uncited_critique (reviews : artifact) : result (list warning) :=
  if _usable reviews then
    rs <- get (val reviews) "reviews" JNull ;;
    for_each uncited_critique (_as_list rs)
  else Ok [].

Definition ai_ids : list string :=
  [ "ai_retention_rebased"; "ai_cost_to_serve_shown";
    "ai_defensibility_beyond_model"; "ai_responsible_controls" ].

(** [i.get("status") == "not_applicable"]; the items reaching this test
    have passed [i.get("id")], so they are dicts *)
Definition status_not_applicable (i : json) : bool :=
  eq_str (dget (_as_dict i) "status" JNull) "not_applicable".

(** 8. AI_CRITERIA_SKIPPED *)
Definition rule_ai_criteria (profile checklist : artifact) : result (list warning) :=
  if _usable profile && _usable checklist then
    is_ai <- get (val profile) "is_ai_company" (JBool false) ;;
    if truthy is_ai then
      its <- get (val checklist) "items" JNull ;;
      ai_items <- filterM (fun i => id <- get i "id" JNull ;; in_str_set id ai_ids)
                          (_as_list its) ;;
      if nonempty ai_items && forallb status_not_applicable ai_items then
        Ok [warn "AI_CRITERIA_SKIPPED"
              "Company detected as AI-first but all AI criteria marked not_applicable"]
      else Ok []
    else Ok []
  else Ok [].

Definition validate_artifacts (arts : artifacts) : result (list warning) :=
  let inventory := art_get arts "deck_inventory.json" in
  let profile := art_get arts "stage_profile.json" in
  let reviews := art_get arts "slide_reviews.json" in
  let checklist := art_get arts "checklist.json" in
  let w1 := required_rule WARNING_SEVERITY REQUIRED_ARTIFACTS arts in
  w3 <- rule_checklist_failures checklist ;;
  w4 <- rule_stage_mismatch inventory profile ;;
  w5 <- rule_stage_out_of_scope inventory profile ;;
  w6 <- rule_slide_count inventory ;;
  w7 <- rule_uncited_critique reviews ;;
  w8 <- rule_ai_criteria profile checklist ;;
  Ok (w1 ++ w3 ++ w4 ++ w5 ++ w6 ++ w7 ++ w8)%list.

End Rules.

Record report : Type := {
  report_markdown : string;
  validation_result : validation
}.

Section Compose.
Variable rt : PyRuntime.
(** The eight section functions joined and the footer: a function of the
    loaded artifacts and of the resolved findings. *)
Variable render : artifacts -> list warning -> result string.

Definition compose (dir : directory) : result report :=
  let all_names := (REQUIRED_ARTIFACTS ++ OPTIONAL_ARTIFACTS)%list in
  let arts := load_all dir all_names in
  let found := found_names arts all_names in
  let missing := missing_names arts all_names in
  ws <- validate_artifacts rt arts ;;
  ws' <- resolve false WARNING_SEVERITY (art_get arts "stage_profile.json") ws ;;
  md <- render arts ws' ;;
  Ok {| report_markdown := md;
        validation_result :=
          {| status := status_of ws';
             warnings := ws';
             artifacts_found := found;
             artifacts_missing := missing |} |}.

End Compose.

Definition WARNING_LABELS : list (string * string) :=
  [ ("CORRUPT_ARTIFACT", "Corrupt Artifact");
    ("MISSING_ARTIFACT", "Missing Artifact");
    ("CHECKLIST_FAILURES_CRITICAL", "Checklist Failures (Critical)");
    ("STAGE_MISMATCH", "Stage Mismatch");
    ("SLIDE_COUNT_EXTREME", "Slide Count");
    ("UNCITED_CRITIQUE", "Uncited Critique");
    ("AI_CRITERIA_SKIPPED", "AI Criteria Skipped");
    ("STAGE_OUT_OF_SCOPE", "Stage Out of Scope") ].

End DeckReview.

(* ================================================================== *)
(** * ic-sim/scripts/compose_report.py *)
(* ================================================================== *)

Module IcSim.

Definition WARNING_SEVERITY : sev_table :=
  [ ("CORRUPT_ARTIFACT", High);
    ("MISSING_ARTIFACT", High);
    ("BLOCKING_CONFLICT", High);
    ("ORPHANED_CONFLICT", High);
    ("VERDICT_SCORE_MISMATCH", High);
    ("PARTNER_UNANIMITY", Medium);
    ("ZERO_APPLICABLE", Medium);
    ("STALE_IMPORT", Medium);
    ("LOW_EVIDENCE", Medium);
    ("FUND_VALIDATION_ERROR", Medium);
    ("DEGRADED_ASSESSMENT", Medium);
    ("CONSENSUS_SCORE_MISMATCH", Medium);
    ("UNANIMOUS_VERDICT_MISMATCH", Medium);
    ("SHALLOW_ASSESSMENT", Medium);
    ("HIGH_NA_COUNT", Medium);
    ("SCHEMA_DRIFT", Low);
    ("STAGE_OUT_OF_SCOPE", Low);
    ("PARTNER_CONVERGENCE", Info);
    ("SEQUENTIAL_FALLBACK", Info) ].

Definition REQUIRED_ARTIFACTS : list string :=
  [ "startup_profile.json"; "fund_profile.json"; "conflict_check.json";
    "discussion.json"; "score_dimensions.json" ].

Definition PARTNER_ASSESSMENT_FILES : list string :=
  [ "partner_assessment_visionary.json"; "partner_assessment_operator.json";
    "partner_assessment_analyst.json" ].

Definition OPTIONAL_ARTIFACTS : list string :=
  "prior_artifacts.json" :: PARTNER_ASSESSMENT_FILES.

(** [EXPECTED_KEYS], in the order the dict literal lists them *)
Definition EXPECTED_KEYS : list (string * list string) :=
  [ ("startup_profile.json",
      [ "company_name"; "simulation_date"; "stage"; "one_liner"; "sector";
        "geography"; "business_model"; "funding_history"; "current_raise";
        "key_metrics"; "materials_provided"; "founded"; "team"; "website";
        "competitors"; "product_description"; "team_highlights" ]);
    ("fund_profile.json",
      [ "fund_name"; "mode"; "thesis_areas"; "check_size_range"; "stage_focus";
        "archetypes"; "portfolio"; "sources"; "validation"; "accepted_warnings" ]);
    ("conflict_check.json",
      [ "portfolio_size"; "conflicts"; "summary"; "validation" ]);
    ("discussion.json",
      [ "assessment_mode"; "partner_verdicts"; "debate_sections";
        "consensus_verdict"; "key_concerns"; "diligence_requirements";
        "assessment_mode_intentional" ]);
    ("score_dimensions.json", [ "items"; "summary" ]);
    ("prior_artifacts.json", [ "imported"; "skipped"; "reason" ]) ].

Definition REQUIRED_KEYS : list (string * list string) :=
  [ ("startup_profile.json", [ "company_name"; "stage"; "one_liner"; "sector" ]);
    ("fund_profile.json",
      [ "fund_name"; "mode"; "thesis_areas"; "check_size_range"; "stage_focus";
        "archetypes"; "portfolio" ]);
    ("conflict_check.json", [ "portfolio_size"; "conflicts" ]);
    ("discussion.json",
      [ "assessment_mode"; "partner_verdicts"; "consensus_verdict" ]);
    ("score_dimensions.json", [ "items"; "summary" ]) ].

Definition VERDICT_SCORE_RANGES : list (string * (Q * Q)) :=
  [ ("invest", (75, 100)); ("more_diligence", (50, 749 # 10));
    ("pass", (0, 499 # 10)) ].

Definition warn := _warn WARNING_SEVERITY.

(** [_normalize_ws] *)
Definition _normalize_ws (s : string) : string := strip (collapse_ws false s).

(** [name[:-len(suffix)]] when [name.endswith(suffix)] *)
Definition drop_suffix (suffix name : string) : option string :=
  let n := String.length name in
  let k := String.length suffix in
  if (k <=? n)%nat && (substring (n - k) k name =? suffix)
  then Some (substring 0 (n - k) name) else None.

Fixpoint drop_first_suffix (suffixes : list string) (name : string) : string :=
  match suffixes with
  | [] => name
  | s :: rest =>
      match drop_suffix s name with
      | Some name' => name'
      | None => drop_first_suffix rest name
      end
  end.

(** [_normalize_company], on a [str] *)
Definition normalize_company_str (name : string) : string :=
  let name := lower (strip name) in
  let name := drop_first_suffix
                [" inc."; " inc"; " llc"; " ltd."; " ltd"; " corp."; " corp"] name in
  strip (collapse_ws false name).

(** [_normalize_company] on any value: [name.strip()] needs a [str] *)
Definition _normalize_company (v : json) : result string :=
  match v with
  | JStr s => Ok (normalize_company_str s)
  | _ => Raise AttributeError
  end.

(** [_normalize_verdict] *)
Definition _normalize_verdict (v : json) : string :=
  match v with
  | JStr s =>
      if strip s =? "" then ""
      else replace_char " " "_" (replace_char "-" "_" (lower (strip s)))
  | _ => ""
  end.

(** ** Dates: [datetime.strptime(s, "%Y-%m-%d")] *)

Definition digit_val (c : ascii) : option Z :=
  let n := nat_of_ascii c in
  if (48 <=? n)%nat && (n <=? 57)%nat then Some (Z.of_nat (n - 48)) else None.

(** The month field: [1[0-2]|0[1-9]|[1-9]] *)
Definition parse_month (s : string) : option Z :=
  match s with
  | String a EmptyString =>
      match digit_val a with
      | Some d => if (1 <=? d)%Z then Some d else None
      | None => None
      end
  | String a (String b EmptyString) =>
      match digit_val a, digit_val b with
      | Some x, Some y =>
          let m := (10 * x + y)%Z in
          if (1 <=? m)%Z && (m <=? 12)%Z then Some m else None
      | _, _ => None
      end
  | _ => None
  end.

(** The day field: [3[01]|[12]\d|0[1-9]|[1-9]| [1-9]] *)
Definition parse_day (s : string) : option Z :=
  match s with
  | String a EmptyString =>
      match digit_val a with
      | Some d => if (1 <=? d)%Z then Some d else None
      | None => None
      end
  | String a (String b EmptyString) =>
      match digit_val b with
      | Some y =>
          if Ascii.eqb a " " then (if (1 <=? y)%Z then Some y else None)
          else
            match digit_val a with
            | Some x =>
                let d := (10 * x + y)%Z in
                if (1 <=? d)%Z && (d <=? 31)%Z then Some d else None
            | None => None
            end
      | None => None
      end
  | _ => None
  end.

Definition parse_year (s : string) : option Z :=
  match s with
  | String a (String b (String c (String d EmptyString))) =>
      match digit_val a, digit_val b, digit_val c, digit_val d with
      | Some w, Some x, Some y, Some z => Some (1000 * w + 100 * x + 10 * y + z)%Z
      | _, _, _, _ => None
      end
  | _ => None
  end.

(** The text before the first ['-'] and the text after it. *)
Fixpoint split_dash (s : string) : option (string * string) :=
  match s with
  | EmptyString => None
  | String c s' =>
      if Ascii.eqb c "-" then Some (EmptyString, s')
      else
        match split_dash s' with
        | Some (a, b) => Some (String c a, b)
        | None => None
        end
  end.

Definition is_leap (y : Z) : bool :=
  ((y mod 4 =? 0) && (negb (y mod 100 =? 0) || (y mod 400 =? 0)))%Z.

Definition days_in_month (y m : Z) : Z :=
  if (m =? 2)%Z then (if is_leap y then 29 else 28)
  else if ((m =? 4) || (m =? 6) || (m =? 9) || (m =? 11))%Z then 30 else 31.

Definition days_before_year (y : Z) : Z :=
  let p := (y - 1)%Z in (p * 365 + p / 4 - p / 100 + p / 400)%Z.

Fixpoint days_before_month_aux (y : Z) (m : nat) : Z :=
  match m with
  | O => 0
  | S k => (days_before_month_aux y k + days_in_month y (Z.of_nat (S k)))%Z
  end.

(** [date(y, m, d).toordinal()] *)
Definition ymd2ord (y m d : Z) : Z :=
  (days_before_year y + days_before_month_aux y (Z.to_nat (m - 1)) + d)%Z.

Definition US_PER_DAY : Z := 86400000000.

(** Microseconds from 0001-01-01T00:00:00 to midnight of the parsed date;
    [None] is [ValueError]. *)
Definition strptime_ymd (s : string) : option Z :=
  match split_dash s with
  | Some (ys, rest) =>
      match split_dash rest with
      | Some (ms, ds) =>
          match parse_year ys, parse_month ms, parse_day ds with
          | Some y, Some m, Some d =>
              if (1 <=? y)%Z && (d <=? days_in_month y m)%Z
              then Some ((ymd2ord y m d - 1) * US_PER_DAY)%Z
              else None
          | _, _, _ => None
          end
      | None => None
      end
  | None => None
  end.

(** [s[:10]] *)
Definition first10 (s : string) : string := substring 0 10 s.

(** ** Equality of hashable values, for [set(...)] *)

Definition hashable (v : json) : bool :=
  match v with JList _ | JDict _ => false | _ => true end.

Definition scalar_eqb (a b : json) : bool :=
  match a, b with
  | JNull, JNull => true
  | JStr s, JStr t => s =? t
  | _, _ =>
      match num_val a, num_val b with
      | Some x, Some y => Qeq_bool x y
      | _, _ => false
      end
  end.

(** The elements of [set(l)], one representative each; hashing a list or
    a dict raises. *)
Fixpoint py_set (l : list json) (seen : list json) : result (list json) :=
  match l with
  | [] => Ok seen
  | v :: rest =>
      if hashable v then
        py_set rest (if existsb (scalar_eqb v) seen then seen else (seen ++ [v])%list)
      else Raise TypeError
  end.

(** [re.sub] on a value that must be a [str] *)
Definition normalize_ws_val (v : json) : result string :=
  match v with
  | JStr s => Ok (_normalize_ws s)
  | _ => Raise TypeError
  end.

(** The nested loops of rule 5: are two of the entries equal? *)
Fixpoint has_identical (l : list string) : bool :=
  match l with
  | [] => false
  | x :: rest => str_in x rest || has_identical rest
  end.

Section Rules.
Variable rt : PyRuntime.
(** [datetime.now()], in microseconds from 0001-01-01T00:00:00 *)
Variable now : Z.

(** 2. BLOCKING_CONFLICT *)
Definition rule_blocking_conflict (conflict_check : artifact) : result (list warning) :=
  if _usable conflict_check then
    s <- get (val conflict_check) "summary" JNull ;;
    if is_True (dget (_as_dict s) "has_blocking_conflict" JNull) then
      Ok [warn "BLOCKING_CONFLICT"
            "Portfolio has a blocking conflict — cannot proceed with investment"]
    else Ok []
  else Ok [].

(** 3. ORPHANED_CONFLICT: the set comprehension over the portfolio *)
Definition portfolio_name (entry : json) : result (list string) :=
  match entry with
  | JDict kvs => n <- _normalize_company (dget kvs "name" (JStr "")) ;; Ok [n]
  | _ => Ok []
  end.

Definition orphaned_conflict (portfolio_names : list string) (conflict : json)
    : result (list warning) :=
  company <- get conflict "company" (JStr "") ;;
  n <- _normalize_company company ;;
  if negb (str_in n portfolio_names) then
    Ok [warn "ORPHANED_CONFLICT"
          ("Conflict company '" ++ fmt rt company
           ++ "' not in fund_profile.portfolio"
           ++ " — cross-artifact identity mismatch")]
  else Ok [].

Definition rule_orphaned_conflict (conflict_check fund_profile : artifact)
    : result (list warning) :=
  if _usable conflict_check && _usable fund_profile then
    p <- get (val fund_profile) "portfolio" JNull ;;
    portfolio_names <- for_each portfolio_name (_as_list p) ;;
    cs <- get (val conflict_check) "conflicts" JNull ;;
    for_each (orphaned_conflict portfolio_names) (_as_list cs)
  else Ok [].

(** [low <= v <= high] *)
Definition py_between (low high : Q) (v : json) : result bool :=
  match num_val v with
  | Some q => Ok (Qle_bool low q && Qle_bool q high)
  | None => Raise TypeError
  end.

(** [verdict in VERDICT_SCORE_RANGES] and, when it is, the range *)
Definition range_of (verdict : json) : result (option (Q * Q)) :=
  match verdict with
  | JList _ | JDict _ => Raise TypeError
  | JStr s => Ok (lookup s VERDICT_SCORE_RANGES)
  | _ => Ok None
  end.

(** 4. VERDICT_SCORE_MISMATCH *)
Definition rule_verdict_score (score_dims : artifact) : result (list warning) :=
  if _usable score_dims then
    s <- get (val score_dims) "summary" JNull ;;
    let score_summary := _as_dict s in
    let score_warnings := _as_list (dget score_summary "warnings" JNull) in
    let conviction_score := dget score_summary "conviction_score" (JFloat 0) in
    let verdict := dget score_summary "verdict" (JStr "") in
    let has_zero_applicable := str_in_list "ZERO_APPLICABLE_DIMENSIONS" score_warnings in
    if has_zero_applicable then Ok []
    else
      r <- range_of verdict ;;
      match r with
      | Some (low, high) =>
          inside <- py_between low high conviction_score ;;
          if negb inside && negb (eq_str verdict "hard_pass") then
            Ok [warn "VERDICT_SCORE_MISMATCH"
                  ("Verdict '" ++ fmt rt verdict ++ "' does not match score "
                   ++ fmt rt conviction_score ++ "% "
                   ++ "(expected range: " ++ fmt rt (JFloat low) ++ "%-"
                   ++ fmt rt (JFloat high) ++ "%)")]
          else Ok []
      | None => Ok []
      end
  else Ok [].

(** 4b. CONSENSUS_SCORE_MISMATCH *)
Definition rule_consensus_score (discussion score_dims : artifact) : result (list warning) :=
  if _usable discussion && _usable score_dims then
    cv <- get (val discussion) "consensus_verdict" JNull ;;
    let consensus_v := _normalize_verdict cv in
    s <- get (val score_dims) "summary" JNull ;;
    let sv := dget (_as_dict s) "verdict" JNull in
    let score_v := _normalize_verdict sv in
    if negb (consensus_v =? "") && negb (score_v =? "") && negb (consensus_v =? score_v) then
      Ok [warn "CONSENSUS_SCORE_MISMATCH"
            ("Discussion consensus verdict '" ++ fmt rt cv ++ "' "
             ++ "differs from score verdict '" ++ fmt rt sv ++ "' "
             ++ "— review for consistency")]
    else Ok []
  else Ok [].

Definition _POSITIVE_VERDICTS : list string := ["invest"; "more_diligence"].
Definition _NEGATIVE_VERDICTS : list string := ["pass"; "hard_pass"].

(** The comprehension of rule 4c: dict entries with a truthy verdict *)
Definition partner_verdict (pv : json) : list string :=
  match pv with
  | JDict kvs =>
      let v := dget kvs "verdict" JNull in
      if truthy v then [_normalize_verdict v] else []
  | _ => []
  end.

(** 4c. UNANIMOUS_VERDICT_MISMATCH *)
Definition rule_unanimous_verdict (discussion : artifact) : result (list warning) :=
  if _usable discussion then
    cv <- get (val discussion) "consensus_verdict" JNull ;;
    let consensus := _normalize_verdict cv in
    pvs <- get (val discussion) "partner_verdicts" JNull ;;
    let partner_verdicts_list := flat_map partner_verdict (_as_list pvs) in
    if nonempty partner_verdicts_list then
      let all_positive := forallb (fun v => str_in v _POSITIVE_VERDICTS) partner_verdicts_list in
      let all_negative := forallb (fun v => str_in v _NEGATIVE_VERDICTS) partner_verdicts_list in
      let consensus_positive := str_in consensus _POSITIVE_VERDICTS in
      let consensus_negative := str_in consensus _NEGATIVE_VERDICTS in
      if (all_positive && consensus_negative) || (all_negative && consensus_positive) then
        Ok [warn "UNANIMOUS_VERDICT_MISMATCH"
              ("All " ++ str_of_nat (List.length partner_verdicts_list)
               ++ " partners are "
               ++ (if all_positive then "positive" else "negative") ++ " "
               ++ "but consensus is '" ++ fmt rt cv ++ "' "
               ++ "(" ++ (if consensus_negative then "negative" else "positive") ++ ") "
               ++ "— partner_verdicts or consensus_verdict likely not "
               ++ "updated after debate")]
      else Ok []
    else Ok []
  else Ok [].

(** 5. PARTNER_UNANIMITY / PARTNER_CONVERGENCE *)
Definition rule_partner_unanimity (discussion : artifact) : result (list warning) :=
  if _usable discussion then
    pvs <- get (val discussion) "partner_verdicts" JNull ;;
    let partner_verdicts := _as_list pvs in
    assessment_mode <- get (val discussion) "assessment_mode" (JStr "sequential") ;;
    if (List.length partner_verdicts =? 3)%nat then
      verdicts_list <- mapM (fun pv => get pv "verdict" JNull) partner_verdicts ;;
      rationales <- mapM (fun pv => get pv "rationale" (JStr "")) partner_verdicts ;;
      distinct <- py_set verdicts_list [] ;;
      if (List.length distinct =? 1)%nat then
        normalized <- mapM normalize_ws_val rationales ;;
        if has_identical normalized then
          Ok [warn "PARTNER_UNANIMITY"
                ("All 3 partners agree on verdict AND share identical"
                 ++ " rationales — flags generation collapse")]
        else if eq_str assessment_mode "sub-agent" then
          Ok [warn "PARTNER_CONVERGENCE"
                "All 3 partners independently converged on the same verdict with distinct rationales"]
        else Ok []
      else Ok []
    else Ok []
  else Ok [].

(** 6. ZERO_APPLICABLE *)
Definition rule_zero_applicable (score_dims : artifact) : result (list warning) :=
  if _usable score_dims then
    s <- get (val score_dims) "summary" JNull ;;
    let score_warnings := _as_list (dget (_as_dict s) "warnings" JNull) in
    if str_in_list "ZERO_APPLICABLE_DIMENSIONS" score_warnings then
      Ok [warn "ZERO_APPLICABLE" "All dimensions marked not_applicable — score is 0.0"]
    else Ok []
  else Ok [].

(** 7. STALE_IMPORT: the body of the loop.  A truthy [import_date] that is
    not a [str] cannot be sliced and parsed: a number or a bool is not
    subscriptable, a list slices to a list that [strptime] refuses, a dict
    refuses the slice as a key (with [KeyError] from Python 3.12 on);
    none of these is the [ValueError] the handler catches. *)
Definition stale_import (imp : json) : result (list warning) :=
  d <- get imp "import_date" (JStr "") ;;
  if truthy d then
    match d with
    | JStr import_date_str =>
        match strptime_ymd (first10 import_date_str) with
        | Some import_date =>
            if (now - import_date >? 7 * US_PER_DAY)%Z then
              source <- get imp "source_skill" (JStr "unknown") ;;
              Ok [warn "STALE_IMPORT"
                    ("Imported " ++ fmt rt source ++ " artifact from "
                     ++ import_date_str ++ " is older than 7 days")]
            else Ok []
        | None => Ok []
        end
    | _ => Raise TypeError
    end
  else Ok [].

Definition rule_stale_import (prior : artifact) : result (list warning) :=
  if _usable prior then
    i <- get (val prior) "imported" JNull ;;
    for_each stale_import (_as_list i)
  else Ok [].

(** 8. LOW_EVIDENCE *)
Definition low_evidence (item : json) : result (list warning) :=
  st <- get item "status" JNull ;;
  if negb (eq_str st "not_applicable") then
    evidence <- get item "evidence" JNull ;;
    if negb (truthy evidence)
       || match evidence with JStr e => strip e =? "" | _ => false end
    then
      i <- get item "id" (JStr "?") ;;
      Ok [warn "LOW_EVIDENCE" ("Dimension '" ++ fmt rt i ++ "' has no evidence field")]
    else Ok []
  else Ok [].

Definition rule_low_evidence (score_dims : artifact) : result (list warning) :=
  if _usable score_dims then
    its <- get (val score_dims) "items" JNull ;;
    for_each low_evidence (_as_list its)
  else Ok [].

(** 9. FUND_VALIDATION_ERROR *)
Definition rule_fund_validation (fund_profile : artifact) : result (list warning) :=
  if _usable fund_profile then
    v <- get (val fund_profile) "validation" JNull ;;
    let validation := _as_dict v in
    if negb (eq_str (dget validation "status" JNull) "valid") then
      let errors := _as_list (dget validation "errors" JNull) in
      Ok [warn "FUND_VALIDATION_ERROR"
            ("Fund profile validation failed: "
             ++ join "; " (map (fmt rt) (firstn 3 errors)))]
    else Ok []
  else Ok [].

(** [_usable(discussion) and discussion.get("assessment_mode") == m] *)
Definition discussion_mode_is (discussion : artifact) (m : string) : result bool :=
  if _usable discussion then
    a <- get (val discussion) "assessment_mode" JNull ;;
    Ok (eq_str a m)
  else Ok false.

(** 10. DEGRADED_ASSESSMENT *)
Definition rule_degraded (arts : artifacts) (discussion : artifact) : result (list warning) :=
  sub <- discussion_mode_is discussion "sub-agent" ;;
  if sub then
    Ok (flat_map (fun pa_file =>
          if is_None (art_get arts pa_file) then
            [warn "DEGRADED_ASSESSMENT"
               ("Sub-agent mode but " ++ pa_file
                ++ " is missing — indicates sub-agent failure with silent fallback")]
          else []) PARTNER_ASSESSMENT_FILES)
  else Ok [].

(** 10b. SHALLOW_ASSESSMENT: the body of the loop *)
Definition shallow_assessment (arts : artifacts) (pa_file : string) : result (list warning) :=
  let pa_data := art_get arts pa_file in
  if _usable pa_data then
    cp <- get (val pa_data) "conviction_points" JNull ;;
    let i1 := if (List.length (_as_list cp) <? 2)%nat then ["conviction_points < 2"] else [] in
    kc <- get (val pa_data) "key_concerns" JNull ;;
    let i2 := if (List.length (_as_list kc) <? 2)%nat then ["key_concerns < 2"] else [] in
    r <- get (val pa_data) "rationale" (JStr "") ;;
    let rationale := match r with JStr s => s | _ => "" end in
    let i3 := if (String.length rationale <? 100)%nat then ["rationale < 100 chars"] else [] in
    let issues := (i1 ++ i2 ++ i3)%list in
    if nonempty issues then
      Ok [warn "SHALLOW_ASSESSMENT" (pa_file ++ ": " ++ join ", " issues)]
    else Ok []
  else Ok [].

Definition rule_shallow (arts : artifacts) (discussion : artifact) : result (list warning) :=
  sub <- discussion_mode_is discussion "sub-agent" ;;
  if sub then for_each (shallow_assessment arts) PARTNER_ASSESSMENT_FILES
  else Ok [].

(** 10c. HIGH_NA_COUNT *)
Definition is_na_item (item : json) : bool :=
  match item with
  | JDict kvs => eq_str (dget kvs "status" JNull) "not_applicable"
  | _ => false
  end.

Definition rule_high_na (score_dims : artifact) : result (list warning) :=
  if _usable score_dims then
    its <- get (val score_dims) "items" JNull ;;
    let na_count := List.length (filter is_na_item (_as_list its)) in
    if (6 <? na_count)%nat then
      Ok [warn "HIGH_NA_COUNT"
            (str_of_nat na_count
             ++ " of 28 dimensions marked not_applicable — conviction score may be inflated")]
    else Ok []
  else Ok [].

(** [artifact.keys()] *)
Definition keys_of (v : json) : result (list string) :=
  match v with
  | JDict kvs => Ok (map fst kvs)
  | _ => Raise AttributeError
  end.

(** 11. SCHEMA_DRIFT: the body of the loop over [EXPECTED_KEYS] *)
Definition schema_drift (arts : artifacts) (entry : string * list string)
    : result (list warning) :=
  let '(name, expected) := entry in
  let artifact := art_get arts name in
  if _usable artifact then
    actual_keys <- keys_of (val artifact) ;;
    let extra := filter (fun k => negb (str_in k expected)) actual_keys in
    let w1 := if nonempty extra then
                [warn "SCHEMA_DRIFT"
                   (name ++ " has unexpected top-level keys: " ++ repr_strs rt (sorted_set extra))]
              else [] in
    let required := match lookup name REQUIRED_KEYS with Some r => r | None => [] end in
    let missing := filter (fun k => negb (str_in k actual_keys)) required in
    let w2 := if nonempty missing then
                [warn "SCHEMA_DRIFT"
                   (name ++ " missing required top-level keys: " ++ repr_strs rt (sorted_set missing))]
              else [] in
    Ok (w1 ++ w2)%list
  else Ok [].

Definition rule_schema_drift (arts : artifacts) : result (list warning) :=
  for_each (schema_drift arts) EXPECTED_KEYS.

(** 12. STAGE_OUT_OF_SCOPE *)
Definition rule_stage_out_of_scope (startup : artifact) : result (list warning) :=
  if _usable startup then
    s <- get (val startup) "stage" JNull ;;
    stage <- norm_stage s ;;
    if negb (stage =? "") && negb (str_in stage KNOWN_STAGES) then
      Ok [warn "STAGE_OUT_OF_SCOPE"
            ("Stage '" ++ stage ++ "' is outside calibrated range "
             ++ "(pre_seed, seed, series_a). Results may be less precise.")]
    else Ok []
  else Ok [].

(** 13. SEQUENTIAL_FALLBACK *)
Definition rule_sequential_fallback (discussion : artifact) : result (list warning) :=
  seq <- discussion_mode_is discussion "sequential" ;;
  if seq then
    i <- get (val discussion) "assessment_mode_intentional" JNull ;;
    if negb (truthy i) then
      Ok [warn "SEQUENTIAL_FALLBACK"
            "Assessments generated sequentially (no sub-agents) — not an error, just transparency"]
    else Ok []
  else Ok [].

Definition validate_artifacts (arts : artifacts) : result (list warning) :=
  let fund_profile := art_get arts "fund_profile.json" in
  let conflict_check := art_get arts "conflict_check.json" in
  let discussion := art_get arts "discussion.json" in
  let score_dims := art_get arts "score_dimensions.json" in
  let prior := art_get arts "prior_artifacts.json" in
  let w1 := required_rule WARNING_SEVERITY REQUIRED_ARTIFACTS arts in
  w2 <- rule_blocking_conflict conflict_check ;;
  w3 <- rule_orphaned_conflict conflict_check fund_profile ;;
  w4 <- rule_verdict_score score_dims ;;
  w4b <- rule_consensus_score discussion score_dims ;;
  w4c <- rule_unanimous_verdict discussion ;;
  w5 <- rule_partner_unanimity discussion ;;
  w6 <- rule_zero_applicable score_dims ;;
  w7 <- rule_stale_import prior ;;
  w8 <- rule_low_evidence score_dims ;;
  w9 <- rule_fund_validation fund_profile ;;
  w10 <- rule_degraded arts discussion ;;
  w10b <- rule_shallow arts discussion ;;
  w10c <- rule_high_na score_dims ;;
  w11 <- rule_schema_drift arts ;;
  let startup := art_get arts "startup_profile.json" in
  w12 <- rule_stage_out_of_scope startup ;;
  w13 <- rule_sequential_fallback discussion ;;
  Ok (w1 ++ w2 ++ w3 ++ w4 ++ w4b ++ w4c ++ w5 ++ w6 ++ w7 ++ w8 ++ w9
      ++ w10 ++ w10b ++ w10c ++ w11 ++ w12 ++ w13)%list.

End Rules.

Record report : Type := {
  report_markdown : string;
  validation_result : validation
}.

Section Compose.
Variable rt : PyRuntime.
(** The ten section functions joined and the footer: a function of the
    loaded artifacts and of the resolved findings. *)
Variable render : artifacts -> list warning -> result string.
Variable now : Z.

Definition compose (dir : directory) : result report :=
  let all_names := (REQUIRED_ARTIFACTS ++ OPTIONAL_ARTIFACTS)%list in
  let arts := load_all dir all_names in
  let found := found_names arts all_names in
  let missing := missing_names arts all_names in
  ws <- validate_artifacts rt now arts ;;
  ws' <- resolve true WARNING_SEVERITY (art_get arts "fund_profile.json") ws ;;
  md <- render arts ws' ;;
  Ok {| report_markdown := md;
        validation_result :=
          {| status := status_of ws';
             warnings := ws';
             artifacts_found := found;
             artifacts_missing := missing |} |}.

End Compose.

Definition WARNING_LABELS : list (string * string) :=
  [ ("CORRUPT_ARTIFACT", "Corrupt Artifact");
    ("MISSING_ARTIFACT", "Missing Artifact");
    ("BLOCKING_CONFLICT", "Blocking Conflict");
    ("ORPHANED_CONFLICT", "Orphaned Conflict");
    ("VERDICT_SCORE_MISMATCH", "Verdict/Score Mismatch");
    ("PARTNER_UNANIMITY", "Partner Unanimity");
    ("ZERO_APPLICABLE", "Zero Applicable Dimensions");
    ("STALE_IMPORT", "Stale Import");
    ("LOW_EVIDENCE", "Low Evidence");
    ("FUND_VALIDATION_ERROR", "Fund Validation Error");
    ("DEGRADED_ASSESSMENT", "Degraded Assessment");
    ("CONSENSUS_SCORE_MISMATCH", "Consensus/Score Verdict Mismatch");
    ("UNANIMOUS_VERDICT_MISMATCH", "Unanimous Verdict Mismatch");
    ("SHALLOW_ASSESSMENT", "Shallow Assessment");
    ("HIGH_NA_COUNT", "High N/A Count");
    ("SCHEMA_DRIFT", "Schema Drift");
    ("STAGE_OUT_OF_SCOPE", "Stage Out of Scope");
    ("PARTNER_CONVERGENCE", "Partner Convergence");
    ("SEQUENTIAL_FALLBACK", "Sequential Fallback") ].

End IcSim.

(* ================================================================== *)
(** * market-sizing/scripts/compose_report.py *)
(* ================================================================== *)

Module MarketSizing.

Definition WARNING_SEVERITY : sev_table :=
  [ ("CORRUPT_ARTIFACT", High);
    ("MISSING_ARTIFACT", High);
    ("CHECKLIST_FAILURES", High);
    ("OVERCLAIMED_VALIDATION", High);
    ("UNVALIDATED_CLAIMS", High);
    ("MISSING_OPTIONAL_ARTIFACT", Low);
    ("UNSOURCED_ASSUMPTIONS", Medium);
    ("APPROACH_MISMATCH", Medium);
    ("TAM_DISCREPANCY", Medium);
    ("CHECKLIST_INCOMPLETE", Medium);
    ("FEW_SENSITIVITY_PARAMS", Medium);
    ("NARROW_AGENT_ESTIMATE_RANGE", Medium);
    ("LOW_CHECKLIST_COVERAGE", Medium);
    ("REFUTED_CLAIMS", Medium);
    ("REFUTED_MISSING_REASON", Medium);
    ("DECK_CLAIM_MISMATCH", Low);
    ("PROVENANCE_UNRESOLVED", Low) ].

Definition QUANTITATIVE_PARAMS : list string :=
  [ "customer_count"; "arpu"; "serviceable_pct"; "target_pct";
    "industry_total"; "segment_pct"; "share_pct" ].

Definition REQUIRED_ARTIFACTS : list string :=
  [ "inputs.json"; "methodology.json"; "validation.json"; "sizing.json";
    "checklist.json" ].

Definition OPTIONAL_ARTIFACTS : list string := [ "sensitivity.json" ].

Definition PARAM_LABELS : list (string * string) :=
  [ ("customer_count", "Customer Count");
    ("arpu", "ARPU");
    ("serviceable_pct", "Serviceable %");
    ("target_pct", "Target Capture %");
    ("industry_total", "Industry Total");
    ("segment_pct", "Segment %");
    ("share_pct", "Market Share %");
    ("tam", "TAM");
    ("sam", "SAM") ].

Definition warn := _warn WARNING_SEVERITY.

(** The integer nearest to a rational, ties to the even integer *)
Definition round_half_even (q : Q) : Z :=
  let f := Qfloor q in
  let r := (q - inject_Z f)%Q in
  match Qcompare r (1 # 2) with
  | Lt => f
  | Gt => (f + 1)%Z
  | Eq => if Z.even f then f else (f + 1)%Z
  end.

(** [round(x, 1)] on a float.  The interpreter rounds the exact binary
    value of [x] to one decimal place, ties to the even tenth, and returns
    the float nearest to that decimal; the sign is kept when the result is
    zero; NaN, the infinities and the zeros round to themselves. *)
Definition round1 (x : float) : float :=
  match x with
  | S754_finite s m e =>
      match round_half_even (magnitude m e * 10) with
      | Zpos tenths => nearest s tenths 10
      | _ => S754_zero s
      end
  | _ => x
  end.

(** A Python number: an [int], [bool] included, or a [float] *)
Inductive number : Type :=
| NInt (z : Z)
| NFloat (x : float).

Definition number_of (v : json) : option number :=
  match v with
  | JBool b => Some (NInt (if b then 1 else 0))
  | JInt z => Some (NInt z)
  | JFloat q => Some (NFloat (of_Q q))
  | _ => None
  end.

(** [n >= c] for an [int] constant: the comparison is exact *)
Definition ge_const (n : number) (c : positive) : bool :=
  match n with
  | NInt z => (Zpos c <=? z)%Z
  | NFloat x => fleb (of_Z (Zpos c)) x
  end.

(** [n / c] for an [int] constant.  The quotient of two [int]s is the
    float nearest to the exact quotient, and [OverflowError] when that is
    beyond the largest float. *)
Definition div_const (n : number) (c : positive) : result float :=
  match n with
  | NInt z =>
      let x := of_Q (z # c) in
      if is_finite x then Ok x else Raise OverflowError
  | NFloat x => Ok (fdiv x (of_Z (Zpos c)))
  end.

(** [float(n)] for a number: an [int] too large for a float raises *)
Definition float_of_number (n : number) : result float :=
  match n with
  | NInt z =>
      let x := of_Z z in
      if is_finite x then Ok x else Raise OverflowError
  | NFloat x => Ok x
  end.

(** The figures of an approach, with [metric.upper()] *)
Definition METRICS : list (string * string) :=
  [ ("tam", "TAM"); ("sam", "SAM"); ("som", "SOM") ].

Definition APPROACHES : list string := [ "top_down"; "bottom_up" ].

(** One entry of the provenance report *)
Record figure_provenance : Type := {
  classification : string;
  confidence_breakdown : nat * nat * nat;   (* sourced, derived, agent_estimate *)
  deck_claim : json;
  delta_vs_deck_pct : option float;
  input_provenances : list (string * json)
}.

Section Rules.
Variable rt : PyRuntime.

(** [_humanize_param] *)
Definition _humanize_param (name : string) : string :=
  match lookup name PARAM_LABELS with
  | Some l => l
  | None => title rt (replace_char "_" " " name)
  end.

(** [float(v)]: a number gives its float, [OverflowError] for an [int]
    beyond the largest float; a string gives what the interpreter reads
    in it, or [ValueError]; anything else is a [TypeError]. *)
Definition py_float (v : json) : result float :=
  match v with
  | JStr s =>
      match float_of_str rt s with Some x => Ok x | None => Raise ValueError end
  | _ =>
      match number_of v with
      | Some n => float_of_number n
      | None => Raise TypeError
      end
  end.

(** [_compute_delta]: the [TypeError] and the [ValueError] of [float] are
    caught, its [OverflowError] is not.  [claim <= 0] is false of NaN, and
    the arithmetic is that of floats. *)
Definition _compute_delta (calculated : float) (deck_claim : json)
    : result (option float) :=
  match py_float deck_claim with
  | Ok claim =>
      if fleb claim (of_Z 0) then Ok None
      else Ok (Some (round1 (fmul (fdiv (fsub calculated claim) claim) (of_Z 100))))
  | Raise TypeError | Raise ValueError => Ok None
  | Raise e => Raise e
  end.

(** [_fmt_usd] on a number: the format converts an [int] to a float *)
Definition _fmt_usd_number (value : number) : result string :=
  if ge_const value 1000000000 then
    x <- div_const value 1000000000 ;;
    Ok ("$" ++ format_float rt ",.1f" x ++ "B")
  else if ge_const value 1000000 then
    x <- div_const value 1000000 ;;
    Ok ("$" ++ format_float rt ",.1f" x ++ "M")
  else if ge_const value 1000 then
    x <- div_const value 1000 ;;
    Ok ("$" ++ format_float rt ",.1f" x ++ "K")
  else
    x <- float_of_number value ;;
    Ok ("$" ++ format_float rt ",.2f" x).

(** [_fmt_usd] on any value: the comparisons need a number *)
Definition _fmt_usd (value : json) : result string :=
  match number_of value with
  | Some n => _fmt_usd_number n
  | None => Raise TypeError
  end.

(** ** [_compute_provenance] *)

(** The loop that fills [assumption_map]: a later assumption of the same
    name replaces an earlier one.  A truthy name that is a list or a dict
    cannot be a key. *)
Definition assumption_entry (assumption : json) : result (list (string * json)) :=
  match assumption with
  | JDict kvs =>
      let name := dget kvs "name" (JStr "") in
      let cat := dget kvs "category" (JStr "") in
      if truthy name && truthy cat then
        match name with
        | JStr n => Ok [(n, cat)]
        | JList _ | JDict _ => Raise TypeError
        | _ => Ok []  (* a number or a bool: a key no parameter name equals *)
        end
      else Ok []
  | _ => Ok []
  end.

(** The map as the list of its assignments, latest first: [lookup] then
    returns the value the dict holds. *)
Definition build_assumption_map (validation : artifact) : result (list (string * json)) :=
  if negb (is_None validation) && negb (_is_stub validation) then
    a <- get (val validation) "assumptions" JNull ;;
    es <- for_each assumption_entry (_as_list a) ;;
    Ok (rev es)
  else Ok [].

Definition build_existing_claims (inputs : artifact) : result (list (string * json)) :=
  if negb (is_None inputs) && negb (_is_stub inputs) then
    c <- get (val inputs) "existing_claims" JNull ;;
    Ok (_as_dict c)
  else Ok [].

(** The keys of a dict, each once, in insertion order *)
Fixpoint dict_keys (seen : list string) (kvs : list (string * json)) : list string :=
  match kvs with
  | [] => []
  | (k, _) :: rest =>
      if str_in k seen then dict_keys seen rest else k :: dict_keys (k :: seen) rest
  end.

(** The quantitative parameters among a figure's inputs *)
Definition relevant_inputs (figure_inputs : list (string * json)) : list string :=
  filter (fun k => str_in k QUANTITATIVE_PARAMS) (dict_keys [] figure_inputs).

Definition resolved_inputs (assumption_map : list (string * json)) (params : list string)
    : list (string * json) :=
  flat_map (fun p => match lookup p assumption_map with
                     | Some c => [(p, c)]
                     | None => []
                     end) params.

Definition unresolved_inputs (assumption_map : list (string * json)) (params : list string)
    : list string :=
  filter (fun p => match lookup p assumption_map with
                   | Some _ => false
                   | None => true
                   end) params.

(** [set(input_provenances.values())] needs hashable categories. *)
Definition classify (input_provenances : list (string * json)) : result string :=
  match input_provenances with
  | [] => Ok "unknown"
  | _ =>
      let cats := map snd input_provenances in
      if forallb (fun c => match c with JList _ | JDict _ => false | _ => true end) cats then
        if existsb (fun c => eq_str c "agent_estimate") cats then Ok "agent_estimate"
        else if forallb (fun c => eq_str c "sourced") cats then Ok "sourced"
        else Ok "derived"
      else Raise TypeError
  end.

Definition count_cat (c : string) (input_provenances : list (string * json)) : nat :=
  List.length (filter (fun p => eq_str (snd p) c) input_provenances).

(** The body of the loop over the metrics *)
Definition figure (assumption_map existing_claims : list (string * json))
    (approach_data : json) (metric : string * string)
    : result (figure_provenance * list (string * string)) :=
  let '(name, upper) := metric in
  mj <- get approach_data name JNull ;;
  let m := _as_dict mj in
  let figure_inputs := _as_dict (dget m "inputs" JNull) in
  let params := relevant_inputs figure_inputs in
  let provs := resolved_inputs assumption_map params in
  let unresolved := map (fun p => (p, upper)) (unresolved_inputs assumption_map params) in
  cls <- classify provs ;;
  let claim := dget existing_claims name JNull in
  let value := dget m "value" (JInt 0) in
  delta <- match claim with
           | JNull => Ok None
           | _ => v <- py_float value ;; _compute_delta v claim
           end ;;
  Ok ({| classification := cls;
         confidence_breakdown :=
           (count_cat "sourced" provs, count_cat "derived" provs,
            count_cat "agent_estimate" provs);
         deck_claim := claim;
         delta_vs_deck_pct := delta;
         input_provenances := provs |}, unresolved).

Fixpoint figures (assumption_map existing_claims : list (string * json))
    (approach_data : json) (metrics : list (string * string))
    : result (list (string * figure_provenance) * list (string * string)) :=
  match metrics with
  | [] => Ok ([], [])
  | metric :: rest =>
      fu <- figure assumption_map existing_claims approach_data metric ;;
      r <- figures assumption_map existing_claims approach_data rest ;;
      Ok ((fst metric, fst fu) :: fst r, (snd fu ++ snd r)%list)
  end.

Fixpoint approaches (assumption_map existing_claims : list (string * json))
    (sizing : json) (keys : list string)
    : result (list (string * list (string * figure_provenance)) * list (string * string)) :=
  match keys with
  | [] => Ok ([], [])
  | approach_key :: rest =>
      approach_data <- get sizing approach_key JNull ;;
      match approach_data with
      | JNull => approaches assumption_map existing_claims sizing rest
      | _ =>
          fu <- figures assumption_map existing_claims approach_data METRICS ;;
          r <- approaches assumption_map existing_claims sizing rest ;;
          Ok ((approach_key, fst fu) :: fst r, (snd fu ++ snd r)%list)
      end
  end.

Definition _compute_provenance (sizing : json) (validation inputs : artifact)
    : result (list (string * list (string * figure_provenance)) * list (string * string)) :=
  assumption_map <- build_assumption_map validation ;;
  existing_claims <- build_existing_claims inputs ;;
  approaches assumption_map existing_claims sizing APPROACHES.

(** ** The rules *)

(** 2. Optional artifacts *)
Definition optional_rule (arts : artifacts) : list warning :=
  flat_map (fun name =>
    let data := art_get arts name in
    if is_CORRUPT data then
      [warn "CORRUPT_ARTIFACT" ("Artifact has invalid JSON: " ++ name)]
    else if is_None data then
      [warn "MISSING_OPTIONAL_ARTIFACT" ("Optional artifact missing: " ++ name)]
    else []) OPTIONAL_ARTIFACTS.

(** 3. UNSOURCED_ASSUMPTIONS *)
Definition agent_estimate_name (assumption : json) : result (list string) :=
  c <- get assumption "category" JNull ;;
  if eq_str c "agent_estimate" then
    name <- get assumption "name" (JStr "") ;;
    b <- in_str_set name QUANTITATIVE_PARAMS ;;
    if b then Ok [match name with JStr n => n | _ => "" end] else Ok []
  else Ok [].

(** [sensitivity_params.add(...)]: the parameter must be hashable; only a
    string can later equal an assumption name. *)
Definition sensitivity_param (scenario : json) : result (list string) :=
  c <- get scenario "confidence" JNull ;;
  if eq_str c "agent_estimate" then
    p <- get scenario "parameter" (JStr "") ;;
    match p with
    | JList _ | JDict _ => Raise TypeError
    | JStr n => Ok [n]
    | _ => Ok []
    end
  else Ok [].

Definition rule_unsourced (validation sensitivity : artifact) : result (list warning) :=
  if _usable validation then
    a <- get (val validation) "assumptions" JNull ;;
    agent_estimate_names <- for_each agent_estimate_name (_as_list a) ;;
    sensitivity_params <-
      (if _usable sensitivity then
         sc <- get (val sensitivity) "scenarios" JNull ;;
         for_each sensitivity_param (_as_list sc)
       else Ok []) ;;
    let unsourced :=
      filter (fun n => negb (str_in n sensitivity_params)) agent_estimate_names in
    if nonempty unsourced then
      Ok [warn "UNSOURCED_ASSUMPTIONS"
            ("Agent-estimate assumptions not stress-tested in sensitivity: "
             ++ repr_strs rt (map _humanize_param (sorted_set unsourced)))]
    else Ok []
  else Ok [].

(** [fig.get("label", fig.get("figure", "unknown"))] *)
Definition fig_display (fig : json) : result json :=
  f <- get fig "figure" (JStr "unknown") ;;
  get fig "label" f.

(** 4. UNVALIDATED_CLAIMS *)
Definition unvalidated_claim (fig : json) : result (list warning) :=
  st <- get fig "status" JNull ;;
  if eq_str st "unsupported" then
    d <- fig_display fig ;;
    Ok [warn "UNVALIDATED_CLAIMS" ("Unsupported figure: " ++ fmt rt d)]
  else Ok [].

(** The loop of rules 4, 5 and 14 over [figure_validations] *)
Definition over_figures (body : json -> result (list warning)) (validation : artifact)
    : result (list warning) :=
  if _usable validation then
    f <- get (val validation) "figure_validations" JNull ;;
    for_each body (_as_list f)
  else Ok [].

(** 5. REFUTED_CLAIMS and 6. REFUTED_MISSING_REASON *)
Definition refuted_claim (fig : json) : result (list warning) :=
  st <- get fig "status" JNull ;;
  if eq_str st "refuted" then
    d <- fig_display fig ;;
    refutation <- get fig "refutation" JNull ;;
    let w6 := if negb (truthy refutation) then
                [warn "REFUTED_MISSING_REASON"
                   ("Refuted figure '" ++ fmt rt d ++ "' has no refutation explanation")]
              else [] in
    Ok (w6 ++ [warn "REFUTED_CLAIMS"
                 ("Refuted figure: " ++ fmt rt d ++ " — "
                  ++ fmt rt (py_or refutation (JStr "no explanation provided")))])%list
  else Ok [].

(** [k in v] for a string [k]: a key of a dict, an element of a list, a
    substring of a string; nothing else is a container. *)
Definition py_in (k : string) (v : json) : result bool :=
  match v with
  | JDict kvs => Ok (existsb (fun p => fst p =? k) kvs)
  | JList l => Ok (str_in_list k l)
  | JStr s => Ok (contains k s)
  | _ => Raise TypeError
  end.

(** 7. APPROACH_MISMATCH *)
Definition rule_approach_mismatch (methodology sizing : artifact) : result (list warning) :=
  if _usable methodology && _usable sizing then
    approach <- get (val methodology) "approach_chosen" (JStr "") ;;
    if eq_str approach "both" then
      td <- py_in "top_down" (val sizing) ;;
      missing <- (if negb td then Ok true
                  else bu <- py_in "bottom_up" (val sizing) ;; Ok (negb bu)) ;;
      if missing then
        Ok [warn "APPROACH_MISMATCH"
              "Methodology says 'both' but sizing.json missing top_down or bottom_up"]
      else Ok []
    else
      match approach with
      | JStr a =>
          if str_in a ["top_down"; "bottom_up"] then
            present <- py_in a (val sizing) ;;
            if negb present then
              Ok [warn "APPROACH_MISMATCH"
                    ("Methodology says '" ++ a ++ "' but sizing.json missing "
                     ++ a ++ " key")]
            else Ok []
          else Ok []
      | _ => Ok []
      end
  else Ok [].

(** 8. TAM_DISCREPANCY *)
Definition rule_tam_discrepancy (sizing : artifact) : result (list warning) :=
  if _usable sizing then
    c <- get (val sizing) "comparison" JNull ;;
    let comparison := _as_dict c in
    let d := dget comparison "tam_delta_pct" (JInt 0) in
    b <- py_gt d 30 ;;
    if b then
      Ok [warn "TAM_DISCREPANCY"
            ("Top-down and bottom-up TAM differ by " ++ fmt rt d ++ "% (>30%)")]
    else Ok []
  else Ok [].

(** 9. CHECKLIST_FAILURES *)
Definition rule_checklist_failures (checklist : artifact) : result (list warning) :=
  if _usable checklist then
    s <- get (val checklist) "summary" JNull ;;
    let summary := _as_dict s in
    if eq_str (dget summary "overall_status" JNull) "fail" then
      let failed := _as_list (dget summary "failed_items" JNull) in
      failed_ids <- mapM (fun f => get f "id" (JStr "?")) failed ;;
      Ok [warn "CHECKLIST_FAILURES"
            ("Checklist has " ++ str_of_nat (List.length failed) ++ " failures: "
             ++ str_other rt (JList failed_ids))]
    else Ok []
  else Ok [].

(** 10. CHECKLIST_INCOMPLETE *)
Definition rule_checklist_incomplete (checklist : artifact) : result (list warning) :=
  if _usable checklist then
    i <- get (val checklist) "items" JNull ;;
    let items := _as_list i in
    if negb (List.length items =? 22)%nat then
      Ok [warn "CHECKLIST_INCOMPLETE"
            ("Checklist has " ++ str_of_nat (List.length items) ++ " items (expected 22)")]
    else Ok []
  else Ok [].

(** 11. LOW_CHECKLIST_COVERAGE *)
Definition rule_low_coverage (checklist : artifact) : result (list warning) :=
  if _usable checklist then
    s <- get (val checklist) "summary" JNull ;;
    let na_count := dget (_as_dict s) "not_applicable" (JInt 0) in
    b <- py_gt na_count 7 ;;
    if b then
      Ok [warn "LOW_CHECKLIST_COVERAGE"
            ("Checklist has " ++ fmt rt na_count ++ " not_applicable items (>7 of 22)")]
    else Ok []
  else Ok [].

(** 12. FEW_SENSITIVITY_PARAMS *)
Definition rule_few_params (sensitivity : artifact) : result (list warning) :=
  if _usable sensitivity then
    sc <- get (val sensitivity) "scenarios" JNull ;;
    let scenarios := _as_list sc in
    if (List.length scenarios <? 3)%nat then
      Ok [warn "FEW_SENSITIVITY_PARAMS"
            ("Sensitivity analysis has " ++ str_of_nat (List.length scenarios)
             ++ " parameters (recommend 3+)")]
    else Ok []
  else Ok [].

(** [abs(v)] *)
Definition py_abs (v : json) : result Q :=
  match num_val v with
  | Some q => Ok (Qabs q)
  | None => Raise TypeError
  end.

(** 13. NARROW_AGENT_ESTIMATE_RANGE *)
Definition narrow_range (scenario : json) : result (list warning) :=
  c <- get scenario "confidence" JNull ;;
  if eq_str c "agent_estimate" then
    e <- get scenario "effective_range" JNull ;;
    let eff := _as_dict e in
    low <- py_abs (dget eff "low_pct" (JInt 0)) ;;
    high <- py_abs (dget eff "high_pct" (JInt 0)) ;;
    if Qlt_bool low 50 || Qlt_bool high 50 then
      p <- get scenario "parameter" JNull ;;
      Ok [warn "NARROW_AGENT_ESTIMATE_RANGE"
            ("Agent-estimate parameter '" ++ fmt rt p ++ "' has effective range "
             ++ "[" ++ fmt rt (dget eff "low_pct" JNull) ++ "%, +"
             ++ fmt rt (dget eff "high_pct" JNull) ++ "%] — should be at least +/-50%")]
    else Ok []
  else Ok [].

Definition rule_narrow_range (sensitivity : artifact) : result (list warning) :=
  if _usable sensitivity then
    sc <- get (val sensitivity) "scenarios" JNull ;;
    for_each narrow_range (_as_list sc)
  else Ok [].

(** 14. OVERCLAIMED_VALIDATION *)
Definition overclaimed (fig : json) : result (list warning) :=
  st <- get fig "status" JNull ;;
  if eq_str st "validated" then
    n <- get fig "source_count" (JInt 0) ;;
    b <- py_lt n 2 ;;
    if b then
      d <- fig_display fig ;;
      sc <- get fig "source_count" JNull ;;
      Ok [warn "OVERCLAIMED_VALIDATION"
            ("Figure '" ++ fmt rt d ++ "' marked validated but source_count="
             ++ fmt rt sc)]
    else Ok []
  else Ok [].

(** 15. DECK_CLAIM_MISMATCH: the body of the inner loop *)
Definition deck_claim_mismatch (existing_claims : list (string * json))
    (approach_data : json) (metric : string * string) : result (list warning) :=
  let '(name, upper) := metric in
  mj <- get approach_data name JNull ;;
  let val_ := dget (_as_dict mj) "value" (JInt 0) in
  let claim := dget existing_claims name JNull in
  v <- py_float val_ ;;
  d <- _compute_delta v claim ;;
  match d with
  | Some delta =>
      if fltb (of_Z 50) (fabs delta)
         && negb (match claim with JNull => true | _ => false end)
      then
        c <- py_float claim ;;
        deck <- _fmt_usd_number (NFloat c) ;;
        calc <- _fmt_usd val_ ;;
        Ok [warn "DECK_CLAIM_MISMATCH"
              (upper ++ " differs from deck claim by " ++ format_float rt "+.1f" delta
               ++ "% (deck: " ++ deck ++ ", calculated: " ++ calc ++ ")")]
      else Ok []
  | None => Ok []
  end.

Definition deck_claim_approach (existing_claims : list (string * json))
    (sizing : json) (approach_key : string) : result (list warning) :=
  approach_data <- get sizing approach_key JNull ;;
  match approach_data with
  | JNull => Ok []
  | _ => for_each (deck_claim_mismatch existing_claims approach_data) METRICS
  end.

Definition rule_deck_claim (sizing inputs_art : artifact) : result (list warning) :=
  if _usable sizing && _usable inputs_art then
    c <- get (val inputs_art) "existing_claims" JNull ;;
    for_each (deck_claim_approach (_as_dict c) (val sizing)) APPROACHES
  else Ok [].

(** 16. PROVENANCE_UNRESOLVED: [param_metrics], sorted by parameter *)
Definition param_metrics (unresolved : list (string * string)) : list (string * list string) :=
  map (fun p => (p, map snd (filter (fun pm => fst pm =? p) unresolved)))
      (sorted_set (map fst unresolved)).

Definition rule_provenance_unresolved (sizing validation inputs_art : artifact)
    : result (list warning) :=
  if _usable sizing && _usable validation then
    pu <- _compute_provenance (val sizing) validation inputs_art ;;
    let unresolved := snd pu in
    if nonempty unresolved then
      let parts := map (fun pm => fst pm ++ " (used in " ++ join ", " (snd pm) ++ ")")
                       (param_metrics unresolved) in
      Ok [warn "PROVENANCE_UNRESOLVED"
            ("Quantitative inputs without matching assumptions in validation.json: "
             ++ join ", " parts)]
    else Ok []
  else Ok [].

Definition validate_artifacts (arts : artifacts) : result (list warning) :=
  let methodology := art_get arts "methodology.json" in
  let validation := art_get arts "validation.json" in
  let sizing := art_get arts "sizing.json" in
  let sensitivity := art_get arts "sensitivity.json" in
  let checklist := art_get arts "checklist.json" in
  let w1 := required_rule WARNING_SEVERITY REQUIRED_ARTIFACTS arts in
  let w2 := optional_rule arts in
  w3 <- rule_unsourced validation sensitivity ;;
  w4 <- over_figures unvalidated_claim validation ;;
  w5 <- over_figures refuted_claim validation ;;
  w7 <- rule_approach_mismatch methodology sizing ;;
  w8 <- rule_tam_discrepancy sizing ;;
  w9 <- rule_checklist_failures checklist ;;
  w10 <- rule_checklist_incomplete checklist ;;
  w11 <- rule_low_coverage checklist ;;
  w12 <- rule_few_params sensitivity ;;
  w13 <- rule_narrow_range sensitivity ;;
  w14 <- over_figures overclaimed validation ;;
  let inputs_art := art_get arts "inputs.json" in
  w15 <- rule_deck_claim sizing inputs_art ;;
  w16 <- rule_provenance_unresolved sizing validation inputs_art ;;
  Ok (w1 ++ w2 ++ w3 ++ w4 ++ w5 ++ w7 ++ w8 ++ w9 ++ w10 ++ w11 ++ w12
      ++ w13 ++ w14 ++ w15 ++ w16)%list.

End Rules.

Definition provenance_report : Type :=
  list (string * list (string * figure_provenance)).

Record report : Type := {
  report_markdown : string;
  validation_result : validation;
  provenance : option provenance_report
}.

Section Compose.
Variable rt : PyRuntime.
(** The eleven section functions joined and the footer: a function of the
    loaded artifacts, of the resolved findings and of the provenance
    computed from the artifacts. *)
Variable render :
  artifacts -> list warning -> option provenance_report -> result string.

Definition compose (dir : directory) : result report :=
  let all_names := (REQUIRED_ARTIFACTS ++ OPTIONAL_ARTIFACTS)%list in
  let arts := load_all dir all_names in
  let found := found_names arts all_names in
  let missing := missing_names arts all_names in
  ws <- validate_artifacts rt arts ;;
  ws' <- resolve false WARNING_SEVERITY (art_get arts "methodology.json") ws ;;
  let inputs := _render_safe (art_get arts "inputs.json") in
  let validation_data := _render_safe (art_get arts "validation.json") in
  let sizing := _render_safe (art_get arts "sizing.json") in
  provenance_data <-
    (if _usable sizing && negb (_is_stub sizing) then
       pu <- _compute_provenance rt (val sizing) validation_data inputs ;;
       Ok (Some (fst pu))
     else Ok None) ;;
  md <- render arts ws' provenance_data ;;
  Ok {| report_markdown := md;
        validation_result :=
          {| status := status_of ws';
             warnings := ws';
             artifacts_found := found;
             artifacts_missing := missing |};
        provenance :=
          match provenance_data with
          | Some (_ :: _ as p) => Some p
          | _ => None
          end |}.

End Compose.

Definition WARNING_LABELS : list (string * string) :=
  [ ("CORRUPT_ARTIFACT", "Corrupt Artifact");
    ("MISSING_ARTIFACT", "Missing Artifact");
    ("CHECKLIST_FAILURES", "Checklist Failures");
    ("OVERCLAIMED_VALIDATION", "Overclaimed Validation");
    ("UNVALIDATED_CLAIMS", "Unvalidated Claims");
    ("MISSING_OPTIONAL_ARTIFACT", "Missing Optional Artifact");
    ("UNSOURCED_ASSUMPTIONS", "Unsourced Assumptions");
    ("APPROACH_MISMATCH", "Approach Mismatch");
    ("TAM_DISCREPANCY", "TAM Discrepancy");
    ("CHECKLIST_INCOMPLETE", "Checklist Incomplete");
    ("FEW_SENSITIVITY_PARAMS", "Few Sensitivity Parameters");
    ("NARROW_AGENT_ESTIMATE_RANGE", "Narrow Agent-Estimate Range");
    ("LOW_CHECKLIST_COVERAGE", "Low Checklist Coverage");
    ("REFUTED_CLAIMS", "Refuted Claims");
    ("REFUTED_MISSING_REASON", "Refuted Claim Missing Reason");
    ("DECK_CLAIM_MISMATCH", "Deck Claim Mismatch");
    ("PROVENANCE_UNRESOLVED", "Provenance Unresolved") ].

(** [text.replace(old, new)] for a one-character [old] *)
Fixpoint replace_char_by (a : ascii) (b : string) (s : string) : string :=
  match s with
  | EmptyString => EmptyString
  | String c s' =>
      (if Ascii.eqb c a then b else String c EmptyString) ++ replace_char_by a b s'
  end.

(** [_md_safe]: [text.replace("|", "\\|").replace("\n", " ")] *)
Definition _md_safe (text : string) : string :=
  replace_char "010" " " (replace_char_by "|" "\|" text).

End MarketSizing.

(* ================================================================== *)
(** * The specification's own notions *)
(* ================================================================== *)

Module Spec.

(** ** Acceptance directives, as the specification words them

    A directive is [{code, match, reason}].  It is valid when its code and
    its match are non-empty strings, its reason is a string that is not
    blank, and the base severity of its code is medium. *)








(** Two artifacts the rules cannot tell apart: the same artifact, or two
    stubs. *)
Definition same_or_stubs (a b : artifact) : Prop :=
  a = b \/ (_is_stub a = true /\ _is_stub b = true).

Definition alike (arts1 arts2 : artifacts) : Prop :=
  forall name, same_or_stubs (art_get arts1 name) (art_get arts2 name).

(** The result, when there is one, holds findings of the listed codes only. *)
Definition emits (codes : list string) (r : result (list warning)) : Prop :=
  forall ws, r = Ok ws -> Forall (fun w => In (code w) codes) ws.
Definition deck_rule_codes : list string :=
  [ "CHECKLIST_FAILURES_CRITICAL"; "STAGE_MISMATCH"; "STAGE_OUT_OF_SCOPE";
    "SLIDE_COUNT_EXTREME"; "UNCITED_CRITIQUE"; "AI_CRITERIA_SKIPPED" ].


(** The codes of the rules other than the required-artifact rule and the
    unanimity rule *)
Definition ic_rule_codes : list string :=
  [ "BLOCKING_CONFLICT"; "ORPHANED_CONFLICT"; "VERDICT_SCORE_MISMATCH";
    "CONSENSUS_SCORE_MISMATCH"; "UNANIMOUS_VERDICT_MISMATCH"; "ZERO_APPLICABLE";
    "STALE_IMPORT"; "LOW_EVIDENCE"; "FUND_VALIDATION_ERROR"; "DEGRADED_ASSESSMENT";
    "SHALLOW_ASSESSMENT"; "HIGH_NA_COUNT"; "SCHEMA_DRIFT"; "STAGE_OUT_OF_SCOPE";
    "SEQUENTIAL_FALLBACK" ].


Definition market_rule_codes : list string :=
  [ "UNSOURCED_ASSUMPTIONS"; "UNVALIDATED_CLAIMS"; "REFUTED_MISSING_REASON";
    "REFUTED_CLAIMS"; "APPROACH_MISMATCH"; "TAM_DISCREPANCY"; "CHECKLIST_FAILURES";
    "CHECKLIST_INCOMPLETE"; "LOW_CHECKLIST_COVERAGE"; "FEW_SENSITIVITY_PARAMS";
    "NARROW_AGENT_ESTIMATE_RANGE"; "OVERCLAIMED_VALIDATION"; "DECK_CLAIM_MISMATCH";
    "PROVENANCE_UNRESOLVED" ].




(** ** The unanimity condition

    The discussion artifact is usable and holds exactly three partner
    verdicts; the three verdicts are equal; the three rationales are
    strings that, after white-space normalisation, stand in the relation
    [same]. *)

Definition verdicts_agree (va vb vc : json) : bool :=
  IcSim.hashable va && IcSim.hashable vb && IcSim.hashable vc
  && IcSim.scalar_eqb vb va && IcSim.scalar_eqb vc va.

Definition unanimity_condition (same : string -> string -> string -> Prop)
    (discussion : artifact) : Prop :=
  exists kvs a b c ra rb rc,
    discussion = Val (JDict kvs)
    /\ _usable discussion = true
    /\ _as_list (dget kvs "partner_verdicts" JNull) = [JDict a; JDict b; JDict c]
    /\ verdicts_agree (dget a "verdict" JNull) (dget b "verdict" JNull)
                      (dget c "verdict" JNull) = true
    /\ dget a "rationale" (JStr "") = JStr ra
    /\ dget b "rationale" (JStr "") = JStr rb
    /\ dget c "rationale" (JStr "") = JStr rc
    /\ same (IcSim._normalize_ws ra) (IcSim._normalize_ws rb) (IcSim._normalize_ws rc).

(** All three rationales identical: the reading of the specification *)
Definition all_identical (x y z : string) : Prop := x = y /\ y = z.

(** Two of the three rationales identical: what the loop looks for *)
Definition two_identical (x y z : string) : Prop := x = y \/ x = z \/ y = z.

(** ** Staleness

    The dates the STALE_IMPORT rule parses out of the prior-artifacts
    file, and what the clock decides about each. *)

Definition import_date_of (imp : json) : list Z :=
  match dget (_as_dict imp) "import_date" (JStr "") with
  | JStr s =>
      match IcSim.strptime_ymd (IcSim.first10 s) with
      | Some d => [d]
      | None => []
      end
  | _ => []
  end.

Definition import_dates (prior : artifact) : list Z :=
  if _usable prior then
    flat_map import_date_of (_as_list (dget (_as_dict (val prior)) "imported" JNull))
  else [].

(** [datetime.now() - import_date > timedelta(days=7)] *)
Definition stale (now date : Z) : bool :=
  (now - date >? 7 * IcSim.US_PER_DAY)%Z.

(** Two clocks that agree on which imports are stale *)
Definition same_staleness (now1 now2 : Z) (prior : artifact) : Prop :=
  forall d, In d (import_dates prior) -> stale now1 d = stale now2 d.

(** ** Provenance of a sizing figure *)

(** The categories the figure's quantitative parameters resolve to: for
    each key of the figure's inputs that is a quantitative parameter and
    has an assumption of that name, the category of the assumption. *)
Definition resolved_categories (assumption_map figure_inputs : list (string * json))
    : list json :=
  flat_map (fun k => match lookup k assumption_map with
                     | Some c => [c]
                     | None => []
                     end)
           (filter (fun k => str_in k MarketSizing.QUANTITATIVE_PARAMS)
                   (MarketSizing.dict_keys [] figure_inputs)).

(** The classification the specification asks for, given the resolved
    categories *)
Definition classified_as (cats : list json) (cls : string) : Prop :=
  (cls = "unknown" <-> cats = [])
  /\ (In (JStr "agent_estimate") cats -> cls = "agent_estimate")
  /\ (cats <> [] -> Forall (eq (JStr "sourced")) cats -> cls = "sourced")
  /\ (cats <> [] -> ~ In (JStr "agent_estimate") cats ->
      ~ Forall (eq (JStr "sourced")) cats -> cls = "derived").

(** The percentage as the specification writes it, on exact numbers *)
Definition delta_pct (calculated claimed : Q) : Q :=
  (calculated - claimed) / claimed * 100.

(** The same percentage as floats give it: the difference, the quotient
    and the product are each rounded to the nearest float. *)
Definition float_delta_pct (calculated claimed : float) : float :=
  fmul (fdiv (fsub calculated claimed) claimed) (of_Z 100).

(** The delta against a claim that reads as the float [claimed]: none
    when [claimed <= 0], else the percentage rounded to one decimal
    place.  A claim that reads as NaN is not [<= 0]. *)
Definition delta_for_number (calculated claimed : float) : option float :=
  if fleb claimed (of_Z 0) then None
  else Some (MarketSizing.round1 (float_delta_pct calculated claimed)).

(** The delta of a figure whose calculated value is [calculated], for
    each kind of deck claim: a number or a boolean counts with the float
    nearest to it, and an [int] that has none is no claim of a report; a
    string counts with what [float] reads in it. *)
Definition delta_as_amended (rt : PyRuntime) (calculated : float) (claim : json)
    (delta : option float) : Prop :=
  match claim with
  | JNull | JList _ | JDict _ => delta = None
  | JBool b => delta = delta_for_number calculated (of_Z (if b then 1 else 0))
  | JInt z => is_finite (of_Z z) = true /\ delta = delta_for_number calculated (of_Z z)
  | JFloat q => delta = delta_for_number calculated (of_Q q)
  | JStr s =>
      match float_of_str rt s with
      | Some c => delta = delta_for_number calculated c
      | None => delta = None
      end
  end.

(** What the provenance entry of a figure is to hold, given the
    assumption map, the deck claims and the figure [m] of the sizing
    artifact. *)
Definition figure_as_amended (rt : PyRuntime)
    (assumption_map existing_claims m : list (string * json)) (metric : string)
    (fp : MarketSizing.figure_provenance) : Prop :=
  let cats := resolved_categories assumption_map (_as_dict (dget m "inputs" JNull)) in
  map snd (MarketSizing.input_provenances fp) = cats
  /\ classified_as cats (MarketSizing.classification fp)
  /\ MarketSizing.deck_claim fp = dget existing_claims metric JNull
  /\ (MarketSizing.deck_claim fp = JNull -> MarketSizing.delta_vs_deck_pct fp = None)
  /\ (MarketSizing.deck_claim fp <> JNull ->
      exists calculated,
        MarketSizing.py_float rt (dget m "value" (JInt 0)) = Ok calculated
        /\ delta_as_amended rt calculated (MarketSizing.deck_claim fp)
             (MarketSizing.delta_vs_deck_pct fp)).

(** ** Runs of [main] *)

(** The event carries the JSON payload: a write to stdout or to a file. *)
Definition is_payload (ev : event) : bool :=
  match ev with
  | Stdout _ | WriteFile _ _ => true
  | Stderr _ => false
  end.

(** ** The store summary

    What [artifacts_found] and [artifacts_missing] say about the files of
    a directory, for the list [all] of the artifact names of a script. *)
Definition store_summary (all : list string) (dir : directory) (v : validation)
    : Prop :=
  forall n,
    (In n (artifacts_missing v)
       <-> In n all /\ (dir n = Absent \/ dir n = Parsed JNull))
    /\ (In n (artifacts_found v)
          <-> In n all /\ exists j, dir n = Parsed j /\ j <> JNull)
    /\ (dir n = Unparseable ->
          ~ In n (artifacts_found v) /\ ~ In n (artifacts_missing v)).

(** ** Severities and the table *)

(** The finding has the severity the table gives its code. *)
Definition from_table (table : sev_table) (w : warning) : Prop :=
  severity_of table (code w) = Some (sev w).

(** The finding was acknowledged: its code is medium in the table and its
    message ends with the acceptance suffix. *)
Definition acknowledged (table : sev_table) (w : warning) : Prop :=
  sev w = Acknowledged
  /\ severity_of table (code w) = Some Medium
  /\ exists m r, message w = m ++ " [Accepted: " ++ r ++ "]".

(** The result, when there is one, holds findings that satisfy [P] only. *)
Definition yields (P : warning -> Prop) (r : result (list warning)) : Prop :=
  forall ws, r = Ok ws -> Forall P ws.

(** The inputs of the figure [mj] of the sizing artifact *)
Definition figure_inputs_of (mj : json) : list (string * json) :=
  _as_dict (dget (_as_dict mj) "inputs" JNull).

(** A key of the figure's inputs that is a quantitative parameter *)
Definition quantitative_input (mj : json) (k : string) : Prop :=
  In k MarketSizing.QUANTITATIVE_PARAMS /\ In k (map fst (figure_inputs_of mj)).

(** How many findings carry the code *)
Definition count_code (c : string) (ws : list warning) : nat :=
  List.length (filter (fun w => code w =? c) ws).

(** Every REFUTED_MISSING_REASON finding is directly followed by a
    REFUTED_CLAIMS finding. *)
Fixpoint refutations_paired (ws : list warning) : bool :=
  match ws with
  | [] => true
  | w :: rest =>
      if code w =? "REFUTED_MISSING_REASON" then
        match rest with
        | w' :: _ => (code w' =? "REFUTED_CLAIMS") && refutations_paired rest
        | [] => false
        end
      else refutations_paired rest
  end.

(** The result, when there is one, holds at most one finding. *)
Definition short (r : result (list warning)) : Prop :=
  forall ws, r = Ok ws -> (List.length ws <= 1)%nat.

(** The codes of the rules that run once per directory, not once per item *)
Definition deck_singular_codes : list string :=
  [ "CHECKLIST_FAILURES_CRITICAL"; "STAGE_MISMATCH"; "STAGE_OUT_OF_SCOPE";
    "SLIDE_COUNT_EXTREME"; "AI_CRITERIA_SKIPPED" ].

Definition market_singular_codes : list string :=
  [ "UNSOURCED_ASSUMPTIONS"; "APPROACH_MISMATCH"; "TAM_DISCREPANCY";
    "CHECKLIST_FAILURES"; "CHECKLIST_INCOMPLETE"; "LOW_CHECKLIST_COVERAGE";
    "FEW_SENSITIVITY_PARAMS"; "PROVENANCE_UNRESOLVED" ].

Definition ic_singular_codes : list string :=
  [ "BLOCKING_CONFLICT"; "VERDICT_SCORE_MISMATCH"; "CONSENSUS_SCORE_MISMATCH";
    "UNANIMOUS_VERDICT_MISMATCH"; "PARTNER_UNANIMITY"; "PARTNER_CONVERGENCE";
    "ZERO_APPLICABLE"; "FUND_VALIDATION_ERROR"; "HIGH_NA_COUNT";
    "STAGE_OUT_OF_SCOPE"; "SEQUENTIAL_FALLBACK" ].

(** The label the table gives the code *)
Definition labelled (labels : list (string * string)) (w : warning) : Prop :=
  exists l, lookup (code w) labels = Some l
            /\ forall rt, _humanize_warning labels rt (code w) = l.

(** No line feed, and a backslash before every vertical bar; [escaped]
    tells whether the previous character was a backslash. *)
Fixpoint cell_text (escaped : bool) (s : string) : bool :=
  match s with
  | EmptyString => true
  | String c s' =>
      negb (Ascii.eqb c "010") && (negb (Ascii.eqb c "|") || escaped)
      && cell_text (Ascii.eqb c "\") s'
  end.

(** Neither a line feed nor a vertical bar *)
Fixpoint plain_text (s : string) : bool :=
  match s with
  | EmptyString => true
  | String c s' => negb (Ascii.eqb c "010") && negb (Ascii.eqb c "|") && plain_text s'
  end.

(** The file is absent or does not parse. *)
Definition absent_or_unparseable (f : file) : Prop :=
  f = Absent \/ f = Unparseable.

(** [REQUIRED_KEYS.get(name, set())] *)
Definition required_keys_of (name : string) : list string :=
  match lookup name IcSim.REQUIRED_KEYS with Some r => r | None => [] end.

(** The top-level keys of the artifact lie between the required and the
    expected ones. *)
Definition keys_within (name : string) (expected : list string) (v : json) : Prop :=
  incl (map fst (_as_dict v)) expected
  /\ incl (required_keys_of name) (map fst (_as_dict v)).

(** The status of a report whose validation found [raw], before any
    acceptance: clean exactly when nothing was found. *)
Definition status_reflects (raw : list warning) (v : validation) : Prop :=
  List.length (warnings v) = List.length raw
  /\ (status v = "clean" <-> raw = [])
  /\ (status v = "warnings" <-> raw <> []).

(** The sizing artifact holds a value other than [null] under the key. *)
Definition approach_present (sizing : json) (k : string) : bool :=
  match dget (_as_dict sizing) k JNull with JNull => false | _ => true end.

End Spec.

(* ================================================================== *)
(** * Concrete inputs *)
(* ================================================================== *)

Module Examples.

(** A stand-in interpreter for the evaluations below; none of them
    reaches a value it would have to print. *)
Definition plain_rt : PyRuntime :=
  {| str_other := fun _ => "?";
     float_of_str := fun _ => None;
     repr_strs := fun l => "[" ++ join ", " l ++ "]";
     format_float := fun _ _ => "?";
     title := fun s => s |}.

Definition stage_mismatch : warning :=
  _warn DeckReview.WARNING_SEVERITY "STAGE_MISMATCH"
        "Deck claims 'seed' but analysis detected 'series_a'".

Definition missing_checklist : warning :=
  _warn DeckReview.WARNING_SEVERITY "MISSING_ARTIFACT"
        "Required artifact missing: checklist.json".

Definition accept_stage_mismatch : json :=
  JDict [ ("code", JStr "STAGE_MISMATCH"); ("match", JStr "claims");
          ("reason", JStr "intentional") ].

(** A directive crafted to hit a high-severity finding *)
Definition accept_missing : json :=
  JDict [ ("code", JStr "MISSING_ARTIFACT"); ("match", JStr "missing");
          ("reason", JStr "not needed") ].


Definition stage_profile_with (aws : list json) : artifact :=
  Val (JDict [ ("detected_stage", JStr "series_a");
               ("accepted_warnings", JList aws) ]).

Definition demo_fs : filesystem :=
  {| isdir := fun d => d =? "./deck-review-acme";
     abspath := fun p => "/work/" ++ p;
     dirname := fun p => "/work";
     writable := fun _ => true |}.

Definition demo_render (arts : artifacts) (ws : list warning) : result string :=
  Ok (join ", " (map code ws)).

(** A directory with the inventory and the profile only *)
Definition demo_dir : directory := fun n =>
  if n =? "deck_inventory.json" then
    Parsed (JDict [("claimed_stage", JStr "seed"); ("total_slides", JInt 12)])
  else if n =? "stage_profile.json" then
    Parsed (JDict [("detected_stage", JStr "seed")])
  else Absent.

Definition demo_dumps (pretty : bool) (r : DeckReview.report) : string :=
  DeckReview.report_markdown r.

Definition demo_args : args :=
  {| arg_dir := "./deck-review-acme"; arg_pretty := false;
     arg_output := Some "out.json"; arg_strict := true |}.


Definition code_list_render (arts : artifacts) (ws : list warning) : result string :=
  Ok (join ", " (map code ws)).

(** Three partners who agree; two of them share a rationale, the third
    has one of its own. *)
Definition two_shared_rationales : artifacts :=
  [ ("discussion.json",
     Val (JDict
       [ ("assessment_mode", JStr "sub-agent");
         ("partner_verdicts",
          JList
            [ JDict [("partner", JStr "visionary"); ("verdict", JStr "invest");
                     ("rationale", JStr "Large market,  strong team")];
              JDict [("partner", JStr "operator"); ("verdict", JStr "invest");
                     ("rationale", JStr "Large market, strong team ")];
              JDict [("partner", JStr "analyst"); ("verdict", JStr "invest");
                     ("rationale", JStr "Unit economics already work")] ]);
         ("consensus_verdict", JStr "invest") ])) ].

(** A deck-review directory whose checklist summary counts its failures
    with a word instead of a number. *)
Definition deck_fail_count_string : artifacts :=
  [ ("deck_inventory.json",
     Val (JDict [("claimed_stage", JStr "seed"); ("total_slides", JInt 12)]));
    ("stage_profile.json", Val (JDict [("detected_stage", JStr "seed")]));
    ("slide_reviews.json", Val (JDict [("reviews", JList [])]));
    ("checklist.json",
     Val (JDict [("items", JList []);
                 ("summary", JDict [("fail", JStr "many")])])) ].

(** A market-sizing validation artifact whose list of assumptions holds a
    string where an object is expected. *)
Definition market_assumption_string : artifacts :=
  [ ("validation.json",
     Val (JDict [("assumptions", JList [JStr "customer_count"]);
                 ("figure_validations", JList [])])) ].

(** An IC-simulation score artifact whose list of items holds a string
    where an object is expected. *)
Definition ic_item_string : artifacts :=
  [ ("score_dimensions.json",
     Val (JDict [("items", JList [JStr "team_quality"]);
                 ("summary", JDict [])])) ].

(** Midnight of a date, in microseconds from 0001-01-01T00:00:00 *)
Definition midnight (y m d : Z) : Z :=
  ((IcSim.ymd2ord y m d - 1) * IcSim.US_PER_DAY)%Z.

(** A directory that holds only a prior-artifacts file, with one import
    dated 2024-03-01. *)
Definition imported_on_march_1 : directory := fun n =>
  if n =? "prior_artifacts.json" then
    Parsed (JDict [("imported",
                    JList [JDict [("source_skill", JStr "market-sizing");
                                  ("import_date", JStr "2024-03-01")]])])
  else Absent.

(** A top-down TAM of 1 against a deck claim of 3 *)
Definition sizing_tam_1 : json :=
  JDict [("top_down",
          JDict [("tam", JDict [("value", JInt 1); ("inputs", JDict [])])])].

Definition inputs_claim_tam_3 : artifact :=
  Val (JDict [("existing_claims", JDict [("tam", JInt 3)])]).

(** The arguments of [demo_args] without [--strict] *)
Definition lenient_args : args :=
  {| arg_dir := "./deck-review-acme"; arg_pretty := false;
     arg_output := None; arg_strict := false |}.

(** A directory whose checklist file holds the JSON text [null] and whose
    stage profile is a stub *)
Definition null_checklist_dir : directory := fun n =>
  if n =? "checklist.json" then Parsed JNull
  else if n =? "stage_profile.json" then
    Parsed (JDict [("skipped", JBool true); ("reason", JStr "no deck")])
  else Absent.

(** A finding of a code the deck-review table does not list *)
Definition unlisted_finding : warning :=
  _warn DeckReview.WARNING_SEVERITY "NARRATIVE_GAP" "Deck skips the problem slide".

Definition accept_unlisted : json :=
  JDict [ ("code", JStr "NARRATIVE_GAP"); ("match", JStr "problem");
          ("reason", JStr "covered verbally") ].

(** A list of directives whose second entry is a string *)
Definition directives_with_string : list json :=
  [ accept_stage_mismatch; JStr "STAGE_MISMATCH" ].

(** Every file of the directory is absent, broken or a stub. *)
Definition nothing_usable : artifacts :=
  [ ("deck_inventory.json", Corrupt);
    ("stage_profile.json", Val (JDict [("skipped", JBool true)]));
    ("checklist.json", Corrupt) ].

Definition sizing_two_inputs : json :=
  JDict [("top_down",
          JDict [("tam", JDict [("value", JInt 100);
                                ("inputs", JDict [("customer_count", JInt 10);
                                                  ("arpu", JInt 10);
                                                  ("tam", JInt 100)])])])].

Definition validation_arpu_sourced : artifact :=
  Val (JDict [("assumptions",
               JList [JDict [("name", JStr "arpu"); ("category", JStr "sourced")]])]).

(** Three partners agree in sub-agent mode, with distinct rationales. *)
Definition converged_discussion : artifacts :=
  [ ("discussion.json",
     Val (JDict [("assessment_mode", JStr "sub-agent");
                 ("partner_verdicts",
                  JList [JDict [("verdict", JStr "invest"); ("rationale", JStr "a")];
                         JDict [("verdict", JStr "invest"); ("rationale", JStr "b")];
                         JDict [("verdict", JStr "invest"); ("rationale", JStr "c")]])])) ].

(** Two refuted figures, the first without an explanation *)
Definition two_refuted : artifacts :=
  [ ("validation.json",
     Val (JDict [("figure_validations",
                  JList [JDict [("status", JStr "refuted"); ("figure", JStr "tam")];
                         JDict [("status", JStr "refuted"); ("figure", JStr "sam");
                                ("refutation", JStr "outdated")]])])) ].

Definition classification_with_bar : string :=
  "agent|estimate" ++ String "010" "x".

(** The profile accepts every code it can name, the checklist is absent. *)
Definition accept_everything_dir : directory := fun n =>
  if n =? "stage_profile.json" then
    Parsed (JDict [("detected_stage", JStr "seed");
                   ("accepted_warnings",
                    JList [JDict [("code", JStr "MISSING_ARTIFACT");
                                  ("match", JStr "missing");
                                  ("reason", JStr "not needed")]])])
  else Absent.

(** Only the sizing artifact is there, and its top-down approach is a
    string. *)
Definition approach_is_a_string : directory := fun n =>
  if n =? "sizing.json" then Parsed (JDict [("top_down", JStr "see appendix")])
  else Absent.

Definition unit_render (arts : artifacts) (ws : list warning)
    (p : option MarketSizing.provenance_report) : result string := Ok "".

(** A score artifact with exactly its required keys, and a conflict check
    that lacks one and adds one *)
Definition drifting_conflict_check : artifacts :=
  [ ("score_dimensions.json", Val (JDict [("items", JList []); ("summary", JDict [])]));
    ("conflict_check.json",
     Val (JDict [("portfolio_size", JInt 0); ("notes", JStr "none")])) ].

(** A sizing artifact with a bottom-up approach only *)
Definition sizing_bottom_up_only : json :=
  JDict [("top_down", JNull);
         ("bottom_up", JDict [("tam", JDict [("value", JInt 5)])])].

(** A complete deck directory whose only finding, a stage mismatch, is
    accepted by the profile *)
Definition accepted_mismatch_dir : directory := fun n =>
  if n =? "deck_inventory.json" then
    Parsed (JDict [("claimed_stage", JStr "seed"); ("total_slides", JInt 12)])
  else if n =? "stage_profile.json" then
    Parsed (JDict [("detected_stage", JStr "series_a");
                   ("accepted_warnings", JList [accept_stage_mismatch])])
  else if n =? "slide_reviews.json" then Parsed (JDict [("reviews", JList [])])
  else if n =? "checklist.json" then
    Parsed (JDict [("summary", JDict []); ("items", JList [])])
  else Absent.

End Examples.

(* ================================================================== *)
(** * Properties *)
(* ================================================================== *)

(** ** Strings and the result monad *)

Lemma lower_app (a b : string) : lower (a ++ b) = lower a ++ lower b.
Proof.
  induction a as [|c a IH]; simpl; [reflexivity | now rewrite IH].
Qed.

Lemma prefix_app (n h t : string) :
  String.prefix n h = true -> String.prefix n (h ++ t) = true.
Proof.
  revert h; induction n as [|c n IH]; intros h H.
  - destruct (h ++ t); reflexivity.
  - destruct h as [|d h]; simpl in *; [discriminate|].
    destruct (ascii_dec c d); [now apply IH | discriminate].
Qed.

Lemma contains_app (n h t : string) :
  contains n h = true -> contains n (h ++ t) = true.
Proof.
  induction h as [|d h IH]; intros H.
  - simpl in H. rewrite orb_false_r in H.
    destruct n; [|discriminate]. destruct t; reflexivity.
  - cbn [contains] in H. apply orb_true_iff in H as [H|H].
    + change (String d h ++ t) with (String d (h ++ t)) in *.
      cbn [contains]. apply orb_true_iff; left.
      now apply (prefix_app n (String d h) t).
    + change (String d h ++ t) with (String d (h ++ t)).
      cbn [contains]. apply orb_true_iff; right. now apply IH.
Qed.

Lemma bind_ok {A B} (r : result A) (k : A -> result B) (b : B) :
  bind r k = Ok b -> exists a, r = Ok a /\ k a = Ok b.
Proof. destruct r; simpl; [eauto | discriminate]. Qed.

Lemma for_each_ok {A B} (f : A -> result (list B)) (P : B -> Prop) (l : list A) :
  (forall x ys, In x l -> f x = Ok ys -> Forall P ys) ->
  forall zs, for_each f l = Ok zs -> Forall P zs.
Proof.
  induction l as [|x l IH]; simpl; intros Hf zs H.
  - injection H as <-. constructor.
  - destruct (f x) as [ys|] eqn:Ex; [|discriminate].
    destruct (for_each f l) as [ws|] eqn:El; [|discriminate].
    injection H as <-. apply Forall_app; split; eauto.
Qed.

Lemma mapM_Forall2 {A B} (f : A -> result B) (l : list A) (l' : list B) :
  mapM f l = Ok l' -> Forall2 (fun x y => f x = Ok y) l l'.
Proof.
  revert l'; induction l as [|x l IH]; simpl; intros l' H.
  - injection H as <-. constructor.
  - destruct (f x) as [y|] eqn:Ex; [|discriminate].
    destruct (mapM f l) as [ys|] eqn:El; [|discriminate].
    injection H as <-. constructor; auto.
Qed.



(** ** The acceptance resolver *)

Section ResolverFacts.
Variable guarded : bool.
Variable table : sev_table.

Lemma directive_acceptable (aw : json) (accs : list acceptance) :
  directive guarded table aw = Ok accs ->
  Forall (fun a => acceptable table (acc_code a) = true) accs.
Proof.
  unfold directive. intros H.
  apply bind_ok in H as (c & _ & H).
  apply bind_ok in H as (m & _ & H).
  destruct (negb (truthy c) || negb (truthy m)).
  { injection H as <-. constructor. }
  apply bind_ok in H as (r & _ & H).
  destruct r; try (injection H as <-; constructor).
  destruct (strip s =? ""); [injection H as <-; constructor|].
  destruct c; try discriminate; try (injection H as <-; constructor).
  destruct (acceptable table s0) eqn:E; injection H as <-; repeat constructor.
  exact E.
Qed.

Lemma collect_acceptable (aws : list json) (accs : list acceptance) :
  collect_acceptances guarded table aws = Ok accs ->
  Forall (fun a => acceptable table (acc_code a) = true) accs.
Proof.
  unfold collect_acceptances. apply for_each_ok.
  intros x ys _. apply directive_acceptable.
Qed.

Lemma apply_first_other_code (accs : list acceptance) (w w' : warning) :
  Forall (fun a => acceptable table (acc_code a) = true) accs ->
  acceptable table (code w) = false ->
  apply_first accs w = Ok w' -> w' = w.
Proof.
  intros Hacc Hw. induction Hacc as [|a accs Ha _ IH]; simpl; intros H.
  - now injection H.
  - unfold matches in H.
    destruct (code w =? acc_code a) eqn:E.
    + apply String.eqb_eq in E. congruence.
    + auto.
Qed.

Lemma high_not_acceptable (c : string) :
  severity_of table c = Some High -> acceptable table c = false.
Proof. unfold acceptable. now intros ->. Qed.



Lemma matches_after_accept (w : warning) (acc : acceptance) (r : string) (b : bool) :
  matches w acc = Ok b ->
  exists b', matches (accept w r) acc = Ok b' /\ (b = true -> b' = true).
Proof.
  unfold matches, accept; cbn [code message].
  destruct (code w =? acc_code acc).
  - destruct (acc_match acc); try discriminate.
    intros [= <-]. eexists; split; [reflexivity|].
    intros H. rewrite lower_app. now apply contains_app.
  - intros [= <-]. eexists; split; [reflexivity | discriminate].
Qed.

(** The inner loop run again on its own result *)
Lemma apply_first_again (accs : list acceptance) (w w1 : warning) :
  apply_first accs w = Ok w1 ->
  exists w2, apply_first accs w1 = Ok w2 /\
    ((w1 = w /\ w2 = w1) \/
     (exists r r', w1 = accept w r /\ w2 = accept w1 r')).
Proof.
  revert w1; induction accs as [|acc accs IH]; cbn [apply_first]; intros w1 H.
  - injection H as <-. exists w. auto.
  - destruct (matches w acc) as [[|]|] eqn:Em; [| |discriminate].
    + injection H as <-.
      destruct (matches_after_accept w acc (acc_reason acc) true Em) as (b' & E' & Hb).
      rewrite E', (Hb eq_refl). eexists; split; [reflexivity|]. right; eauto.
    + destruct (IH w1 H) as (w2 & H2 & [[-> ->]|(r & r' & -> & ->)]).
      * rewrite Em. exists w. rewrite H. auto.
      * destruct (matches_after_accept w acc r false Em) as ([|] & E' & _); rewrite E'.
        -- eexists; split; [reflexivity|]. right; eauto.
        -- rewrite H2. eexists; split; [reflexivity|]. right; eauto.
Qed.

Lemma apply_acceptances_again (accs : list acceptance) (ws ws1 : list warning) :
  apply_acceptances accs ws = Ok ws1 ->
  exists ws2, apply_acceptances accs ws1 = Ok ws2 /\
    map sev ws2 = map sev ws1 /\ map code ws2 = map code ws1 /\
    forall i w1, nth_error ws1 i = Some w1 ->
      exists w w2, nth_error ws i = Some w /\ nth_error ws2 i = Some w2 /\
        ((w1 = w /\ w2 = w1) \/
         (exists r r', w1 = accept w r /\ w2 = accept w1 r')).
Proof.
  unfold apply_acceptances.
  revert ws1; induction ws as [|w ws IH]; cbn [mapM]; intros ws1 H.
  - injection H as <-. exists []. repeat split; try reflexivity.
    intros [|i] w1 Hn; discriminate.
  - destruct (apply_first accs w) as [w1|] eqn:E1; [|discriminate].
    destruct (mapM (apply_first accs) ws) as [ws1'|] eqn:E; [|discriminate].
    injection H as <-.
    destruct (apply_first_again accs w w1 E1) as (w2 & E2 & Hrel).
    destruct (IH ws1' eq_refl) as (ws2 & Hws2 & Hsev & Hcode & Hall).
    exists (w2 :: ws2). cbn [mapM map]. rewrite E2, Hws2, Hsev, Hcode.
    repeat split.
    + destruct Hrel as [[_ ->]|(r & r' & -> & ->)]; reflexivity.
    + destruct Hrel as [[_ ->]|(r & r' & -> & ->)]; reflexivity.
    + intros [|i] v Hn; cbn [nth_error] in *.
      * injection Hn as <-. exists w, w2. auto.
      * apply Hall, Hn.
Qed.

End ResolverFacts.

(** C4.  Acceptance safety.  Whenever the acceptance block of [compose]
    completes, every finding whose code has base severity high comes out
    exactly as it went in, severity and message alike, whatever the
    directives of the owner artifact say. *)
Theorem high_severity_findings_unchanged
    (guarded : bool) (table : sev_table) (owner : artifact) (ws ws' : list warning) :
  resolve guarded table owner ws = Ok ws' ->
  Forall2 (fun w w' => severity_of table (code w) = Some High -> w' = w) ws ws'.
Proof.
  unfold resolve. destruct (_usable owner).
  - intros H.
    apply bind_ok in H as (aws & _ & H).
    apply bind_ok in H as (accs & Hc & H).
    apply collect_acceptable in Hc.
    apply mapM_Forall2 in H.
    revert H. apply Forall2_impl. intros w w' Hw Hhigh.
    eapply apply_first_other_code; eauto using high_not_acceptable.
  - intros [= <-]. induction ws; constructor; auto.
Qed.

Lemma high_severity_findings_unchanged_witness :
  Forall2 (fun w w' =>
             severity_of DeckReview.WARNING_SEVERITY (code w) = Some High -> w' = w)
          [Examples.missing_checklist; Examples.stage_mismatch]
          [Examples.missing_checklist;
           accept Examples.stage_mismatch "intentional"].
Proof.
  apply (high_severity_findings_unchanged false DeckReview.WARNING_SEVERITY
           (Examples.stage_profile_with
              [Examples.accept_missing; Examples.accept_stage_mismatch])).
  reflexivity.
Defined.



(** C6, as stated, fails: a finding acknowledged by the first application
    still has its code and still contains the match, so a second
    application matches it again and appends the suffix again. *)
Lemma second_application_appends_again :
  exists ws1 ws2,
    resolve false DeckReview.WARNING_SEVERITY
      (Examples.stage_profile_with [Examples.accept_stage_mismatch])
      [Examples.stage_mismatch] = Ok ws1
    /\ resolve false DeckReview.WARNING_SEVERITY
         (Examples.stage_profile_with [Examples.accept_stage_mismatch]) ws1 = Ok ws2
    /\ map message ws1
       = ["Deck claims 'seed' but analysis detected 'series_a' [Accepted: intentional]"]
    /\ map message ws2
       = ["Deck claims 'seed' but analysis detected 'series_a' [Accepted: intentional] [Accepted: intentional]"]
    /\ ws2 <> ws1.
Proof.
  eexists _, _. repeat split; try reflexivity. discriminate.
Qed.

(** C6, amended.  A second application of the acceptance block, with the
    same directives, to the list the first application returned completes
    and changes no severity and no code.  A finding the first application
    left alone is left alone again; a finding the first application
    acknowledged is matched again and gains one more suffix. *)
Theorem second_application_keeps_severities
    (guarded : bool) (table : sev_table) (owner : artifact) (ws ws1 : list warning) :
  resolve guarded table owner ws = Ok ws1 ->
  exists ws2,
    resolve guarded table owner ws1 = Ok ws2 /\
    map sev ws2 = map sev ws1 /\ map code ws2 = map code ws1 /\
    forall i w1, nth_error ws1 i = Some w1 ->
      exists w w2, nth_error ws i = Some w /\ nth_error ws2 i = Some w2 /\
        ((w1 = w /\ w2 = w1) \/
         (exists r r', w1 = accept w r /\ w2 = accept w1 r')).
Proof.
  unfold resolve. destruct (_usable owner).
  - intros H.
    apply bind_ok in H as (aws & Ha & H). rewrite Ha. cbn [bind].
    apply bind_ok in H as (accs & Hc & H). rewrite Hc. cbn [bind].
    now apply apply_acceptances_again.
  - intros [= <-]. exists ws. repeat split.
    intros i w1 Hn. exists w1, w1. auto.
Qed.

Lemma second_application_keeps_severities_witness :
  exists ws2,
    resolve false DeckReview.WARNING_SEVERITY
      (Examples.stage_profile_with [Examples.accept_stage_mismatch])
      [accept Examples.stage_mismatch "intentional"] = Ok ws2 /\
    map sev ws2 = [Acknowledged].
Proof.
  destruct (second_application_keeps_severities false DeckReview.WARNING_SEVERITY
              (Examples.stage_profile_with [Examples.accept_stage_mismatch])
              [Examples.stage_mismatch]
              [accept Examples.stage_mismatch "intentional"] eq_refl)
    as (ws2 & H & Hs & _).
  exists ws2. split; [exact H | exact Hs].
Defined.


(** ** Strict mode *)

Lemma blocking_iff (w : warning) :
  blocking w = true <-> sev w = High \/ sev w = Medium.
Proof.
  unfold blocking. destruct (sev w); split; intros H; try reflexivity;
    try discriminate; auto; destruct H; discriminate.
Qed.

Lemma nonempty_filter_iff {A} (p : A -> bool) (l : list A) :
  nonempty (filter p l) = true <-> exists x, In x l /\ p x = true.
Proof.
  split.
  - destruct (filter p l) as [|x r] eqn:E; [discriminate|]. intros _.
    exists x. apply filter_In. rewrite E. now left.
  - intros (x & Hx). apply filter_In in Hx.
    destruct (filter p l); [destruct Hx | reflexivity].
Qed.

(** C3.  Strict mode.  For a run with [--strict] that gets as far as the
    strict check (the directory exists, [compose] returns, and the output
    goes to stdout or to a writable file outside the root directory): the
    exit status is 1 exactly when a resolved finding is high or medium, it
    is 0 when every finding is low, info or acknowledged, and in the
    failing run the JSON text is written, to stdout or to the file, before
    the strict-mode notice and the exit. *)
Theorem strict_mode_exit_status
    (fs : filesystem) (R : Type) (compose : string -> result R)
    (warnings_of : R -> list warning) (dumps : bool -> R -> string)
    (a : args) (result : R) :
  arg_strict a = true ->
  isdir fs (arg_dir a) = true ->
  compose (arg_dir a) = Ok result ->
  (forall path, arg_output a = Some path -> path <> "" ->
     dirname fs (abspath fs path) <> "/" /\ writable fs (abspath fs path) = true) ->
  let run := main fs R compose warnings_of dumps a in
  let out := dumps (arg_pretty a) result ++ String "010" EmptyString in
  (exit_status run = 1%Z <->
     exists w, In w (warnings_of result) /\ (sev w = High \/ sev w = Medium))
  /\ ((forall w, In w (warnings_of result) ->
         sev w = Low \/ sev w = Info \/ sev w = Acknowledged) ->
      exit_status run = 0%Z)
  /\ (exit_status run = 1%Z ->
      exists ev,
        (ev = Stdout out \/ exists path, ev = WriteFile path out)
        /\ fst run = [ev; Stderr "STRICT MODE: Exiting with code 1 due to warnings"]).
Proof.
  intros Hs Hd Hc Ho run out.
  assert (Hw : exists ev,
             (ev = Stdout out \/ exists path, ev = WriteFile path out)
             /\ _write_output fs out (arg_output a) = ([ev], Return tt)).
  { unfold _write_output. destruct (arg_output a) as [path|] eqn:Eo.
    - destruct (path =? "") eqn:Ep; [eauto|].
      apply String.eqb_neq in Ep. destruct (Ho path eq_refl Ep) as [Hp Hw].
      apply String.eqb_neq in Hp. rewrite Hp, Hw. eauto.
    - eauto. }
  destruct Hw as (ev & Hev & Hw).
  assert (Hrun : run = if nonempty (filter blocking (warnings_of result))
                       then ([ev; Stderr "STRICT MODE: Exiting with code 1 due to warnings"],
                             Exit 1%Z)
                       else ([ev], Return tt)).
  { unfold run, main. rewrite Hd, Hc, Hs. cbn [negb]. fold out. rewrite Hw.
    cbn [pbind]. now destruct (nonempty (filter blocking (warnings_of result))). }
  assert (Hb : nonempty (filter blocking (warnings_of result)) = true <->
               exists w, In w (warnings_of result) /\ (sev w = High \/ sev w = Medium)).
  { rewrite nonempty_filter_iff. split; intros (w & Hin & H); exists w;
      split; auto; now apply blocking_iff. }
  rewrite Hrun. destruct (nonempty (filter blocking (warnings_of result))) eqn:E.
  - repeat split.
    + intros _. now apply Hb.
    + intros Hall. destruct (proj1 Hb eq_refl) as (w & Hin & Hsev).
      destruct (Hall w Hin) as [H|[H|H]]; rewrite H in Hsev; destruct Hsev; discriminate.
    + intros _. eauto.
  - repeat split.
    + discriminate.
    + intros H. apply Hb in H. discriminate.
    + discriminate.
Qed.

Lemma strict_mode_exit_status_witness :
  exit_status (main Examples.demo_fs DeckReview.report
                 (fun d => DeckReview.compose Examples.plain_rt Examples.demo_render Examples.demo_dir)
                 (fun r => warnings (DeckReview.validation_result r))
                 Examples.demo_dumps Examples.demo_args) = 1%Z.
Proof.
  assert (Ho : forall path, arg_output Examples.demo_args = Some path -> path <> "" ->
                 dirname Examples.demo_fs (abspath Examples.demo_fs path) <> "/"
                 /\ writable Examples.demo_fs (abspath Examples.demo_fs path) = true).
  { intros path [= <-] _. split; [discriminate | reflexivity]. }
  apply (proj1 (strict_mode_exit_status Examples.demo_fs DeckReview.report
            (fun d => DeckReview.compose Examples.plain_rt Examples.demo_render Examples.demo_dir)
            (fun r => warnings (DeckReview.validation_result r))
            Examples.demo_dumps Examples.demo_args _ eq_refl eq_refl eq_refl Ho)).
  exists (_warn DeckReview.WARNING_SEVERITY "MISSING_ARTIFACT"
            "Required artifact missing: slide_reviews.json").
  split; [vm_compute; auto | left; reflexivity].
Defined.


(** ** Stubs *)

Lemma stub_not_usable (a : artifact) : _is_stub a = true -> _usable a = false.
Proof. unfold _usable. intros ->. apply andb_false_r. Qed.

Lemma stub_not_None (a : artifact) : _is_stub a = true -> is_None a = false.
Proof. destruct a as [|[]]; simpl; congruence. Qed.

Lemma stub_not_CORRUPT (a : artifact) : _is_stub a = true -> is_CORRUPT a = false.
Proof. destruct a as [|[]]; simpl; congruence. Qed.

Lemma is_stub_iff (kvs : list (string * json)) :
  _is_stub (Val (JDict kvs)) = true <-> dget kvs "skipped" JNull = JBool true.
Proof.
  cbn [_is_stub]. unfold is_True.
  destruct (dget kvs "skipped" JNull) as [|[]| | | | |]; split; intros H;
    try reflexivity; try discriminate.
Qed.

(** Rewrites every test the rules make on two artifacts that are both
    stubs, and closes the goal when the two artifacts are the same. *)
Ltac stubs H :=
  let Ha := fresh "Ha" in
  let Hb := fresh "Hb" in
  destruct H as [->|[Ha Hb]];
  [ | rewrite ?(stub_not_usable _ Ha), ?(stub_not_usable _ Hb),
              ?(stub_not_None _ Ha), ?(stub_not_None _ Hb),
              ?(stub_not_CORRUPT _ Ha), ?(stub_not_CORRUPT _ Hb), ?Ha, ?Hb ].

Lemma required_rule_alike (table : sev_table) (req : list string) (a1 a2 : artifacts) :
  Spec.alike a1 a2 -> required_rule table req a1 = required_rule table req a2.
Proof.
  intros H. unfold required_rule. apply flat_map_ext. intros name.
  pose proof (H name) as Hn. stubs Hn; reflexivity.
Qed.

Section DeckStubs.
Variable rt : PyRuntime.
Import DeckReview.

Lemma deck_validate_alike (a1 a2 : artifacts) :
  Spec.alike a1 a2 -> validate_artifacts rt a1 = validate_artifacts rt a2.
Proof.
  intros H. unfold validate_artifacts.
  rewrite (required_rule_alike _ _ a1 a2 H).
  pose proof (H "deck_inventory.json") as Hi.
  pose proof (H "stage_profile.json") as Hp.
  pose proof (H "slide_reviews.json") as Hr.
  pose proof (H "checklist.json") as Hc.
  revert Hi Hp Hr Hc.
  generalize (art_get a1 "deck_inventory.json") (art_get a2 "deck_inventory.json")
             (art_get a1 "stage_profile.json") (art_get a2 "stage_profile.json")
             (art_get a1 "slide_reviews.json") (art_get a2 "slide_reviews.json")
             (art_get a1 "checklist.json") (art_get a2 "checklist.json").
  intros i1 i2 p1 p2 r1 r2 c1 c2 Hi Hp Hr Hc.
  unfold rule_checklist_failures, rule_stage_mismatch, rule_stage_out_of_scope,
    rule_slide_count, rule_uncited_critique, rule_ai_criteria.
  stubs Hi; stubs Hp; stubs Hr; stubs Hc; rewrite ?andb_false_r; reflexivity.
Qed.

End DeckStubs.

Lemma for_each_ext {A B} (f g : A -> result (list B)) (l : list A) :
  (forall x, f x = g x) -> for_each f l = for_each g l.
Proof.
  intros H. induction l as [|x l IH]; cbn [for_each]; [reflexivity|].
  now rewrite H, IH.
Qed.

Section IcSimStubs.
Variable rt : PyRuntime.
Variable now : Z.
Import IcSim.

Lemma ic_validate_alike (a1 a2 : artifacts) :
  Spec.alike a1 a2 -> validate_artifacts rt now a1 = validate_artifacts rt now a2.
Proof.
  intros H. unfold validate_artifacts.
  rewrite (required_rule_alike _ _ a1 a2 H).
  assert (Hdeg : forall d, rule_degraded a1 d = rule_degraded a2 d).
  { intros d. unfold rule_degraded. destruct (discussion_mode_is d "sub-agent") as [[|]|];
      cbn [bind]; try reflexivity.
    f_equal. apply flat_map_ext. intros n. pose proof (H n) as Hn.
    stubs Hn; reflexivity. }
  assert (Hsh : forall d, rule_shallow a1 d = rule_shallow a2 d).
  { intros d. unfold rule_shallow. destruct (discussion_mode_is d "sub-agent") as [[|]|];
      cbn [bind]; try reflexivity.
    apply for_each_ext. intros n. unfold shallow_assessment.
    pose proof (H n) as Hn. stubs Hn; reflexivity. }
  assert (Hsd : rule_schema_drift rt a1 = rule_schema_drift rt a2).
  { unfold rule_schema_drift. apply for_each_ext. intros [n e]. unfold schema_drift.
    pose proof (H n) as Hn. stubs Hn; reflexivity. }
  rewrite Hsd.
  pose proof (H "fund_profile.json") as Hf.
  pose proof (H "conflict_check.json") as Hc.
  pose proof (H "discussion.json") as Hd.
  pose proof (H "score_dimensions.json") as Hs.
  pose proof (H "prior_artifacts.json") as Hp.
  pose proof (H "startup_profile.json") as Hst.
  revert Hf Hc Hd Hs Hp Hst.
  generalize (art_get a1 "fund_profile.json") (art_get a2 "fund_profile.json")
             (art_get a1 "conflict_check.json") (art_get a2 "conflict_check.json")
             (art_get a1 "discussion.json") (art_get a2 "discussion.json")
             (art_get a1 "score_dimensions.json") (art_get a2 "score_dimensions.json")
             (art_get a1 "prior_artifacts.json") (art_get a2 "prior_artifacts.json")
             (art_get a1 "startup_profile.json") (art_get a2 "startup_profile.json").
  intros f1 f2 c1 c2 d1 d2 s1 s2 p1 p2 st1 st2 Hf Hc Hd Hs Hp Hst.
  rewrite (Hdeg d1), (Hsh d1).
  replace (rule_blocking_conflict c1) with (rule_blocking_conflict c2)
    by (unfold rule_blocking_conflict; stubs Hc; reflexivity).
  replace (rule_orphaned_conflict rt c1 f1) with (rule_orphaned_conflict rt c2 f2)
    by (unfold rule_orphaned_conflict; stubs Hc; stubs Hf;
        rewrite ?andb_false_r; reflexivity).
  replace (rule_verdict_score rt s1) with (rule_verdict_score rt s2)
    by (unfold rule_verdict_score; stubs Hs; reflexivity).
  replace (rule_consensus_score rt d1 s1) with (rule_consensus_score rt d2 s2)
    by (unfold rule_consensus_score; stubs Hd; stubs Hs;
        rewrite ?andb_false_r; reflexivity).
  replace (rule_unanimous_verdict rt d1) with (rule_unanimous_verdict rt d2)
    by (unfold rule_unanimous_verdict; stubs Hd; reflexivity).
  replace (rule_partner_unanimity d1) with (rule_partner_unanimity d2)
    by (unfold rule_partner_unanimity; stubs Hd; reflexivity).
  replace (rule_zero_applicable s1) with (rule_zero_applicable s2)
    by (unfold rule_zero_applicable; stubs Hs; reflexivity).
  replace (rule_stale_import rt now p1) with (rule_stale_import rt now p2)
    by (unfold rule_stale_import; stubs Hp; reflexivity).
  replace (rule_low_evidence rt s1) with (rule_low_evidence rt s2)
    by (unfold rule_low_evidence; stubs Hs; reflexivity).
  replace (rule_fund_validation rt f1) with (rule_fund_validation rt f2)
    by (unfold rule_fund_validation; stubs Hf; reflexivity).
  replace (rule_degraded a2 d1) with (rule_degraded a2 d2)
    by (unfold rule_degraded, discussion_mode_is; stubs Hd; reflexivity).
  replace (rule_shallow a2 d1) with (rule_shallow a2 d2)
    by (unfold rule_shallow, discussion_mode_is; stubs Hd; reflexivity).
  replace (rule_high_na s1) with (rule_high_na s2)
    by (unfold rule_high_na; stubs Hs; reflexivity).
  replace (rule_stage_out_of_scope st1) with (rule_stage_out_of_scope st2)
    by (unfold rule_stage_out_of_scope; stubs Hst; reflexivity).
  replace (rule_sequential_fallback d1) with (rule_sequential_fallback d2)
    by (unfold rule_sequential_fallback, discussion_mode_is; stubs Hd; reflexivity).
  reflexivity.
Qed.

End IcSimStubs.

Section MarketStubs.
Variable rt : PyRuntime.
Import MarketSizing.

Lemma market_validate_alike (a1 a2 : artifacts) :
  Spec.alike a1 a2 -> validate_artifacts rt a1 = validate_artifacts rt a2.
Proof.
  intros H. unfold validate_artifacts.
  rewrite (required_rule_alike _ _ a1 a2 H).
  assert (Ho : optional_rule a1 = optional_rule a2).
  { unfold optional_rule. apply flat_map_ext. intros n. pose proof (H n) as Hn.
    stubs Hn; reflexivity. }
  rewrite Ho.
  pose proof (H "methodology.json") as Hm.
  pose proof (H "validation.json") as Hv.
  pose proof (H "sizing.json") as Hs.
  pose proof (H "sensitivity.json") as Hse.
  pose proof (H "checklist.json") as Hc.
  pose proof (H "inputs.json") as Hi.
  revert Hm Hv Hs Hse Hc Hi.
  generalize (art_get a1 "methodology.json") (art_get a2 "methodology.json")
             (art_get a1 "validation.json") (art_get a2 "validation.json")
             (art_get a1 "sizing.json") (art_get a2 "sizing.json")
             (art_get a1 "sensitivity.json") (art_get a2 "sensitivity.json")
             (art_get a1 "checklist.json") (art_get a2 "checklist.json")
             (art_get a1 "inputs.json") (art_get a2 "inputs.json").
  intros m1 m2 v1 v2 s1 s2 se1 se2 c1 c2 i1 i2 Hm Hv Hs Hse Hc Hi.
  replace (rule_unsourced rt v1 se1) with (rule_unsourced rt v2 se2)
    by (unfold rule_unsourced; stubs Hv; stubs Hse; reflexivity).
  assert (Hof : forall body, over_figures body v1 = over_figures body v2)
    by (intros body; unfold over_figures; stubs Hv; reflexivity).
  rewrite !Hof.
  replace (rule_approach_mismatch m1 s1) with (rule_approach_mismatch m2 s2)
    by (unfold rule_approach_mismatch; stubs Hm; stubs Hs;
        rewrite ?andb_false_r; reflexivity).
  replace (rule_tam_discrepancy rt s1) with (rule_tam_discrepancy rt s2)
    by (unfold rule_tam_discrepancy; stubs Hs; reflexivity).
  replace (rule_checklist_failures rt c1) with (rule_checklist_failures rt c2)
    by (unfold rule_checklist_failures; stubs Hc; reflexivity).
  replace (rule_checklist_incomplete c1) with (rule_checklist_incomplete c2)
    by (unfold rule_checklist_incomplete; stubs Hc; reflexivity).
  replace (rule_low_coverage rt c1) with (rule_low_coverage rt c2)
    by (unfold rule_low_coverage; stubs Hc; reflexivity).
  replace (rule_few_params se1) with (rule_few_params se2)
    by (unfold rule_few_params; stubs Hse; reflexivity).
  replace (rule_narrow_range rt se1) with (rule_narrow_range rt se2)
    by (unfold rule_narrow_range; stubs Hse; reflexivity).
  replace (rule_deck_claim rt s1 i1) with (rule_deck_claim rt s2 i2)
    by (unfold rule_deck_claim; stubs Hs; stubs Hi;
        rewrite ?andb_false_r; reflexivity).
  replace (rule_provenance_unresolved rt s1 v1 i1)
    with (rule_provenance_unresolved rt s2 v2 i2)
    by (unfold rule_provenance_unresolved, _compute_provenance, build_existing_claims;
        stubs Hs; stubs Hv; stubs Hi; rewrite ?andb_false_r; reflexivity).
  reflexivity.
Qed.

End MarketStubs.

(** C9, as stated, fails: a marker that is truthy but is not the literal
    [true] does not make a stub.  With ["skipped": 1] the checklist stays
    usable and its rule fires. *)
Lemma truthy_skipped_marker_is_no_stub :
  let checklist :=
    Val (JDict [ ("skipped", JInt 1); ("summary", JDict [("fail", JInt 11)]) ]) in
  truthy (JInt 1) = true
  /\ _is_stub checklist = false
  /\ _usable checklist = true
  /\ DeckReview.rule_checklist_failures Examples.plain_rt checklist
     = Ok [ _warn DeckReview.WARNING_SEVERITY "CHECKLIST_FAILURES_CRITICAL"
              "Checklist has 11 failures (>10 — critical threshold)" ].
Proof. repeat split. Qed.

(** C9, amended.  A parsed top-level object is a stub exactly when its
    ["skipped"] entry is the literal [true].  A stub is not usable, and
    rule evaluation does not look into it: in each of the three scripts,
    two artifact maps that differ only in what their stubs contain get the
    same result from [validate_artifacts]. *)
Theorem literal_true_marker_makes_stub
    (rt : PyRuntime) (now : Z) (kvs : list (string * json)) :
  (_is_stub (Val (JDict kvs)) = true <-> dget kvs "skipped" JNull = JBool true)
  /\ (_is_stub (Val (JDict kvs)) = true -> _usable (Val (JDict kvs)) = false)
  /\ (forall a1 a2, Spec.alike a1 a2 ->
        DeckReview.validate_artifacts rt a1 = DeckReview.validate_artifacts rt a2
        /\ MarketSizing.validate_artifacts rt a1 = MarketSizing.validate_artifacts rt a2
        /\ IcSim.validate_artifacts rt now a1 = IcSim.validate_artifacts rt now a2).
Proof.
  split; [apply is_stub_iff|]. split; [apply stub_not_usable|].
  intros a1 a2 H. repeat split.
  - now apply deck_validate_alike.
  - now apply market_validate_alike.
  - now apply ic_validate_alike.
Qed.


(** ** Which rule emits which code *)

Lemma Ok_inj {A} (a b : A) : Ok a = Ok b -> a = b.
Proof. now intros [= ->]. Qed.

Lemma emits_nil (codes : list string) : Spec.emits codes (Ok []).
Proof. intros ws [= <-]. constructor. Qed.

Lemma emits_for_each {A} (codes : list string) (f : A -> result (list warning))
    (l : list A) :
  (forall x, Spec.emits codes (f x)) -> Spec.emits codes (for_each f l).
Proof.
  intros H ws. apply for_each_ok. intros x ys _. apply H.
Qed.

Lemma emits_bind {A} (codes : list string) (r : result A)
    (k : A -> result (list warning)) :
  (forall a, Spec.emits codes (k a)) -> Spec.emits codes (bind r k).
Proof. intros H. destruct r; cbn [bind]; [apply H | intros ws; discriminate]. Qed.

Lemma emits_if (codes : list string) (b : bool) (r1 r2 : result (list warning)) :
  Spec.emits codes r1 -> Spec.emits codes r2 -> Spec.emits codes (if b then r1 else r2).
Proof. now destruct b. Qed.

Lemma emits_one (codes : list string) (w : warning) :
  In (code w) codes -> Spec.emits codes (Ok [w]).
Proof. intros H ws [= <-]. repeat constructor. exact H. Qed.

(** Walks down a rule: binds, conditionals, matches and loops. *)
Ltac head_of t :=
  lazymatch t with
  | ?f _ => head_of f
  | _ => t
  end.

Ltac emits :=
  repeat
    (lazymatch goal with
     | |- Spec.emits _ (Ok []) => apply emits_nil
     | |- Spec.emits _ (Ok [_]) => apply emits_one; cbn; tauto
     | |- Spec.emits _ (bind _ _) => apply emits_bind; intros ?
     | |- Spec.emits _ (if _ then _ else _) => apply emits_if
     | |- Spec.emits _ (for_each _ _) => apply emits_for_each; intros ?
     | |- Spec.emits _ (match ?x with _ => _ end) => destruct x
     | |- Spec.emits _ (Raise _) => intros ? ?; discriminate
     | |- Spec.emits _ ?r => let h := head_of r in unfold h
     end).

Lemma required_rule_codes (table : sev_table) (req : list string) (arts : artifacts)
    (w : warning) :
  In w (required_rule table req arts) ->
  exists name, In name req /\
    ((is_CORRUPT (art_get arts name) = true
      /\ w = _warn table "CORRUPT_ARTIFACT" ("Artifact has invalid JSON: " ++ name))
     \/ (is_CORRUPT (art_get arts name) = false /\ is_None (art_get arts name) = true
         /\ w = _warn table "MISSING_ARTIFACT" ("Required artifact missing: " ++ name))).
Proof.
  unfold required_rule. intros H. apply in_flat_map in H as (name & Hn & H).
  exists name. split; [exact Hn|].
  destruct (is_CORRUPT (art_get arts name)).
  - destruct H as [<-|[]]. auto.
  - destruct (is_None (art_get arts name)); [|destruct H].
    destruct H as [<-|[]]. auto.
Qed.

Lemma required_rule_missing (table : sev_table) (req : list string) (arts : artifacts)
    (name : string) :
  In name req -> is_None (art_get arts name) = true ->
  In (_warn table "MISSING_ARTIFACT" ("Required artifact missing: " ++ name))
     (required_rule table req arts).
Proof.
  intros Hn H. unfold required_rule. apply in_flat_map. exists name. split; [exact Hn|].
  destruct (art_get arts name) as [|[]]; try discriminate. now left.
Qed.

Lemma required_rule_corrupt (table : sev_table) (req : list string) (arts : artifacts)
    (name : string) :
  In name req -> is_CORRUPT (art_get arts name) = true ->
  In (_warn table "CORRUPT_ARTIFACT" ("Artifact has invalid JSON: " ++ name))
     (required_rule table req arts).
Proof.
  intros Hn H. unfold required_rule. apply in_flat_map. exists name. split; [exact Hn|].
  rewrite H. now left.
Qed.

Section DeckCodes.
Variable rt : PyRuntime.
Import DeckReview.

(** The findings of [validate_artifacts]: those of the required-artifact
    rule, then findings of the other rules' codes. *)
Lemma deck_validate_shape (arts : artifacts) (ws : list warning) :
  validate_artifacts rt arts = Ok ws ->
  exists rest,
    ws = (required_rule WARNING_SEVERITY REQUIRED_ARTIFACTS arts ++ rest)%list
    /\ Forall (fun w => In (code w) Spec.deck_rule_codes) rest.
Proof.
  unfold validate_artifacts. intros H.
  apply bind_ok in H as (w3 & H3 & H).
  apply bind_ok in H as (w4 & H4 & H).
  apply bind_ok in H as (w5 & H5 & H).
  apply bind_ok in H as (w6 & H6 & H).
  apply bind_ok in H as (w7 & H7 & H).
  apply bind_ok in H as (w8 & H8 & H).
  apply Ok_inj in H. subst ws. eexists; split; [reflexivity|].
  repeat (apply Forall_app; split).
  - revert w3 H3. change (Spec.emits Spec.deck_rule_codes
      (rule_checklist_failures rt (art_get arts "checklist.json"))). emits.
  - revert w4 H4. change (Spec.emits Spec.deck_rule_codes
      (rule_stage_mismatch (art_get arts "deck_inventory.json")
         (art_get arts "stage_profile.json"))). emits.
  - revert w5 H5. change (Spec.emits Spec.deck_rule_codes
      (rule_stage_out_of_scope (art_get arts "deck_inventory.json")
         (art_get arts "stage_profile.json"))). emits.
  - revert w6 H6. change (Spec.emits Spec.deck_rule_codes
      (rule_slide_count rt (art_get arts "deck_inventory.json"))). emits.
  - revert w7 H7. change (Spec.emits Spec.deck_rule_codes
      (rule_uncited_critique rt (art_get arts "slide_reviews.json"))). emits.
  - revert w8 H8. change (Spec.emits Spec.deck_rule_codes
      (rule_ai_criteria (art_get arts "stage_profile.json")
         (art_get arts "checklist.json"))). emits.
Qed.

End DeckCodes.

Section IcSimCodes.
Variable rt : PyRuntime.
Variable now : Z.
Import IcSim.

Lemma ic_degraded_codes (arts : artifacts) (d : artifact) :
  Spec.emits Spec.ic_rule_codes (rule_degraded arts d).
Proof.
  unfold rule_degraded. apply emits_bind. intros [|]; [|apply emits_nil].
  intros ws [= <-].
  repeat (apply Forall_app; split);
    try (destruct (is_None _); constructor; [cbn; tauto | constructor]).
  constructor.
Qed.

Lemma ic_schema_drift_codes (arts : artifacts) (e : string * list string) :
  Spec.emits Spec.ic_rule_codes (schema_drift rt arts e).
Proof.
  unfold schema_drift. destruct e as [n ex].
  apply emits_if; [|apply emits_nil]. apply emits_bind. intros ks ws [= <-].
  apply Forall_app; split.
  - destruct (nonempty _); constructor; [cbn; tauto | constructor].
  - destruct (nonempty _); constructor; [cbn; tauto | constructor].
Qed.

(** The findings of [validate_artifacts]: those of the required-artifact
    rule, those of the unanimity rule, and findings of other codes. *)
Lemma ic_validate_shape (arts : artifacts) (ws : list warning) :
  validate_artifacts rt now arts = Ok ws ->
  exists pre w5 post,
    ws = (required_rule WARNING_SEVERITY REQUIRED_ARTIFACTS arts
          ++ pre ++ w5 ++ post)%list
    /\ rule_partner_unanimity (art_get arts "discussion.json") = Ok w5
    /\ Forall (fun w => In (code w) Spec.ic_rule_codes) pre
    /\ Forall (fun w => In (code w) Spec.ic_rule_codes) post.
Proof.
  unfold validate_artifacts. intros H.
  apply bind_ok in H as (w2 & H2 & H).
  apply bind_ok in H as (w3 & H3 & H).
  apply bind_ok in H as (w4 & H4 & H).
  apply bind_ok in H as (w4b & H4b & H).
  apply bind_ok in H as (w4c & H4c & H).
  apply bind_ok in H as (w5 & H5 & H).
  apply bind_ok in H as (w6 & H6 & H).
  apply bind_ok in H as (w7 & H7 & H).
  apply bind_ok in H as (w8 & H8 & H).
  apply bind_ok in H as (w9 & H9 & H).
  apply bind_ok in H as (w10 & H10 & H).
  apply bind_ok in H as (w10b & H10b & H).
  apply bind_ok in H as (w10c & H10c & H).
  apply bind_ok in H as (w11 & H11 & H).
  apply bind_ok in H as (w12 & H12 & H).
  apply bind_ok in H as (w13 & H13 & H).
  apply Ok_inj in H. subst ws.
  exists (w2 ++ w3 ++ w4 ++ w4b ++ w4c)%list, w5,
         (w6 ++ w7 ++ w8 ++ w9 ++ w10 ++ w10b ++ w10c ++ w11 ++ w12 ++ w13)%list.
  split; [rewrite <- !app_assoc; reflexivity|]. split; [exact H5|].
  split; repeat (apply Forall_app; split).
  - revert w2 H2. change (Spec.emits Spec.ic_rule_codes
      (rule_blocking_conflict (art_get arts "conflict_check.json"))). emits.
  - revert w3 H3. change (Spec.emits Spec.ic_rule_codes
      (rule_orphaned_conflict rt (art_get arts "conflict_check.json")
         (art_get arts "fund_profile.json"))). emits.
  - revert w4 H4. change (Spec.emits Spec.ic_rule_codes
      (rule_verdict_score rt (art_get arts "score_dimensions.json"))). emits.
  - revert w4b H4b. change (Spec.emits Spec.ic_rule_codes
      (rule_consensus_score rt (art_get arts "discussion.json")
         (art_get arts "score_dimensions.json"))). emits.
  - revert w4c H4c. change (Spec.emits Spec.ic_rule_codes
      (rule_unanimous_verdict rt (art_get arts "discussion.json"))). emits.
  - revert w6 H6. change (Spec.emits Spec.ic_rule_codes
      (rule_zero_applicable (art_get arts "score_dimensions.json"))). emits.
  - revert w7 H7. change (Spec.emits Spec.ic_rule_codes
      (rule_stale_import rt now (art_get arts "prior_artifacts.json"))). emits.
  - revert w8 H8. change (Spec.emits Spec.ic_rule_codes
      (rule_low_evidence rt (art_get arts "score_dimensions.json"))). emits.
  - revert w9 H9. change (Spec.emits Spec.ic_rule_codes
      (rule_fund_validation rt (art_get arts "fund_profile.json"))). emits.
  - revert w10 H10. apply ic_degraded_codes.
  - revert w10b H10b. change (Spec.emits Spec.ic_rule_codes
      (rule_shallow arts (art_get arts "discussion.json"))). emits.
  - revert w10c H10c. change (Spec.emits Spec.ic_rule_codes
      (rule_high_na (art_get arts "score_dimensions.json"))). emits.
  - revert w11 H11. change (Spec.emits Spec.ic_rule_codes (rule_schema_drift rt arts)).
    unfold rule_schema_drift. apply emits_for_each. apply ic_schema_drift_codes.
  - revert w12 H12. change (Spec.emits Spec.ic_rule_codes
      (rule_stage_out_of_scope (art_get arts "startup_profile.json"))). emits.
  - revert w13 H13. change (Spec.emits Spec.ic_rule_codes
      (rule_sequential_fallback (art_get arts "discussion.json"))). emits.
Qed.

End IcSimCodes.

Section MarketCodes.
Variable rt : PyRuntime.
Import MarketSizing.


Lemma market_refuted_codes (fig : json) :
  Spec.emits Spec.market_rule_codes (refuted_claim rt fig).
Proof.
  unfold refuted_claim. apply emits_bind. intros st.
  apply emits_if; [|apply emits_nil].
  unfold fig_display. repeat (apply emits_bind; intros ?).
  intros ws [= <-]. apply Forall_app; split.
  - destruct (negb _); constructor; [cbn; tauto | constructor].
  - constructor; [cbn; tauto | constructor].
Qed.

(** The findings of [validate_artifacts]: those of the required-artifact
    rule, those of the optional-artifact rule, and findings of other
    codes. *)
Lemma market_validate_shape (arts : artifacts) (ws : list warning) :
  validate_artifacts rt arts = Ok ws ->
  exists rest,
    ws = (required_rule WARNING_SEVERITY REQUIRED_ARTIFACTS arts
          ++ optional_rule arts ++ rest)%list
    /\ Forall (fun w => In (code w) Spec.market_rule_codes) rest.
Proof.
  unfold validate_artifacts. intros H.
  apply bind_ok in H as (w3 & H3 & H).
  apply bind_ok in H as (w4 & H4 & H).
  apply bind_ok in H as (w5 & H5 & H).
  apply bind_ok in H as (w7 & H7 & H).
  apply bind_ok in H as (w8 & H8 & H).
  apply bind_ok in H as (w9 & H9 & H).
  apply bind_ok in H as (w10 & H10 & H).
  apply bind_ok in H as (w11 & H11 & H).
  apply bind_ok in H as (w12 & H12 & H).
  apply bind_ok in H as (w13 & H13 & H).
  apply bind_ok in H as (w14 & H14 & H).
  apply bind_ok in H as (w15 & H15 & H).
  apply bind_ok in H as (w16 & H16 & H).
  apply Ok_inj in H. subst ws. eexists; split; [reflexivity|].
  repeat (apply Forall_app; split).
  - revert w3 H3. change (Spec.emits Spec.market_rule_codes
      (rule_unsourced rt (art_get arts "validation.json")
         (art_get arts "sensitivity.json"))). emits.
  - revert w4 H4. change (Spec.emits Spec.market_rule_codes
      (over_figures (unvalidated_claim rt) (art_get arts "validation.json"))). emits.
  - revert w5 H5. change (Spec.emits Spec.market_rule_codes
      (over_figures (refuted_claim rt) (art_get arts "validation.json"))).
    unfold over_figures. apply emits_if; [|apply emits_nil]. apply emits_bind.
    intros f. apply emits_for_each. apply market_refuted_codes.
  - revert w7 H7. change (Spec.emits Spec.market_rule_codes
      (rule_approach_mismatch (art_get arts "methodology.json")
         (art_get arts "sizing.json"))). emits.
  - revert w8 H8. change (Spec.emits Spec.market_rule_codes
      (rule_tam_discrepancy rt (art_get arts "sizing.json"))). emits.
  - revert w9 H9. change (Spec.emits Spec.market_rule_codes
      (rule_checklist_failures rt (art_get arts "checklist.json"))). emits.
  - revert w10 H10. change (Spec.emits Spec.market_rule_codes
      (rule_checklist_incomplete (art_get arts "checklist.json"))). emits.
  - revert w11 H11. change (Spec.emits Spec.market_rule_codes
      (rule_low_coverage rt (art_get arts "checklist.json"))). emits.
  - revert w12 H12. change (Spec.emits Spec.market_rule_codes
      (rule_few_params (art_get arts "sensitivity.json"))). emits.
  - revert w13 H13. change (Spec.emits Spec.market_rule_codes
      (rule_narrow_range rt (art_get arts "sensitivity.json"))). emits.
  - revert w14 H14. change (Spec.emits Spec.market_rule_codes
      (over_figures (overclaimed rt) (art_get arts "validation.json"))). emits.
  - revert w15 H15. change (Spec.emits Spec.market_rule_codes
      (rule_deck_claim rt (art_get arts "sizing.json") (art_get arts "inputs.json"))).
    emits.
  - revert w16 H16. change (Spec.emits Spec.market_rule_codes
      (rule_provenance_unresolved rt (art_get arts "sizing.json")
         (art_get arts "validation.json") (art_get arts "inputs.json"))). emits.
Qed.

End MarketCodes.


(** ** Required artifacts *)

Lemma prefix_refl (s : string) : String.prefix s s = true.
Proof.
  induction s as [|c s IH]; [reflexivity|]. simpl.
  destruct (ascii_dec c c); [exact IH | congruence].
Qed.

Lemma contains_suffix (p n : string) : contains n (p ++ n) = true.
Proof.
  induction p as [|c p IH].
  - destruct n; [reflexivity|]. cbn [append contains].
    rewrite prefix_refl. reflexivity.
  - change (String c p ++ n) with (String c (p ++ n)). cbn [contains].
    rewrite IH. apply orb_true_r.
Qed.

Lemma art_get_load_all (dir : directory) (names : list string) (n : string) :
  In n names -> art_get (load_all dir names) n = _load_artifact (dir n).
Proof.
  unfold art_get, load_all. induction names as [|x names IH]; [intros []|].
  intros H. cbn [map lookup]. destruct (x =? n) eqn:E.
  - apply String.eqb_eq in E. now subst.
  - destruct H as [->|H]; [now rewrite String.eqb_refl in E | now apply IH].
Qed.

Lemma Forall2_In_l {A B} (R : A -> B -> Prop) (l : list A) (l' : list B) (x : A) :
  Forall2 R l l' -> In x l -> exists y, In y l' /\ R x y.
Proof.
  induction 1 as [|a b l l' Hab _ IH]; [intros []|].
  intros [->|H]; [exists b; split; [now left | exact Hab]|].
  destruct (IH H) as (y & Hy & Hxy). exists y. split; [now right | exact Hxy].
Qed.


Lemma apply_first_code (accs : list acceptance) (w w' : warning) :
  apply_first accs w = Ok w' -> code w' = code w.
Proof.
  induction accs as [|a accs IH]; cbn [apply_first]; intros H.
  - now injection H as <-.
  - destruct (matches w a) as [[|]|]; [|auto|discriminate].
    now injection H as <-.
Qed.

(** What the acceptance block does to each finding: the code stays, and a
    finding whose code is not acceptable stays as it is. *)
Lemma resolve_relates (guarded : bool) (table : sev_table) (owner : artifact)
    (ws ws' : list warning) :
  resolve guarded table owner ws = Ok ws' ->
  Forall2 (fun w w' => code w' = code w
                       /\ (acceptable table (code w) = false -> w' = w)) ws ws'.
Proof.
  unfold resolve. destruct (_usable owner).
  - intros H.
    apply bind_ok in H as (aws & _ & H).
    apply bind_ok in H as (accs & Hc & H).
    apply collect_acceptable in Hc.
    apply mapM_Forall2 in H.
    revert H. apply Forall2_impl. intros w w' Hw. split.
    + eapply apply_first_code; eauto.
    + intros Hna. eapply apply_first_other_code; eauto.
  - intros [= <-]. induction ws; constructor; auto.
Qed.


Lemma str_in_In (s : string) (l : list string) : In s l -> str_in s l = true.
Proof.
  intros H. unfold str_in. apply existsb_exists. exists s.
  split; [exact H | apply String.eqb_refl].
Qed.






(** ** Partner unanimity *)

Lemma py_set_three (va vb vc : json) :
  match IcSim.py_set [va; vb; vc] [] with
  | Ok l => (List.length l =? 1)%nat
  | Raise _ => false
  end = Spec.verdicts_agree va vb vc.
Proof.
  unfold Spec.verdicts_agree. cbn [IcSim.py_set existsb app].
  destruct (IcSim.hashable va); [|reflexivity].
  destruct (IcSim.hashable vb); [|reflexivity].
  destruct (IcSim.scalar_eqb vb va); cbn [orb andb existsb app IcSim.py_set].
  - destruct (IcSim.hashable vc); [|reflexivity].
    destruct (IcSim.scalar_eqb vc va); reflexivity.
  - destruct (IcSim.hashable vc); [|reflexivity].
    destruct (IcSim.scalar_eqb vc va); cbn [orb];
      [|destruct (IcSim.scalar_eqb vc vb)]; reflexivity.
Qed.

Lemma has_identical_three (x y z : string) :
  IcSim.has_identical [x; y; z] = true <-> Spec.two_identical x y z.
Proof.
  unfold Spec.two_identical, IcSim.has_identical, str_in. cbn [existsb].
  rewrite !orb_false_r, !orb_true_iff, !String.eqb_eq. tauto.
Qed.

(** The unanimity rule on a discussion with three dict entries *)
Lemma unanimity_rule_three (kvs a b c : list (string * json)) :
  _usable (Val (JDict kvs)) = true ->
  _as_list (dget kvs "partner_verdicts" JNull) = [JDict a; JDict b; JDict c] ->
  IcSim.rule_partner_unanimity (Val (JDict kvs)) =
  if Spec.verdicts_agree (dget a "verdict" JNull) (dget b "verdict" JNull)
       (dget c "verdict" JNull)
  then
    normalized <- mapM IcSim.normalize_ws_val
                    [dget a "rationale" (JStr ""); dget b "rationale" (JStr "");
                     dget c "rationale" (JStr "")] ;;
    if IcSim.has_identical normalized then
      Ok [IcSim.warn "PARTNER_UNANIMITY"
            ("All 3 partners agree on verdict AND share identical"
             ++ " rationales — flags generation collapse")]
    else if eq_str (dget kvs "assessment_mode" (JStr "sequential")) "sub-agent" then
      Ok [IcSim.warn "PARTNER_CONVERGENCE"
            "All 3 partners independently converged on the same verdict with distinct rationales"]
    else Ok []
  else
    match IcSim.py_set [dget a "verdict" JNull; dget b "verdict" JNull;
                        dget c "verdict" JNull] [] with
    | Ok _ => Ok []
    | Raise e => Raise e
    end.
Proof.
  intros Hu Hp. unfold IcSim.rule_partner_unanimity. rewrite Hu.
  cbn [val get bind]. rewrite Hp. cbn [List.length Nat.eqb mapM get bind].
  rewrite <- py_set_three.
  destruct (IcSim.py_set _ []) as [l|e]; cbn [bind]; [|reflexivity].
  destruct (List.length l =? 1)%nat; reflexivity.
Qed.

Lemma unanimity_rule_iff (d : artifact) (w5 : list warning) :
  IcSim.rule_partner_unanimity d = Ok w5 ->
  ((exists w, In w w5 /\ code w = "PARTNER_UNANIMITY")
   <-> Spec.unanimity_condition Spec.two_identical d).
Proof.
  intros H.
  assert (Hno : w5 = [] ->
            ((exists w, In w w5 /\ code w = "PARTNER_UNANIMITY") -> False)).
  { intros -> (w & [] & _). }
  destruct (_usable d) eqn:Hu.
  2:{ unfold IcSim.rule_partner_unanimity in H. rewrite Hu in H.
      apply Ok_inj in H. split; [intros Hw; destruct (Hno (eq_sym H) Hw)|].
      intros (kvs & a & b & c & ra & rb & rc & _ & Hu' & _). congruence. }
  destruct d as [|j]; [discriminate Hu|].
  destruct j as [| | | | | |kvs];
    try (unfold IcSim.rule_partner_unanimity in H; rewrite Hu in H; discriminate H).
  destruct (_as_list (dget kvs "partner_verdicts" JNull))
    as [|p1 [|p2 [|p3 [|p4 rest]]]] eqn:Hp;
    try (unfold IcSim.rule_partner_unanimity in H; rewrite Hu in H;
         cbn [val get bind] in H; rewrite Hp in H;
         cbn [List.length Nat.eqb] in H; apply Ok_inj in H;
         split; [intros Hw; destruct (Hno (eq_sym H) Hw)|];
         intros (kvs' & a & b & c & ra & rb & rc & [= <-] & _ & Hp' & _);
         congruence).
  destruct p1 as [| | | | | |a];
    try (unfold IcSim.rule_partner_unanimity in H; rewrite Hu in H;
         cbn [val get bind] in H; rewrite Hp in H; discriminate H).
  destruct p2 as [| | | | | |b];
    try (unfold IcSim.rule_partner_unanimity in H; rewrite Hu in H;
         cbn [val get bind] in H; rewrite Hp in H; discriminate H).
  destruct p3 as [| | | | | |c];
    try (unfold IcSim.rule_partner_unanimity in H; rewrite Hu in H;
         cbn [val get bind] in H; rewrite Hp in H; discriminate H).
  rewrite (unanimity_rule_three kvs a b c Hu Hp) in H.
  destruct (Spec.verdicts_agree _ _ _) eqn:Ha.
  2:{ destruct (IcSim.py_set _ []); [|discriminate H]. apply Ok_inj in H.
      split; [intros Hw; destruct (Hno (eq_sym H) Hw)|].
      intros (kvs' & a' & b' & c' & ra & rb & rc & [= <-] & _ & Hp' & Ha' & _).
      rewrite Hp in Hp'. injection Hp' as <- <- <-. congruence. }
  cbn [mapM] in H.
  destruct (dget a "rationale" (JStr "")) as [| | | |ra| |] eqn:Hra; try discriminate H.
  destruct (dget b "rationale" (JStr "")) as [| | | |rb| |] eqn:Hrb; try discriminate H.
  destruct (dget c "rationale" (JStr "")) as [| | | |rc| |] eqn:Hrc; try discriminate H.
  cbn [IcSim.normalize_ws_val bind] in H.
  destruct (IcSim.has_identical _) eqn:Hi.
  - apply Ok_inj in H. subst w5. split.
    + intros _. exists kvs, a, b, c, ra, rb, rc.
      repeat split; auto. now apply has_identical_three.
    + intros _. eexists; split; [now left | reflexivity].
  - assert (Hw5 : forall w, In w w5 -> code w <> "PARTNER_UNANIMITY").
    { destruct (eq_str _ _); apply Ok_inj in H; subst w5; intros w Hw Hc;
        cbn [In] in Hw; [destruct Hw as [<-|[]]; discriminate Hc | destruct Hw]. }
    split.
    + intros (w & Hw & Hc). destruct (Hw5 w Hw Hc).
    + intros (kvs' & a' & b' & c' & ra' & rb' & rc' & [= <-] & _ & Hp' & _ &
              Hra' & Hrb' & Hrc' & Hsame).
      rewrite Hp in Hp'. injection Hp' as <- <- <-.
      rewrite Hra in Hra'. rewrite Hrb in Hrb'. rewrite Hrc in Hrc'.
      injection Hra' as <-. injection Hrb' as <-. injection Hrc' as <-.
      apply has_identical_three in Hsame. congruence.
Qed.

Lemma unanimity_rule_severity (d : artifact) (w5 : list warning) :
  IcSim.rule_partner_unanimity d = Ok w5 ->
  forall w, In w w5 -> code w = "PARTNER_UNANIMITY" -> sev w = Medium.
Proof.
  unfold IcSim.rule_partner_unanimity. intros H.
  repeat
    (match type of H with
     | Raise _ = Ok _ => discriminate H
     | context [bind ?r _] => destruct r; cbn [bind] in H
     | context [if ?c then _ else _] => destruct c
     end);
    apply Ok_inj in H; subst w5; intros w Hw Hc; cbn [In] in Hw;
    try (destruct Hw as [<-|[]]); try destruct Hw;
    first [reflexivity | discriminate Hc].
Qed.

(** C10, as stated, fails: the nested loop of rule 5 stops at the first
    pair of equal rationales, so the finding is produced when two of the
    three partners share a rationale and the third has another one. *)
Lemma unanimity_with_two_shared_rationales :
  exists ws,
    IcSim.validate_artifacts Examples.plain_rt 0 Examples.two_shared_rationales = Ok ws
    /\ (exists w, In w ws /\ code w = "PARTNER_UNANIMITY" /\ sev w = Medium)
    /\ ~ Spec.unanimity_condition Spec.all_identical
           (art_get Examples.two_shared_rationales "discussion.json").
Proof.
  eexists. split; [reflexivity|]. split.
  - exists (IcSim.warn "PARTNER_UNANIMITY"
              ("All 3 partners agree on verdict AND share identical"
               ++ " rationales — flags generation collapse")).
    split; [cbn; tauto | split; reflexivity].
  - intros (kvs & a & b & c & ra & rb & rc & Hd & _ & Hp & _ & Ha & Hb & Hc & _ & Hs).
    injection Hd as <-. injection Hp as <- <- <-.
    injection Hb as <-. injection Hc as <-. discriminate Hs.
Qed.

(** C10, amended.  Whenever [validate_artifacts] of the IC simulation
    returns, its findings hold a PARTNER_UNANIMITY finding exactly when
    the discussion artifact is usable, holds exactly three partner
    verdicts that all agree, and at least two of the partners' rationales
    are identical after white-space normalisation; the finding has
    severity medium. *)
Theorem partner_unanimity_iff_two_rationales_identical
    (rt : PyRuntime) (now : Z) (arts : artifacts) (ws : list warning) :
  IcSim.validate_artifacts rt now arts = Ok ws ->
  ((exists w, In w ws /\ code w = "PARTNER_UNANIMITY")
   <-> Spec.unanimity_condition Spec.two_identical (art_get arts "discussion.json"))
  /\ (forall w, In w ws -> code w = "PARTNER_UNANIMITY" -> sev w = Medium).
Proof.
  intros H.
  destruct (ic_validate_shape rt now arts ws H)
    as (pre & w5 & post & -> & H5 & Hpre & Hpost).
  assert (Hin : forall w, code w = "PARTNER_UNANIMITY" ->
            In w (required_rule IcSim.WARNING_SEVERITY IcSim.REQUIRED_ARTIFACTS arts
                  ++ pre ++ w5 ++ post)%list -> In w w5).
  { intros w Hc Hw.
    apply in_app_or in Hw as [Hw|Hw].
    { apply required_rule_codes in Hw as (n & _ & [[_ ->]|(_ & _ & ->)]);
        discriminate Hc. }
    apply in_app_or in Hw as [Hw|Hw].
    { rewrite Forall_forall in Hpre. apply Hpre, str_in_In in Hw.
      rewrite Hc in Hw. discriminate Hw. }
    apply in_app_or in Hw as [Hw|Hw]; [exact Hw|].
    rewrite Forall_forall in Hpost. apply Hpost, str_in_In in Hw.
    rewrite Hc in Hw. discriminate Hw. }
  split.
  - rewrite <- (unanimity_rule_iff _ w5 H5). split.
    + intros (w & Hw & Hc). exists w. split; [now apply Hin | exact Hc].
    + intros (w & Hw & Hc). exists w. split; [|exact Hc].
      apply in_or_app; right. apply in_or_app; right. apply in_or_app; now left.
  - intros w Hw Hc. eapply unanimity_rule_severity; eauto.
Qed.

Lemma partner_unanimity_iff_two_rationales_identical_witness :
  Spec.unanimity_condition Spec.two_identical
    (art_get Examples.two_shared_rationales "discussion.json").
Proof.
  destruct (partner_unanimity_iff_two_rationales_identical Examples.plain_rt 0
              Examples.two_shared_rationales _ eq_refl) as [Hiff _].
  apply Hiff.
  exists (IcSim.warn "PARTNER_UNANIMITY"
              ("All 3 partners agree on verdict AND share identical"
               ++ " rationales — flags generation collapse")).
  split; [cbn; tauto | reflexivity].
Defined.


(** ** Malformed fields *)

(** C1 fails on the code.  Each of the three [validate_artifacts] raises
    on an artifact map in which one nested field has the wrong type: a
    string for the failure count of the deck-review checklist
    ([fail_count > 10]), a string among the market-sizing assumptions
    ([assumption.get]), a string among the IC-simulation score items
    ([item.get] in the LOW_EVIDENCE loop). *)
Theorem validate_artifacts_raises_on_malformed_field (rt : PyRuntime) (now : Z) :
  DeckReview.validate_artifacts rt Examples.deck_fail_count_string = Raise TypeError
  /\ MarketSizing.validate_artifacts rt Examples.market_assumption_string
     = Raise AttributeError
  /\ IcSim.validate_artifacts rt now Examples.ic_item_string = Raise AttributeError.
Proof. repeat split. Qed.


(** ** The clock *)

Lemma for_each_ext_in {A B} (f g : A -> result (list B)) (l : list A) :
  (forall x, In x l -> f x = g x) -> for_each f l = for_each g l.
Proof.
  intros H. induction l as [|x l IH]; cbn [for_each]; [reflexivity|].
  rewrite (H x) by now left. rewrite IH; [reflexivity|].
  intros y Hy. apply H. now right.
Qed.

Lemma stale_import_same_staleness (rt : PyRuntime) (now1 now2 : Z) (imp : json) :
  (forall d, In d (Spec.import_date_of imp) -> Spec.stale now1 d = Spec.stale now2 d) ->
  IcSim.stale_import rt now1 imp = IcSim.stale_import rt now2 imp.
Proof.
  unfold IcSim.stale_import, Spec.import_date_of. intros H.
  destruct imp as [| | | | | |kvs]; try reflexivity.
  cbn [get bind _as_dict] in *.
  destruct (dget kvs "import_date" (JStr "")) as [| | | |s| |]; try reflexivity.
  destruct (truthy (JStr s)); [|reflexivity].
  destruct (IcSim.strptime_ymd (IcSim.first10 s)) as [d|]; [|reflexivity].
  specialize (H d (or_introl eq_refl)). unfold Spec.stale in H. now rewrite H.
Qed.

Lemma rule_stale_import_same_staleness (rt : PyRuntime) (now1 now2 : Z)
    (prior : artifact) :
  Spec.same_staleness now1 now2 prior ->
  IcSim.rule_stale_import rt now1 prior = IcSim.rule_stale_import rt now2 prior.
Proof.
  unfold Spec.same_staleness, Spec.import_dates, IcSim.rule_stale_import. intros H.
  destruct (_usable prior); [|reflexivity].
  destruct (val prior) as [| | | | | |kvs]; try reflexivity.
  cbn [get bind _as_dict] in *.
  apply for_each_ext_in. intros imp Himp.
  apply stale_import_same_staleness. intros d Hd.
  apply H. apply in_flat_map. exists imp. split; assumption.
Qed.

(** C2, as stated, fails: the STALE_IMPORT rule of the IC simulation reads
    the clock.  The same directory, composed a day after the import and
    again nineteen days after it, gives two different validation
    objects. *)
Lemma compose_depends_on_the_clock :
  exists r1 r2,
    IcSim.compose Examples.plain_rt Examples.code_list_render
      (Examples.midnight 2024 3 2) Examples.imported_on_march_1 = Ok r1
    /\ IcSim.compose Examples.plain_rt Examples.code_list_render
         (Examples.midnight 2024 3 20) Examples.imported_on_march_1 = Ok r2
    /\ existsb (fun w => code w =? "STALE_IMPORT")
         (warnings (IcSim.validation_result r1)) = false
    /\ existsb (fun w => code w =? "STALE_IMPORT")
         (warnings (IcSim.validation_result r2)) = true
    /\ IcSim.validation_result r1 <> IcSim.validation_result r2
    /\ IcSim.report_markdown r1 <> IcSim.report_markdown r2.
Proof.
  eexists _, _. repeat split; try reflexivity; discriminate.
Qed.

(** C2, amended.  The deck-review and market-sizing [compose] take the
    directory and nothing else.  The IC-simulation [compose] takes the
    directory and the clock, and the clock matters only through the
    STALE_IMPORT rule: two runs over the same directory, at two times that
    agree on which imported dates lie more than seven days back, return
    the same report and the same validation object (or raise the same
    exception). *)
Theorem compose_deterministic_up_to_staleness
    (rt : PyRuntime) (render : artifacts -> list warning -> result string)
    (now1 now2 : Z) (dir : directory) :
  Spec.same_staleness now1 now2 (_load_artifact (dir "prior_artifacts.json")) ->
  IcSim.compose rt render now1 dir = IcSim.compose rt render now2 dir.
Proof.
  intros H. unfold IcSim.compose.
  replace (IcSim.validate_artifacts rt now1
             (load_all dir (IcSim.REQUIRED_ARTIFACTS ++ IcSim.OPTIONAL_ARTIFACTS)))
    with (IcSim.validate_artifacts rt now2
            (load_all dir (IcSim.REQUIRED_ARTIFACTS ++ IcSim.OPTIONAL_ARTIFACTS)));
    [reflexivity|].
  unfold IcSim.validate_artifacts.
  rewrite (rule_stale_import_same_staleness rt now1 now2
             (art_get (load_all dir (IcSim.REQUIRED_ARTIFACTS ++ IcSim.OPTIONAL_ARTIFACTS))
                "prior_artifacts.json")); [reflexivity|].
  rewrite art_get_load_all; [exact H | cbn; tauto].
Qed.

Lemma compose_deterministic_up_to_staleness_witness :
  IcSim.compose Examples.plain_rt Examples.code_list_render
    (Examples.midnight 2024 3 20) Examples.imported_on_march_1
  = IcSim.compose Examples.plain_rt Examples.code_list_render
      (Examples.midnight 2025 1 1) Examples.imported_on_march_1.
Proof.
  apply compose_deterministic_up_to_staleness.
  intros d [<-|[]]. reflexivity.
Defined.


(** ** Provenance *)

Lemma resolved_inputs_categories (amap : list (string * json)) (params : list string) :
  map snd (MarketSizing.resolved_inputs amap params)
  = flat_map (fun k => match lookup k amap with Some c => [c] | None => [] end) params.
Proof.
  unfold MarketSizing.resolved_inputs.
  induction params as [|p params IH]; [reflexivity|].
  cbn [flat_map]. rewrite map_app, IH. now destruct (lookup p amap).
Qed.

Lemma eq_str_iff (v : json) (s : string) : eq_str v s = true <-> v = JStr s.
Proof.
  destruct v; cbn [eq_str]; split; intros H; try discriminate.
  - apply String.eqb_eq in H. now subst.
  - injection H as ->. apply String.eqb_refl.
Qed.

Lemma classify_as_specified (provs : list (string * json)) (cls : string) :
  MarketSizing.classify provs = Ok cls ->
  Spec.classified_as (map snd provs) cls.
Proof.
  unfold MarketSizing.classify, Spec.classified_as.
  destruct provs as [|p provs].
  - intros [= <-]. cbn [map]. repeat split; auto; try contradiction.
  - set (cats := map snd (p :: provs)).
    assert (Hne : cats <> []) by discriminate.
    destruct (forallb _ cats); [|discriminate].
    destruct (existsb (fun c => eq_str c "agent_estimate") cats) eqn:Ea.
    + intros [= <-]. apply existsb_exists in Ea as (c & Hc & Ec).
      apply eq_str_iff in Ec. subst c.
      repeat split; auto; try discriminate; try contradiction.
      intros _ Hs. rewrite Forall_forall in Hs. now specialize (Hs _ Hc).
    + assert (Hna : ~ In (JStr "agent_estimate") cats).
      { intros Hin. assert (existsb (fun c => eq_str c "agent_estimate") cats = true).
        { apply existsb_exists. eexists; split; [exact Hin | reflexivity]. }
        congruence. }
      destruct (forallb (fun c => eq_str c "sourced") cats) eqn:Es.
      * intros [= <-]. repeat split; auto; try discriminate; try contradiction.
        intros _ _ Hs. destruct Hs. apply Forall_forall. intros c Hc.
        rewrite forallb_forall in Es. symmetry. now apply eq_str_iff, Es.
      * intros [= <-]. repeat split; auto; try discriminate; try contradiction.
        intros _ Hs. assert (forallb (fun c => eq_str c "sourced") cats = true).
        { apply forallb_forall. intros c Hc. rewrite Forall_forall in Hs.
          apply eq_str_iff. symmetry. now apply Hs. }
        congruence.
Qed.

Lemma compute_delta_as_amended (rt : PyRuntime) (calculated : float) (claim : json)
    (delta : option float) :
  MarketSizing._compute_delta rt calculated claim = Ok delta ->
  Spec.delta_as_amended rt calculated claim delta.
Proof.
  unfold Spec.delta_as_amended, MarketSizing._compute_delta, Spec.delta_for_number,
    Spec.float_delta_pct, MarketSizing.py_float, MarketSizing.number_of,
    MarketSizing.float_of_number.
  destruct claim as [|b|z|q|s|l|kvs].
  - intros H. now apply Ok_inj in H.
  - replace (is_finite (of_Z (if b then 1 else 0))) with true by now destruct b.
    destruct (fleb _ _); intros H; now apply Ok_inj in H.
  - destruct (is_finite (of_Z z)); [|discriminate].
    destruct (fleb _ _); intros H; apply Ok_inj in H; now split.
  - destruct (fleb _ _); intros H; now apply Ok_inj in H.
  - destruct (float_of_str rt s) as [c|]; [|intros H; now apply Ok_inj in H].
    destruct (fleb _ _); intros H; now apply Ok_inj in H.
  - intros H. now apply Ok_inj in H.
  - intros H. now apply Ok_inj in H.
Qed.

(** The floats of the model, against the values the interpreter prints:
    0.1 is 7205759403792794 * 2^-56; an [int] halfway between two floats
    goes to the even one; the largest float is below 2^1024 - 2^970, where
    the infinity begins; the smallest is 2^-1074. *)
Lemma of_Q_values :
  of_Q (1 # 10) = S754_finite false 7205759403792794 (-56)
  /\ to_Q (of_Q (1 # 10)) = Some (7205759403792794 # 2 ^ 56)
  /\ of_Z (2 ^ 53 + 1) = of_Z (2 ^ 53)
  /\ of_Z (2 ^ 53 + 3) = of_Z (2 ^ 53 + 4)
  /\ of_Z (2 ^ 1024 - 2 ^ 970 - 1) = S754_finite false 9007199254740991 971
  /\ of_Z (2 ^ 1024 - 2 ^ 970) = S754_infinity false
  /\ of_Q (5 # 10 ^ 324) = S754_finite false 1 (-1074)
  /\ of_Q (2 # 10 ^ 324) = S754_zero false.
Proof. repeat split; vm_compute; reflexivity. Qed.

(** [round(x, 1)] looks at the binary value: 0.25 is a float and the tie
    goes to the even tenth; the floats nearest to 0.35 and to 0.15 lie
    below them, the float nearest to 0.05 above it; a negative value that
    rounds to zero keeps its sign. *)
Lemma round1_values :
  MarketSizing.round1 (of_Q (25 # 100)) = of_Q (2 # 10)
  /\ MarketSizing.round1 (of_Q (75 # 100)) = of_Q (8 # 10)
  /\ MarketSizing.round1 (of_Q (35 # 100)) = of_Q (3 # 10)
  /\ MarketSizing.round1 (of_Q (15 # 100)) = of_Q (1 # 10)
  /\ MarketSizing.round1 (of_Q (5 # 100)) = of_Q (1 # 10)
  /\ MarketSizing.round1 (of_Q (-4 # 100)) = S754_zero true
  /\ MarketSizing.round1 S754_nan = S754_nan
  /\ MarketSizing.round1 (S754_infinity true) = S754_infinity true.
Proof. repeat split; vm_compute; reflexivity. Qed.

(** [_compute_delta] computes in floats.  2001 against a claim of 2000 is
    0.05 percent in exact numbers, which would round to 0.0; the floats
    give a product just above 0.05 and the delta 0.1.  1003 against 2000
    gives -49.9, where exact numbers give the tie -49.85.  An [int] claim
    beyond the largest float raises; a float claim that large is an
    infinity and gives NaN, as does a string read as NaN. *)
Lemma compute_delta_values (rt : PyRuntime) :
  MarketSizing._compute_delta rt (of_Z 2001) (JInt 2000) = Ok (Some (of_Q (1 # 10)))
  /\ MarketSizing._compute_delta rt (of_Z 1003) (JInt 2000)
     = Ok (Some (of_Q (-499 # 10)))
  /\ MarketSizing._compute_delta rt (of_Q (10015 # 10)) (JInt 1000)
     = Ok (Some (of_Q (1 # 10)))
  /\ MarketSizing._compute_delta rt (of_Q (10005 # 10)) (JInt 1000)
     = Ok (Some (of_Q (1 # 10)))
  /\ MarketSizing._compute_delta rt (of_Z 1) (JInt 3) = Ok (Some (of_Q (-667 # 10)))
  /\ MarketSizing._compute_delta rt (of_Z 1) (JInt 0) = Ok None
  /\ MarketSizing._compute_delta rt (of_Z 1) (JInt (10 ^ 400)) = Raise OverflowError
  /\ MarketSizing._compute_delta rt (of_Z 1) (JFloat (inject_Z (10 ^ 400)))
     = Ok (Some S754_nan)
  /\ (forall s, float_of_str rt s = Some S754_nan ->
        MarketSizing._compute_delta rt (of_Z 1) (JStr s) = Ok (Some S754_nan)).
Proof.
  repeat split; try (vm_compute; reflexivity).
  intros s H. unfold MarketSizing._compute_delta, MarketSizing.py_float.
  rewrite H. reflexivity.
Qed.

(** A claim read as NaN is not [<= 0]: the delta is NaN, whatever the
    calculated value. *)
Lemma delta_for_nan_claim (calculated : float) :
  Spec.delta_for_number calculated S754_nan = Some S754_nan.
Proof. destruct calculated; reflexivity. Qed.

Lemma figure_as_specified (rt : PyRuntime) (amap claims : list (string * json))
    (approach_data : json) (name upper : string)
    (fp : MarketSizing.figure_provenance) (u : list (string * string)) :
  MarketSizing.figure rt amap claims approach_data (name, upper) = Ok (fp, u) ->
  exists mj, get approach_data name JNull = Ok mj
             /\ Spec.figure_as_amended rt amap claims (_as_dict mj) name fp.
Proof.
  unfold MarketSizing.figure. intros H.
  apply bind_ok in H as (mj & Hmj & H). exists mj. split; [exact Hmj|].
  apply bind_ok in H as (cls & Hcls & H).
  apply bind_ok in H as (delta & Hdelta & H).
  apply Ok_inj in H. injection H as <- _.
  unfold Spec.figure_as_amended.
  cbn [MarketSizing.input_provenances MarketSizing.classification
       MarketSizing.deck_claim MarketSizing.delta_vs_deck_pct].
  assert (Hcats : map snd (MarketSizing.resolved_inputs amap
                    (MarketSizing.relevant_inputs (_as_dict (dget (_as_dict mj) "inputs" JNull))))
                  = Spec.resolved_categories amap (_as_dict (dget (_as_dict mj) "inputs" JNull)))
    by apply resolved_inputs_categories.
  split; [exact Hcats|].
  split. { rewrite <- Hcats. now apply classify_as_specified. }
  split; [reflexivity|]. split.
  - intros Hc. rewrite Hc in Hdelta. now injection Hdelta as <-.
  - intros Hc.
    assert (Hd : (v <- MarketSizing.py_float rt (dget (_as_dict mj) "value" (JInt 0)) ;;
                  MarketSizing._compute_delta rt v (dget claims name JNull))
                 = Ok delta).
    { destruct (dget claims name JNull); try exact Hdelta. now destruct Hc. }
    apply bind_ok in Hd as (v & Hv & Hd).
    exists v. split; [exact Hv | now apply compute_delta_as_amended].
Qed.

Lemma figures_as_specified (rt : PyRuntime) (amap claims : list (string * json))
    (approach_data : json) (metrics : list (string * string))
    (figs : list (string * MarketSizing.figure_provenance)) (u : list (string * string))
    (metric : string) (fp : MarketSizing.figure_provenance) :
  MarketSizing.figures rt amap claims approach_data metrics = Ok (figs, u) ->
  lookup metric figs = Some fp ->
  exists mj, get approach_data metric JNull = Ok mj
             /\ Spec.figure_as_amended rt amap claims (_as_dict mj) metric fp.
Proof.
  revert figs u. induction metrics as [|[name upper] metrics IH]; intros figs u H Hl.
  - cbn in H. apply Ok_inj in H. injection H as <- _. discriminate Hl.
  - cbn [MarketSizing.figures] in H.
    apply bind_ok in H as ([fp1 u1] & H1 & H).
    apply bind_ok in H as ([figs' u'] & Hrest & H).
    apply Ok_inj in H. injection H as <- _. cbn [fst lookup] in Hl.
    destruct (name =? metric) eqn:E.
    + apply String.eqb_eq in E. subst name. injection Hl as <-.
      eapply figure_as_specified; eauto.
    + eapply IH; eauto.
Qed.

Lemma approaches_as_specified (rt : PyRuntime) (amap claims : list (string * json))
    (sizing : json) (keys : list string) (prov : MarketSizing.provenance_report)
    (u : list (string * string)) (approach metric : string)
    (figs : list (string * MarketSizing.figure_provenance))
    (fp : MarketSizing.figure_provenance) :
  MarketSizing.approaches rt amap claims sizing keys = Ok (prov, u) ->
  lookup approach prov = Some figs ->
  lookup metric figs = Some fp ->
  exists approach_data mj,
    get sizing approach JNull = Ok approach_data
    /\ get approach_data metric JNull = Ok mj
    /\ Spec.figure_as_amended rt amap claims (_as_dict mj) metric fp.
Proof.
  revert prov u. induction keys as [|k keys IH]; intros prov u H Hl Hm.
  - cbn in H. apply Ok_inj in H. injection H as <- _. discriminate Hl.
  - cbn [MarketSizing.approaches] in H.
    apply bind_ok in H as (ad & Had & H).
    assert (Hcons : forall figs1 u1 r,
              MarketSizing.figures rt amap claims ad MarketSizing.METRICS = Ok (figs1, u1) ->
              MarketSizing.approaches rt amap claims sizing keys = Ok r ->
              prov = (k, figs1) :: fst r ->
              exists approach_data mj,
                get sizing approach JNull = Ok approach_data
                /\ get approach_data metric JNull = Ok mj
                /\ Spec.figure_as_amended rt amap claims (_as_dict mj) metric fp).
    { intros figs1 u1 [prov' u'] Hf Hr ->. cbn [fst lookup] in Hl.
      destruct (k =? approach) eqn:E.
      - apply String.eqb_eq in E. subst k. injection Hl as <-.
        destruct (figures_as_specified _ _ _ _ _ _ _ _ _ Hf Hm) as (mj & Hmj & Hfig).
        exists ad, mj. auto.
      - eapply IH; eauto. }
    destruct ad; try (apply bind_ok in H as ([figs1 u1] & Hf & H);
                      apply bind_ok in H as (r & Hr & H);
                      apply Ok_inj in H; injection H as Hp _;
                      eapply Hcons; eauto).
    eapply IH; eauto.
Qed.

(** C8, as stated, fails on the delta: the code rounds it to one decimal
    place.  A calculated TAM of 1 against a deck claim of 3 gets the float
    -66.7.  That is not the float the unrounded formula gives, and it is
    more than 0.03 away from the exact value of (1 - 3) / 3 * 100, far
    more than floating-point rounding accounts for. *)
Lemma delta_is_rounded :
  exists prov u figs fp d dq,
    MarketSizing._compute_provenance Examples.plain_rt Examples.sizing_tam_1
      (Val JNull) Examples.inputs_claim_tam_3 = Ok (prov, u)
    /\ lookup "top_down" prov = Some figs
    /\ lookup "tam" figs = Some fp
    /\ MarketSizing.deck_claim fp = JInt 3
    /\ MarketSizing.delta_vs_deck_pct fp = Some d
    /\ d = of_Q (-667 # 10)
    /\ d <> Spec.float_delta_pct (of_Z 1) (of_Z 3)
    /\ to_Q d = Some dq
    /\ (3 # 100 < Qabs (dq - Spec.delta_pct 1 3))%Q.
Proof.
  eexists _, _, _, _, _, _. repeat split; try reflexivity. intros H. discriminate H.
Qed.

(** C8, amended.  Whenever [_compute_provenance] returns, every figure of
    its report is classified by the categories its quantitative
    parameters resolve to: unknown exactly when none resolves,
    agent_estimate when one of them is agent_estimate, sourced when all
    are sourced, derived otherwise.  When the deck has no claim for the
    figure the delta is omitted.  Otherwise let [claimed] be the claim as
    [float] reads it (a number, a boolean, or a string holding a number)
    and [calculated] the figure's value read the same way.  The delta is
    omitted when [float] cannot read the claim or [claimed <= 0]; else it
    is [round(x, 1)] of the float [x] that
    (calculated - claimed) / claimed * 100 gives in binary64 arithmetic,
    each operation rounded to the nearest float.  No figure of a report
    has an [int] claim beyond the largest float: there
    [_compute_provenance] raises [OverflowError]. *)
Theorem provenance_classification_and_rounded_delta
    (rt : PyRuntime) (sizing : json) (validation inputs : artifact)
    (prov : MarketSizing.provenance_report) (u : list (string * string))
    (approach metric : string)
    (figs : list (string * MarketSizing.figure_provenance))
    (fp : MarketSizing.figure_provenance) :
  MarketSizing._compute_provenance rt sizing validation inputs = Ok (prov, u) ->
  lookup approach prov = Some figs ->
  lookup metric figs = Some fp ->
  exists assumption_map existing_claims approach_data mj,
    MarketSizing.build_assumption_map validation = Ok assumption_map
    /\ MarketSizing.build_existing_claims inputs = Ok existing_claims
    /\ get sizing approach JNull = Ok approach_data
    /\ get approach_data metric JNull = Ok mj
    /\ Spec.figure_as_amended rt assumption_map existing_claims (_as_dict mj) metric fp.
Proof.
  unfold MarketSizing._compute_provenance. intros H Hl Hm.
  apply bind_ok in H as (amap & Ha & H).
  apply bind_ok in H as (claims & Hc & H).
  destruct (approaches_as_specified _ _ _ _ _ _ _ _ _ _ _ H Hl Hm)
    as (ad & mj & Had & Hmj & Hfig).
  exists amap, claims, ad, mj. auto.
Qed.

Lemma provenance_classification_and_rounded_delta_witness :
  exists fp,
    MarketSizing.classification fp = "unknown"
    /\ MarketSizing.delta_vs_deck_pct fp = Some (of_Q (-667 # 10))
    /\ Spec.figure_as_amended Examples.plain_rt []
         [("tam", JInt 3)] [("value", JInt 1); ("inputs", JDict [])] "tam" fp.
Proof.
  destruct (provenance_classification_and_rounded_delta Examples.plain_rt
              Examples.sizing_tam_1 (Val JNull) Examples.inputs_claim_tam_3 _ _
              "top_down" "tam" _ _ eq_refl eq_refl eq_refl)
    as (amap & claims & ad & mj & Ha & Hc & Had & Hmj & Hfig).
  injection Ha as <-. injection Hc as <-. injection Had as <-. injection Hmj as <-.
  eexists. split; [|split; [|exact Hfig]]; reflexivity.
Defined.


(** ** More on [main] and [_write_output] *)

Section MainFacts.
Variable fs : filesystem.
Variable R : Type.
Variable compose : string -> result R.
Variable warnings_of : R -> list warning.
Variable dumps : bool -> R -> string.

Lemma write_output_cases (data : string) (output_path : option string) :
  (_write_output fs data output_path = ([Stdout data], Return tt)
   /\ (output_path = None \/ output_path = Some ""))
  \/ (exists path, output_path = Some path /\ path <> ""
        /\ dirname fs (abspath fs path) <> "/"
        /\ writable fs (abspath fs path) = true
        /\ _write_output fs data output_path
           = ([WriteFile (abspath fs path) data], Return tt))
  \/ (exists text, _write_output fs data output_path = ([Stderr text], Exit 1%Z)).
Proof.
  unfold _write_output, uncaught. destruct output_path as [path|]; [|auto].
  destruct (path =? "") eqn:Ep.
  - apply String.eqb_eq in Ep. subst. auto.
  - apply String.eqb_neq in Ep.
    destruct (dirname fs (abspath fs path) =? "/") eqn:Ed; [eauto|].
    apply String.eqb_neq in Ed.
    destruct (writable fs (abspath fs path)) eqn:Ew; [|eauto].
    right; left. exists path. auto.
Qed.

(** The shape of every run: diagnostics only and exit 1, or one payload
    event followed by at most the strict-mode notice. *)
Lemma main_cases (a : args) :
  (exists text, main fs R compose warnings_of dumps a = ([Stderr text], Exit 1%Z))
  \/ (exists r ev,
        isdir fs (arg_dir a) = true
        /\ compose (arg_dir a) = Ok r
        /\ (let out := dumps (arg_pretty a) r ++ String "010" EmptyString in
            ev = Stdout out
            \/ exists path, arg_output a = Some path /\ path <> ""
                 /\ dirname fs (abspath fs path) <> "/"
                 /\ ev = WriteFile (abspath fs path) out)
        /\ ((arg_strict a = true
             /\ nonempty (filter blocking (warnings_of r)) = true
             /\ main fs R compose warnings_of dumps a
                = ([ev; Stderr "STRICT MODE: Exiting with code 1 due to warnings"],
                   Exit 1%Z))
            \/ ((arg_strict a = false
                 \/ nonempty (filter blocking (warnings_of r)) = false)
                /\ main fs R compose warnings_of dumps a = ([ev], Return tt)))).
Proof.
  unfold main. destruct (isdir fs (arg_dir a)) eqn:Hd; cbn [negb]; [|eauto].
  destruct (compose (arg_dir a)) as [r|e] eqn:Hc; [|unfold uncaught; eauto].
  set (out := dumps (arg_pretty a) r ++ String "010" EmptyString).
  destruct (write_output_cases out (arg_output a))
    as [[Hw _]|[(path & Ho & Hp & Hroot & _ & Hw)|(text & Hw)]]; rewrite Hw;
    cbn [pbind]; [| |eauto].
  - right. exists r, (Stdout out). repeat split; auto.
    destruct (arg_strict a); [|auto].
    destruct (nonempty (filter blocking (warnings_of r))); auto.
  - right. exists r, (WriteFile (abspath fs path) out). repeat split; eauto.
    { right. exists path. auto. }
    destruct (arg_strict a); [|auto].
    destruct (nonempty (filter blocking (warnings_of r))); auto.
Qed.

End MainFacts.


(** X2.  Without [--strict] the findings do not reach the exit status: the
    run exits 0 exactly when it wrote the payload, and with 1 otherwise
    (missing directory, exception in [compose], output path in the root
    directory, file not writable). *)
Theorem lenient_run_exit_status
    (fs : filesystem) (R : Type) (compose : string -> result R)
    (warnings_of : R -> list warning) (dumps : bool -> R -> string) (a : args) :
  arg_strict a = false ->
  let run := main fs R compose warnings_of dumps a in
  (exit_status run = 0%Z <-> exists ev, In ev (fst run) /\ Spec.is_payload ev = true)
  /\ (exit_status run = 0%Z \/ exit_status run = 1%Z).
Proof.
  intros Hs. cbn zeta.
  destruct (main_cases fs R compose warnings_of dumps a)
    as [(text & ->)|(r & ev & Hd & Hc & Hev & Hrun)].
  - cbn [exit_status snd fst]. split; [|now right]. split; [discriminate|].
    intros (ev & [<-|[]] & H). discriminate H.
  - assert (Hp : Spec.is_payload ev = true).
    { cbn zeta in Hev. destruct Hev as [->|(path & _ & _ & _ & ->)]; reflexivity. }
    destruct Hrun as [(Hs' & _)|(_ & ->)]; [congruence|].
    cbn [exit_status snd fst]. split; [|now left]. split; [|reflexivity].
    intros _. exists ev. split; [now left | exact Hp].
Qed.

Lemma lenient_run_exit_status_witness :
  exit_status (main Examples.demo_fs DeckReview.report
                 (fun d => DeckReview.compose Examples.plain_rt Examples.demo_render Examples.demo_dir)
                 (fun r => warnings (DeckReview.validation_result r))
                 Examples.demo_dumps Examples.lenient_args) = 0%Z.
Proof.
  apply (proj1 (lenient_run_exit_status Examples.demo_fs DeckReview.report
                  (fun d => DeckReview.compose Examples.plain_rt Examples.demo_render Examples.demo_dir)
                  (fun r => warnings (DeckReview.validation_result r))
                  Examples.demo_dumps Examples.lenient_args eq_refl)).
  eexists. split; [now left | reflexivity].
Defined.


(** ** The store summary *)

Lemma store_summary_of (all : list string) (dir : directory) (st : string)
    (ws : list warning) :
  Spec.store_summary all dir
    {| status := st; warnings := ws;
       artifacts_found := found_names (load_all dir all) all;
       artifacts_missing := missing_names (load_all dir all) all |}.
Proof.
  intros n. cbn [artifacts_found artifacts_missing].
  unfold found_names, missing_names. rewrite !filter_In.
  split; [|split].
  - split.
    + intros [Hn H]. split; [exact Hn|]. rewrite (art_get_load_all dir all n Hn) in H.
      destruct (dir n) as [| |[]]; try discriminate H; auto.
    + intros [Hn H]. split; [exact Hn|]. rewrite (art_get_load_all dir all n Hn).
      destruct H as [-> | ->]; reflexivity.
  - split.
    + intros [Hn H]. split; [exact Hn|]. rewrite (art_get_load_all dir all n Hn) in H.
      destruct (dir n) as [| |j]; try discriminate H.
      exists j. split; [reflexivity|]. intros ->. discriminate H.
    + intros [Hn (j & Hj & Hnn)]. split; [exact Hn|].
      rewrite (art_get_load_all dir all n Hn), Hj.
      destruct j; try reflexivity. now destruct Hnn.
  - intros Hu. split; intros [Hn H]; rewrite (art_get_load_all dir all n Hn), Hu in H;
      discriminate H.
Qed.

(** X3.  The store summary of [compose], in each of the three scripts.  A
    name is in [artifacts_missing] exactly when it is one of the script's
    artifact names and its file is absent or holds the JSON text [null];
    it is in [artifacts_found] exactly when its file parses to anything
    else, a stub or a value of the wrong shape included; a file that does
    not parse is in neither list. *)
Theorem compose_store_summary (rt : PyRuntime) (now : Z) :
  (forall render dir r,
     DeckReview.compose rt render dir = Ok r ->
     Spec.store_summary (DeckReview.REQUIRED_ARTIFACTS ++ DeckReview.OPTIONAL_ARTIFACTS)
       dir (DeckReview.validation_result r))
  /\ (forall render dir r,
        MarketSizing.compose rt render dir = Ok r ->
        Spec.store_summary
          (MarketSizing.REQUIRED_ARTIFACTS ++ MarketSizing.OPTIONAL_ARTIFACTS)
          dir (MarketSizing.validation_result r))
  /\ (forall render dir r,
        IcSim.compose rt render now dir = Ok r ->
        Spec.store_summary (IcSim.REQUIRED_ARTIFACTS ++ IcSim.OPTIONAL_ARTIFACTS)
          dir (IcSim.validation_result r)).
Proof.
  split; [|split].
  - intros render dir r H. unfold DeckReview.compose in H.
    apply bind_ok in H as (ws & _ & H).
    apply bind_ok in H as (ws' & _ & H).
    apply bind_ok in H as (md & _ & H). apply Ok_inj in H. subst r.
    apply store_summary_of.
  - intros render dir r H. unfold MarketSizing.compose in H.
    apply bind_ok in H as (ws & _ & H).
    apply bind_ok in H as (ws' & _ & H).
    apply bind_ok in H as (prov & _ & H).
    apply bind_ok in H as (md & _ & H). apply Ok_inj in H. subst r.
    apply store_summary_of.
  - intros render dir r H. unfold IcSim.compose in H.
    apply bind_ok in H as (ws & _ & H).
    apply bind_ok in H as (ws' & _ & H).
    apply bind_ok in H as (md & _ & H). apply Ok_inj in H. subst r.
    apply store_summary_of.
Qed.

Lemma compose_store_summary_witness :
  exists r,
    DeckReview.compose Examples.plain_rt Examples.code_list_render Examples.null_checklist_dir
      = Ok r
    /\ artifacts_found (DeckReview.validation_result r) = ["stage_profile.json"]
    /\ In "checklist.json" (artifacts_missing (DeckReview.validation_result r))
    /\ Spec.store_summary (DeckReview.REQUIRED_ARTIFACTS ++ DeckReview.OPTIONAL_ARTIFACTS)
         Examples.null_checklist_dir (DeckReview.validation_result r).
Proof.
  eexists. split; [reflexivity|]. split; [reflexivity|]. split; [cbn; tauto|].
  apply (proj1 (compose_store_summary Examples.plain_rt 0)
           Examples.code_list_render Examples.null_checklist_dir).
  reflexivity.
Defined.


(** ** More on the acceptance resolver *)

Lemma acceptable_medium (table : sev_table) (c : string) :
  acceptable table c = true -> severity_of table c = Some Medium.
Proof.
  unfold acceptable. destruct (severity_of table c) as [[]|]; cbn; congruence.
Qed.

Lemma apply_first_result (accs : list acceptance) (w w' : warning) :
  apply_first accs w = Ok w' ->
  w' = w \/ exists acc, In acc accs /\ code w = acc_code acc
                        /\ w' = accept w (acc_reason acc).
Proof.
  induction accs as [|a accs IH]; cbn [apply_first]; intros H.
  - left. now injection H.
  - destruct (matches w a) as [[|]|] eqn:Em; [| |discriminate].
    + injection H as <-. right. exists a. split; [now left|]. split; [|reflexivity].
      unfold matches in Em. destruct (code w =? acc_code a) eqn:E; [|discriminate].
      now apply String.eqb_eq.
    + destruct (IH H) as [->|(acc & Hin & Hc & ->)]; [now left|].
      right. exists acc. split; [now right | auto].
Qed.

(** What the acceptance block can do to a finding: nothing, or acknowledge
    it through an acceptance of a medium code. *)
Lemma resolve_changes (guarded : bool) (table : sev_table) (owner : artifact)
    (ws ws' : list warning) :
  resolve guarded table owner ws = Ok ws' ->
  Forall2 (fun w w' =>
             w' = w \/ (severity_of table (code w) = Some Medium
                        /\ exists r, w' = accept w r)) ws ws'.
Proof.
  unfold resolve. destruct (_usable owner).
  - intros H.
    apply bind_ok in H as (aws & _ & H).
    apply bind_ok in H as (accs & Hc & H).
    apply collect_acceptable in Hc. rewrite Forall_forall in Hc.
    apply mapM_Forall2 in H.
    revert H. apply Forall2_impl. intros w w' Hw.
    destruct (apply_first_result accs w w' Hw) as [->|(acc & Hin & Hcode & ->)];
      [now left|].
    right. split; [|eauto]. rewrite Hcode. apply acceptable_medium. now apply Hc.
  - intros [= <-]. induction ws; constructor; auto.
Qed.

(** X4.  Only findings of a medium code are ever acknowledged.  Whenever
    the acceptance block completes, each finding is returned unchanged or
    acknowledged, and it is acknowledged only if the severity table gives
    its code the severity medium.  A code the table does not list gets the
    severity medium from [_warn], yet no directive can acknowledge it. *)
Theorem only_medium_codes_are_acknowledged
    (guarded : bool) (table : sev_table) (owner : artifact) (ws ws' : list warning) :
  resolve guarded table owner ws = Ok ws' ->
  Forall2 (fun w w' =>
             (w' = w \/ (severity_of table (code w) = Some Medium
                         /\ exists r, w' = accept w r))
             /\ (severity_of table (code w) = None ->
                 sev (_warn table (code w) (message w)) = Medium /\ w' = w)) ws ws'.
Proof.
  intros H. apply resolve_changes in H. revert H. apply Forall2_impl.
  intros w w' Hw. split; [exact Hw|]. intros Hn. split.
  - unfold _warn, severity_of in *. cbn [sev]. now rewrite Hn.
  - destruct Hw as [->|[Hm _]]; [reflexivity | congruence].
Qed.

Lemma only_medium_codes_are_acknowledged_witness :
  Forall2 (fun w w' =>
             (w' = w \/ (severity_of DeckReview.WARNING_SEVERITY (code w) = Some Medium
                         /\ exists r, w' = accept w r))
             /\ (severity_of DeckReview.WARNING_SEVERITY (code w) = None ->
                 sev (_warn DeckReview.WARNING_SEVERITY (code w) (message w)) = Medium
                 /\ w' = w))
          [Examples.unlisted_finding; Examples.stage_mismatch]
          [Examples.unlisted_finding; accept Examples.stage_mismatch "intentional"].
Proof.
  apply (only_medium_codes_are_acknowledged false DeckReview.WARNING_SEVERITY
           (Examples.stage_profile_with [Examples.accept_unlisted; Examples.accept_stage_mismatch])).
  reflexivity.
Defined.

Lemma blocking_count_le (table : sev_table) (ws ws' : list warning) :
  Forall2 (fun w w' =>
             w' = w \/ (severity_of table (code w) = Some Medium
                        /\ exists r, w' = accept w r)) ws ws' ->
  (List.length (filter blocking ws') <= List.length (filter blocking ws))%nat.
Proof.
  induction 1 as [|w w' ws ws' Hw _ IH]; [reflexivity|]. cbn [filter].
  destruct Hw as [->|(_ & r & ->)].
  - destruct (blocking w); cbn [List.length]; lia.
  - cbn [blocking accept sev]. destruct (blocking w); cbn [List.length]; lia.
Qed.

(** X5.  Acceptance never makes strict mode harder to pass.  Whenever the
    acceptance block completes it returns as many findings as it got, in
    the same order of codes, and no more blocking (high or medium)
    findings than it got; in particular a list without blocking findings
    stays without. *)
Theorem acceptance_never_adds_blocking
    (guarded : bool) (table : sev_table) (owner : artifact) (ws ws' : list warning) :
  resolve guarded table owner ws = Ok ws' ->
  map code ws' = map code ws
  /\ (List.length (filter blocking ws') <= List.length (filter blocking ws))%nat
  /\ (filter blocking ws = [] -> filter blocking ws' = []).
Proof.
  intros H. pose proof (resolve_changes _ _ _ _ _ H) as Hch.
  assert (Hle := blocking_count_le table ws ws' Hch).
  split; [|split; [exact Hle|]].
  - clear Hle H. induction Hch as [|w w' ws0 ws0' Hw _ IH]; [reflexivity|].
    cbn [map]. f_equal; [|exact IH].
    destruct Hw as [->|(_ & r & ->)]; reflexivity.
  - intros E. rewrite E in Hle. destruct (filter blocking ws'); [reflexivity|].
    cbn in Hle. lia.
Qed.

Lemma acceptance_never_adds_blocking_witness :
  (List.length (filter blocking
     [Examples.missing_checklist; accept Examples.stage_mismatch "intentional"])
   <= List.length (filter blocking [Examples.missing_checklist; Examples.stage_mismatch]))%nat.
Proof.
  apply (acceptance_never_adds_blocking false DeckReview.WARNING_SEVERITY
           (Examples.stage_profile_with [Examples.accept_stage_mismatch])
           [Examples.missing_checklist; Examples.stage_mismatch]
           [Examples.missing_checklist; accept Examples.stage_mismatch "intentional"]
           eq_refl).
Defined.

Lemma for_each_raises {A B} (f : A -> result (list B)) (l : list A) (x : A) :
  In x l -> is_ok (f x) = false -> is_ok (for_each f l) = false.
Proof.
  induction l as [|y l IH]; [intros []|]. intros Hin Hx. cbn [for_each].
  destruct (f y) as [ys|] eqn:Ey; [|reflexivity].
  destruct Hin as [->|Hin]; [rewrite Ey in Hx; discriminate Hx|].
  specialize (IH Hin Hx). destruct (for_each f l); [discriminate IH | reflexivity].
Qed.

Lemma for_each_app {A B} (f : A -> result (list B)) (l1 l2 : list A) :
  for_each f (l1 ++ l2)
  = match for_each f l1 with
    | Ok ys => match for_each f l2 with
               | Ok zs => Ok (ys ++ zs)%list
               | Raise e => Raise e
               end
    | Raise e => Raise e
    end.
Proof.
  induction l1 as [|x l1 IH]; cbn [app for_each].
  - now destruct (for_each f l2).
  - destruct (f x); [|reflexivity]. rewrite IH.
    destruct (for_each f l1); [|reflexivity].
    destruct (for_each f l2); [|reflexivity]. now rewrite app_assoc.
Qed.

(** X6.  An entry of [accepted_warnings] that is not an object.  The
    IC-simulation script tests [isinstance(aw, dict)] and skips the entry:
    the acceptances are those of the list without it.  The deck-review and
    market-sizing scripts call [aw.get] on it: the acceptance block raises,
    whatever the other entries and the findings are. *)
Theorem non_object_directive
    (table : sev_table) (kvs : list (string * json)) (before after : list json)
    (aw : json) (ws : list warning) :
  is_dict aw = false ->
  _usable (Val (JDict kvs)) = true ->
  dget kvs "accepted_warnings" JNull = JList (before ++ aw :: after) ->
  collect_acceptances true table (before ++ aw :: after)
    = collect_acceptances true table (before ++ after)
  /\ is_ok (resolve false table (Val (JDict kvs)) ws) = false.
Proof.
  intros Hd Hu Hl. split.
  - unfold collect_acceptances. rewrite !for_each_app. cbn [for_each].
    assert (E : directive true table aw = Ok []).
    { destruct aw; try discriminate Hd; reflexivity. }
    rewrite E. destruct (for_each (directive true table) before); [|reflexivity].
    destruct (for_each (directive true table) after); reflexivity.
  - unfold resolve. rewrite Hu. cbn [val get bind]. rewrite Hl. cbn [_as_list].
    assert (E : is_ok (collect_acceptances false table (before ++ aw :: after)) = false).
    { apply (for_each_raises _ _ aw); [apply in_or_app; right; now left|].
      destruct aw; try discriminate Hd; reflexivity. }
    destruct (collect_acceptances false table (before ++ aw :: after));
      [discriminate E | reflexivity].
Qed.

Lemma non_object_directive_witness :
  is_ok (resolve false DeckReview.WARNING_SEVERITY
           (Examples.stage_profile_with Examples.directives_with_string)
           [Examples.stage_mismatch]) = false.
Proof.
  apply (proj2 (non_object_directive DeckReview.WARNING_SEVERITY
                  [ ("detected_stage", JStr "series_a");
                    ("accepted_warnings", JList Examples.directives_with_string) ]
                  [Examples.accept_stage_mismatch] [] (JStr "STAGE_MISMATCH")
                  [Examples.stage_mismatch] eq_refl eq_refl eq_refl)).
Defined.


(** ** Every finding takes its severity from the table *)

Lemma yields_bind {A} (P : warning -> Prop) (r : result A)
    (k : A -> result (list warning)) :
  (forall a, Spec.yields P (k a)) -> Spec.yields P (bind r k).
Proof. intros H. destruct r; cbn [bind]; [apply H | intros ws; discriminate]. Qed.

Lemma yields_if (P : warning -> Prop) (b : bool) (r1 r2 : result (list warning)) :
  Spec.yields P r1 -> Spec.yields P r2 -> Spec.yields P (if b then r1 else r2).
Proof. now destruct b. Qed.

Lemma yields_for_each {A} (P : warning -> Prop) (f : A -> result (list warning))
    (l : list A) :
  (forall x, Spec.yields P (f x)) -> Spec.yields P (for_each f l).
Proof. intros H ws. apply for_each_ok. intros x ys _. apply H. Qed.

Lemma yields_ok (P : warning -> Prop) (ws : list warning) :
  Forall P ws -> Spec.yields P (Ok ws).
Proof. intros H ws' [= <-]. exact H. Qed.

Lemma Forall_flat_map {A B} (P : B -> Prop) (f : A -> list B) (l : list A) :
  (forall x, Forall P (f x)) -> Forall P (flat_map f l).
Proof.
  intros H. induction l as [|x l IH]; cbn [flat_map]; [constructor|].
  apply Forall_app. auto.
Qed.

(** Walks down a rule and leaves, for each finding it can emit, the goal
    that the finding satisfies the predicate; [fin] closes these goals. *)
Ltac yields_with fin :=
  repeat
    (lazymatch goal with
     | |- Spec.yields _ (Ok _) => apply yields_ok
     | |- Spec.yields _ (bind _ _) => apply yields_bind; intros ?
     | |- Spec.yields _ (if _ then _ else _) => apply yields_if
     | |- Spec.yields _ (for_each _ _) => apply yields_for_each; intros ?
     | |- Spec.yields _ (match ?x with _ => _ end) => destruct x
     | |- Spec.yields _ (Raise _) => intros ? ?; discriminate
     | |- Spec.yields _ ?r => let h := head_of r in unfold h
     | |- Forall _ [] => constructor
     | |- Forall _ (_ :: _) => constructor; [fin|]
     | |- Forall _ (_ ++ _) => apply Forall_app; split
     | |- Forall _ (flat_map _ _) => apply Forall_flat_map; intros ?
     | |- Forall _ (if ?c then _ else _) => destruct c
     | |- Forall _ (match ?x with _ => _ end) => destruct x
     end).

Lemma required_rule_from_table (table : sev_table) (req : list string)
    (arts : artifacts) :
  severity_of table "CORRUPT_ARTIFACT" <> None ->
  severity_of table "MISSING_ARTIFACT" <> None ->
  Forall (Spec.from_table table) (required_rule table req arts).
Proof.
  intros Hc Hm. unfold required_rule, Spec.from_table, _warn, severity_of in *.
  apply Forall_flat_map. intros n.
  destruct (is_CORRUPT (art_get arts n)); [|destruct (is_None (art_get arts n))];
    repeat constructor; cbn [code sev].
  - destruct (lookup "CORRUPT_ARTIFACT" table); [reflexivity | now destruct Hc].
  - destruct (lookup "MISSING_ARTIFACT" table); [reflexivity | now destruct Hm].
Qed.

Ltac rule_from_table :=
  match goal with
  | H : ?r = Ok ?w |- Forall ?P ?w =>
      revert H; generalize w; change (Spec.yields P r); yields_with ltac:(exact eq_refl)
  end.

Lemma deck_validate_from_table (rt : PyRuntime) (arts : artifacts) (ws : list warning) :
  DeckReview.validate_artifacts rt arts = Ok ws ->
  Forall (Spec.from_table DeckReview.WARNING_SEVERITY) ws.
Proof.
  unfold DeckReview.validate_artifacts. intros H.
  repeat (let w := fresh "w" in let Hw := fresh "Hw" in
          apply bind_ok in H as (w & Hw & H)).
  apply Ok_inj in H. subst ws.
  apply Forall_app; split; [apply required_rule_from_table; cbn; discriminate|].
  repeat (apply Forall_app; split); rule_from_table.
Qed.

Lemma ic_validate_from_table (rt : PyRuntime) (now : Z) (arts : artifacts)
    (ws : list warning) :
  IcSim.validate_artifacts rt now arts = Ok ws ->
  Forall (Spec.from_table IcSim.WARNING_SEVERITY) ws.
Proof.
  unfold IcSim.validate_artifacts. intros H.
  repeat (let w := fresh "w" in let Hw := fresh "Hw" in
          apply bind_ok in H as (w & Hw & H)).
  apply Ok_inj in H. subst ws.
  apply Forall_app; split; [apply required_rule_from_table; cbn; discriminate|].
  repeat (apply Forall_app; split); rule_from_table.
Qed.

Lemma market_validate_from_table (rt : PyRuntime) (arts : artifacts)
    (ws : list warning) :
  MarketSizing.validate_artifacts rt arts = Ok ws ->
  Forall (Spec.from_table MarketSizing.WARNING_SEVERITY) ws.
Proof.
  unfold MarketSizing.validate_artifacts. intros H.
  repeat (let w := fresh "w" in let Hw := fresh "Hw" in
          apply bind_ok in H as (w & Hw & H)).
  apply Ok_inj in H. subst ws.
  apply Forall_app; split; [apply required_rule_from_table; cbn; discriminate|].
  apply Forall_app; split.
  { unfold MarketSizing.optional_rule. yields_with ltac:(exact eq_refl). }
  repeat (apply Forall_app; split); rule_from_table.
Qed.

(** X7.  The severity table is complete for the rules.  In each of the
    three scripts every finding [validate_artifacts] returns carries a code
    the script's [WARNING_SEVERITY] lists and the severity listed for it:
    the default severity of [_warn] is never used. *)
Theorem findings_take_severity_from_table (rt : PyRuntime) (now : Z) (arts : artifacts) :
  (forall ws, DeckReview.validate_artifacts rt arts = Ok ws ->
     Forall (Spec.from_table DeckReview.WARNING_SEVERITY) ws)
  /\ (forall ws, MarketSizing.validate_artifacts rt arts = Ok ws ->
        Forall (Spec.from_table MarketSizing.WARNING_SEVERITY) ws)
  /\ (forall ws, IcSim.validate_artifacts rt now arts = Ok ws ->
        Forall (Spec.from_table IcSim.WARNING_SEVERITY) ws).
Proof.
  split; [|split]; intros ws.
  - apply deck_validate_from_table.
  - apply market_validate_from_table.
  - apply ic_validate_from_table.
Qed.

Lemma resolved_from_table_or_acknowledged (guarded : bool) (table : sev_table)
    (owner : artifact) (ws ws' : list warning) :
  Forall (Spec.from_table table) ws ->
  resolve guarded table owner ws = Ok ws' ->
  Forall (fun w => Spec.from_table table w \/ Spec.acknowledged table w) ws'.
Proof.
  intros Hws H. apply resolve_changes in H.
  induction H as [|w w' ws0 ws0' Hw _ IH]; [constructor|].
  inversion Hws as [|? ? Hw0 Hws0]; subst. constructor; [|now apply IH].
  destruct Hw as [->|(Hm & r & ->)]; [now left|].
  right. unfold Spec.acknowledged. cbn [accept sev code message]. eauto.
Qed.

(** X8.  The severities of a composed report.  In each of the three
    scripts every finding of the validation object either has the severity
    the script's table lists for its code, or is acknowledged, and then
    its code is one the table lists as medium and its message ends with an
    [" [Accepted: ...]"] suffix. *)
Theorem composed_findings_severity (rt : PyRuntime) (now : Z) :
  (forall render dir r,
     DeckReview.compose rt render dir = Ok r ->
     Forall (fun w => Spec.from_table DeckReview.WARNING_SEVERITY w
                      \/ Spec.acknowledged DeckReview.WARNING_SEVERITY w)
            (warnings (DeckReview.validation_result r)))
  /\ (forall render dir r,
        MarketSizing.compose rt render dir = Ok r ->
        Forall (fun w => Spec.from_table MarketSizing.WARNING_SEVERITY w
                         \/ Spec.acknowledged MarketSizing.WARNING_SEVERITY w)
               (warnings (MarketSizing.validation_result r)))
  /\ (forall render dir r,
        IcSim.compose rt render now dir = Ok r ->
        Forall (fun w => Spec.from_table IcSim.WARNING_SEVERITY w
                         \/ Spec.acknowledged IcSim.WARNING_SEVERITY w)
               (warnings (IcSim.validation_result r))).
Proof.
  split; [|split].
  - intros render dir r H. unfold DeckReview.compose in H.
    apply bind_ok in H as (ws & Hv & H).
    apply bind_ok in H as (ws' & Hr & H).
    apply bind_ok in H as (md & _ & H). apply Ok_inj in H. subst r.
    cbn [DeckReview.validation_result warnings].
    eapply resolved_from_table_or_acknowledged; [|exact Hr].
    eapply deck_validate_from_table; exact Hv.
  - intros render dir r H. unfold MarketSizing.compose in H.
    apply bind_ok in H as (ws & Hv & H).
    apply bind_ok in H as (ws' & Hr & H).
    apply bind_ok in H as (prov & _ & H).
    apply bind_ok in H as (md & _ & H). apply Ok_inj in H. subst r.
    cbn [MarketSizing.validation_result warnings].
    eapply resolved_from_table_or_acknowledged; [|exact Hr].
    eapply market_validate_from_table; exact Hv.
  - intros render dir r H. unfold IcSim.compose in H.
    apply bind_ok in H as (ws & Hv & H).
    apply bind_ok in H as (ws' & Hr & H).
    apply bind_ok in H as (md & _ & H). apply Ok_inj in H. subst r.
    cbn [IcSim.validation_result warnings].
    eapply resolved_from_table_or_acknowledged; [|exact Hr].
    eapply ic_validate_from_table; exact Hv.
Qed.


(** ** Nothing usable *)

Lemma app_nils {A} (l : list A) : (l ++ [])%list = l.
Proof. apply app_nil_r. Qed.

(** X9.  When no artifact is usable (each is missing, corrupt or a stub)
    none of the three [validate_artifacts] raises, and each returns the
    presence findings only: those of the required-artifact rule, and for
    market sizing those of the optional-artifact rule as well. *)
Theorem nothing_usable_only_presence_findings
    (rt : PyRuntime) (now : Z) (arts : artifacts) :
  (forall name, _usable (art_get arts name) = false) ->
  DeckReview.validate_artifacts rt arts
    = Ok (required_rule DeckReview.WARNING_SEVERITY DeckReview.REQUIRED_ARTIFACTS arts)
  /\ MarketSizing.validate_artifacts rt arts
     = Ok (required_rule MarketSizing.WARNING_SEVERITY
             MarketSizing.REQUIRED_ARTIFACTS arts
           ++ MarketSizing.optional_rule arts)%list
  /\ IcSim.validate_artifacts rt now arts
     = Ok (required_rule IcSim.WARNING_SEVERITY IcSim.REQUIRED_ARTIFACTS arts).
Proof.
  intros H. split; [|split].
  - unfold DeckReview.validate_artifacts, DeckReview.rule_checklist_failures,
      DeckReview.rule_stage_mismatch, DeckReview.rule_stage_out_of_scope,
      DeckReview.rule_slide_count, DeckReview.rule_uncited_critique,
      DeckReview.rule_ai_criteria.
    rewrite !H. cbn [andb bind nonempty app]. now rewrite app_nil_r.
  - unfold MarketSizing.validate_artifacts, MarketSizing.rule_unsourced,
      MarketSizing.over_figures, MarketSizing.rule_approach_mismatch,
      MarketSizing.rule_tam_discrepancy, MarketSizing.rule_checklist_failures,
      MarketSizing.rule_checklist_incomplete, MarketSizing.rule_low_coverage,
      MarketSizing.rule_few_params, MarketSizing.rule_narrow_range,
      MarketSizing.rule_deck_claim, MarketSizing.rule_provenance_unresolved.
    rewrite !H. cbn [andb bind nonempty app]. now rewrite app_nil_r.
  - unfold IcSim.validate_artifacts, IcSim.rule_blocking_conflict,
      IcSim.rule_orphaned_conflict, IcSim.rule_verdict_score,
      IcSim.rule_consensus_score, IcSim.rule_unanimous_verdict,
      IcSim.rule_partner_unanimity, IcSim.rule_zero_applicable,
      IcSim.rule_stale_import, IcSim.rule_low_evidence, IcSim.rule_fund_validation,
      IcSim.rule_degraded, IcSim.rule_shallow, IcSim.rule_high_na,
      IcSim.rule_schema_drift, IcSim.rule_stage_out_of_scope,
      IcSim.rule_sequential_fallback, IcSim.discussion_mode_is,
      IcSim.EXPECTED_KEYS.
    cbn [for_each IcSim.schema_drift].
    rewrite !H. cbn [andb bind nonempty app]. now rewrite app_nil_r.
Qed.

Lemma nothing_usable_only_presence_findings_witness :
  map code (required_rule DeckReview.WARNING_SEVERITY DeckReview.REQUIRED_ARTIFACTS
              Examples.nothing_usable)
  = [ "CORRUPT_ARTIFACT"; "MISSING_ARTIFACT"; "CORRUPT_ARTIFACT" ]
  /\ DeckReview.validate_artifacts Examples.plain_rt Examples.nothing_usable
     = Ok (required_rule DeckReview.WARNING_SEVERITY DeckReview.REQUIRED_ARTIFACTS
             Examples.nothing_usable).
Proof.
  split; [reflexivity|].
  apply (nothing_usable_only_presence_findings Examples.plain_rt 0 Examples.nothing_usable).
  intros name. unfold Examples.nothing_usable, art_get. cbn [lookup].
  repeat (match goal with |- context [?a =? name] => destruct (a =? name) end;
          [reflexivity|]).
  reflexivity.
Defined.

(** ** Staleness only grows *)

Lemma stale_import_later (rt : PyRuntime) (now1 now2 : Z) (imp : json)
    (l1 : list warning) :
  (now1 <= now2)%Z ->
  IcSim.stale_import rt now1 imp = Ok l1 ->
  exists l2, IcSim.stale_import rt now2 imp = Ok l2 /\ incl l1 l2.
Proof.
  unfold IcSim.stale_import. intros Hle H.
  destruct imp as [| | | | | |kvs]; try discriminate H.
  cbn [get bind] in *.
  set (d := dget kvs "import_date" (JStr "")) in *. clearbody d.
  destruct (truthy d); [|exists l1; split; [exact H | apply incl_refl]].
  destruct d as [| | | |s| |]; try discriminate H.
  destruct (IcSim.strptime_ymd (IcSim.first10 s)) as [date|];
    [|exists l1; split; [exact H | apply incl_refl]].
  destruct (now1 - date >? 7 * IcSim.US_PER_DAY)%Z eqn:E1.
  - assert (E2 : (now2 - date >? 7 * IcSim.US_PER_DAY)%Z = true).
    { apply Z.gtb_lt. apply Z.gtb_lt in E1. lia. }
    rewrite E2. exists l1. split; [exact H | apply incl_refl].
  - apply Ok_inj in H. subst l1.
    destruct (now2 - date >? 7 * IcSim.US_PER_DAY)%Z.
    + eexists. split; [reflexivity | intros x []].
    + exists []. split; [reflexivity | apply incl_refl].
Qed.

Lemma for_each_later {A B} (f g : A -> result (list B)) (l : list A) (l1 : list B) :
  (forall x ys, f x = Ok ys -> exists zs, g x = Ok zs /\ incl ys zs) ->
  for_each f l = Ok l1 ->
  exists l2, for_each g l = Ok l2 /\ incl l1 l2.
Proof.
  intros Hfg. revert l1. induction l as [|x l IH]; cbn [for_each]; intros l1 H.
  - exists []. split; [reflexivity|]. apply Ok_inj in H. subst. apply incl_refl.
  - destruct (f x) as [ys|] eqn:Ef; [|discriminate H].
    destruct (for_each f l) as [ws|] eqn:El; [|discriminate H].
    apply Ok_inj in H. subst l1.
    destruct (Hfg x ys Ef) as (zs & -> & Hi).
    destruct (IH ws eq_refl) as (l2 & -> & Hi2).
    eexists. split; [reflexivity|]. now apply incl_app_app.
Qed.

Lemma rule_stale_import_later (rt : PyRuntime) (now1 now2 : Z) (prior : artifact)
    (l1 : list warning) :
  (now1 <= now2)%Z ->
  IcSim.rule_stale_import rt now1 prior = Ok l1 ->
  exists l2, IcSim.rule_stale_import rt now2 prior = Ok l2 /\ incl l1 l2.
Proof.
  unfold IcSim.rule_stale_import. intros Hle H.
  destruct (_usable prior); [|exists l1; split; [exact H | apply incl_refl]].
  destruct (get (val prior) "imported" JNull) as [i|]; [|discriminate H].
  cbn [bind] in *. revert H. apply for_each_later.
  intros x ys. now apply stale_import_later.
Qed.

(** X10.  Findings only grow as time passes.  If [validate_artifacts] of
    the IC simulation returns at one time, it returns at every later time,
    and every finding of the earlier run is a finding of the later one:
    an import that is stale stays stale, and the clock never makes the
    function raise. *)
Theorem later_run_keeps_findings
    (rt : PyRuntime) (now1 now2 : Z) (arts : artifacts) (ws1 : list warning) :
  (now1 <= now2)%Z ->
  IcSim.validate_artifacts rt now1 arts = Ok ws1 ->
  exists ws2, IcSim.validate_artifacts rt now2 arts = Ok ws2 /\ incl ws1 ws2.
Proof.
  unfold IcSim.validate_artifacts. intros Hle H.
  apply bind_ok in H as (w2 & -> & H).
  apply bind_ok in H as (w3 & -> & H).
  apply bind_ok in H as (w4 & -> & H).
  apply bind_ok in H as (w4b & -> & H).
  apply bind_ok in H as (w4c & -> & H).
  apply bind_ok in H as (w5 & -> & H).
  apply bind_ok in H as (w6 & -> & H).
  apply bind_ok in H as (w7 & H7 & H).
  destruct (rule_stale_import_later rt now1 now2 _ w7 Hle H7) as (w7' & -> & Hi).
  apply bind_ok in H as (w8 & -> & H).
  apply bind_ok in H as (w9 & -> & H).
  apply bind_ok in H as (w10 & -> & H).
  apply bind_ok in H as (w10b & -> & H).
  apply bind_ok in H as (w10c & -> & H).
  apply bind_ok in H as (w11 & -> & H).
  apply bind_ok in H as (w12 & -> & H).
  apply bind_ok in H as (w13 & -> & H).
  apply Ok_inj in H. subst ws1. cbn [bind].
  eexists. split; [reflexivity|].
  repeat (apply incl_app_app; [apply incl_refl|]).
  apply incl_app_app; [exact Hi | apply incl_refl].
Qed.

Lemma later_run_keeps_findings_witness :
  exists ws2,
    IcSim.validate_artifacts Examples.plain_rt (Examples.midnight 2024 3 20)
      (load_all Examples.imported_on_march_1
         (IcSim.REQUIRED_ARTIFACTS ++ IcSim.OPTIONAL_ARTIFACTS)) = Ok ws2
    /\ In "STALE_IMPORT" (map code ws2).
Proof.
  destruct (later_run_keeps_findings Examples.plain_rt
              (Examples.midnight 2024 3 10) (Examples.midnight 2024 3 20)
              (load_all Examples.imported_on_march_1
                 (IcSim.REQUIRED_ARTIFACTS ++ IcSim.OPTIONAL_ARTIFACTS))
              _ ltac:(vm_compute; discriminate) eq_refl) as (ws2 & H2 & Hi).
  exists ws2. split; [exact H2|]. apply in_map_iff.
  eexists. split; [|apply Hi; cbn; do 5 right; left; reflexivity]. reflexivity.
Defined.


(** ** Provenance: every quantitative input is accounted for *)

Lemma str_in_iff (s : string) (l : list string) : str_in s l = true <-> In s l.
Proof.
  unfold str_in. rewrite existsb_exists. split.
  - intros (x & Hx & E). apply String.eqb_eq in E. now subst.
  - intros H. exists s. split; [exact H | apply String.eqb_refl].
Qed.

Lemma str_in_false (s : string) (l : list string) : str_in s l = false <-> ~ In s l.
Proof.
  rewrite <- str_in_iff. destruct (str_in s l); split; intros; congruence.
Qed.

Lemma dict_keys_In (k : string) (kvs : list (string * json)) (seen : list string) :
  In k (MarketSizing.dict_keys seen kvs) <-> In k (map fst kvs) /\ ~ In k seen.
Proof.
  revert seen. induction kvs as [|[k' v] kvs IH]; intros seen; cbn [MarketSizing.dict_keys map fst].
  - cbn. tauto.
  - destruct (str_in k' seen) eqn:E.
    + apply str_in_iff in E. rewrite IH. cbn [In]. split.
      * tauto.
      * intros [[->|H] Hn]; [contradiction | tauto].
    + apply str_in_false in E. cbn [In]. rewrite IH. cbn [In].
      destruct (String.eqb_spec k' k) as [->|Hne].
      * tauto.
      * split; [tauto|]. intros [[H|H] Hn]; [contradiction|]. right. tauto.
Qed.

Lemma relevant_inputs_In (k : string) (figure_inputs : list (string * json)) :
  In k (MarketSizing.relevant_inputs figure_inputs)
  <-> In k MarketSizing.QUANTITATIVE_PARAMS /\ In k (map fst figure_inputs).
Proof.
  unfold MarketSizing.relevant_inputs. rewrite filter_In, dict_keys_In, str_in_iff.
  cbn [In]. tauto.
Qed.

Lemma lookup_resolved_inputs (amap : list (string * json)) (params : list string)
    (k : string) (c : json) :
  lookup k (MarketSizing.resolved_inputs amap params) = Some c
  <-> In k params /\ lookup k amap = Some c.
Proof.
  unfold MarketSizing.resolved_inputs.
  induction params as [|p params IH]; cbn [flat_map In].
  - cbn. split; [discriminate | tauto].
  - destruct (lookup p amap) as [cp|] eqn:Ep; cbn [app lookup].
    + destruct (String.eqb_spec p k) as [->|Hne].
      * rewrite Ep. split; [intros [= ->]; auto | intros [_ H]; exact H].
      * rewrite IH. split; [tauto|]. intros [[H|H] Hl]; [contradiction | tauto].
    + rewrite IH. split; [tauto|]. intros [[->|H] Hl]; [congruence | tauto].
Qed.

Lemma unresolved_inputs_In (amap : list (string * json)) (params : list string)
    (k : string) :
  In k (MarketSizing.unresolved_inputs amap params)
  <-> In k params /\ lookup k amap = None.
Proof.
  unfold MarketSizing.unresolved_inputs. rewrite filter_In.
  destruct (lookup k amap); split; intros [H1 H2]; split; congruence.
Qed.

Lemma figure_accounts (rt : PyRuntime) (amap claims : list (string * json))
    (approach_data : json) (name upper : string)
    (fp : MarketSizing.figure_provenance) (u : list (string * string)) :
  MarketSizing.figure rt amap claims approach_data (name, upper) = Ok (fp, u) ->
  exists mj, get approach_data name JNull = Ok mj
    /\ (forall k c, lookup k (MarketSizing.input_provenances fp) = Some c
                    <-> Spec.quantitative_input mj k /\ lookup k amap = Some c)
    /\ (forall k M, In (k, M) u
                    <-> M = upper /\ Spec.quantitative_input mj k /\ lookup k amap = None).
Proof.
  unfold MarketSizing.figure. intros H.
  apply bind_ok in H as (mj & Hmj & H). exists mj. split; [exact Hmj|].
  apply bind_ok in H as (cls & Hcls & H).
  apply bind_ok in H as (delta & Hdelta & H).
  apply Ok_inj in H. injection H as <- <-.
  cbn [MarketSizing.input_provenances]. unfold Spec.quantitative_input, Spec.figure_inputs_of.
  split.
  - intros k c. now rewrite lookup_resolved_inputs, relevant_inputs_In.
  - intros k M. rewrite in_map_iff. split.
    + intros (p & [= -> ->] & Hp).
      apply unresolved_inputs_In in Hp. rewrite relevant_inputs_In in Hp. tauto.
    + intros (-> & Hq & Hn). exists k. split; [reflexivity|].
      apply unresolved_inputs_In. now rewrite relevant_inputs_In.
Qed.

Lemma figures_accounts (rt : PyRuntime) (amap claims : list (string * json))
    (approach_data : json) (metrics : list (string * string))
    (figs : list (string * MarketSizing.figure_provenance)) (u : list (string * string)) :
  MarketSizing.figures rt amap claims approach_data metrics = Ok (figs, u) ->
  (forall k M, In (k, M) u ->
     In k MarketSizing.QUANTITATIVE_PARAMS /\ lookup k amap = None
     /\ In M (map snd metrics))
  /\ (forall metric fp, lookup metric figs = Some fp ->
        exists mj upper, get approach_data metric JNull = Ok mj
          /\ lookup metric metrics = Some upper
          /\ (forall k c, lookup k (MarketSizing.input_provenances fp) = Some c
                          <-> Spec.quantitative_input mj k /\ lookup k amap = Some c)
          /\ (forall k, Spec.quantitative_input mj k -> lookup k amap = None ->
                        In (k, upper) u)).
Proof.
  revert figs u. induction metrics as [|[name upper] metrics IH]; intros figs u H.
  - cbn in H. apply Ok_inj in H. injection H as <- <-.
    split; [intros k M [] | intros metric fp Hl; discriminate Hl].
  - cbn [MarketSizing.figures] in H.
    apply bind_ok in H as ([fp1 u1] & H1 & H).
    apply bind_ok in H as ([figs' u'] & Hrest & H).
    apply Ok_inj in H. injection H as <- <-. cbn [fst snd].
    destruct (figure_accounts _ _ _ _ _ _ _ _ H1) as (mj & Hmj & Hres & Hun).
    destruct (IH _ _ Hrest) as [IHu IHf].
    split.
    + intros k M Hin. apply in_app_or in Hin as [Hin|Hin].
      * apply Hun in Hin as (-> & [Hq _] & Hn). cbn [map snd In]. tauto.
      * destruct (IHu _ _ Hin) as (Hq & Hn & HM). cbn [map In]. tauto.
    + intros metric fp Hl. cbn [lookup] in *.
      destruct (name =? metric) eqn:E.
      * apply String.eqb_eq in E. subst name. injection Hl as <-.
        exists mj, upper. split; [exact Hmj|]. split; [reflexivity|].
        split; [exact Hres|].
        intros k Hq Hn. apply in_or_app. left. apply Hun. auto.
      * destruct (IHf _ _ Hl) as (mj' & upper' & Hmj' & Hup & Hres' & Hun').
        exists mj', upper'. split; [exact Hmj'|]. split; [exact Hup|].
        split; [exact Hres'|].
        intros k Hq Hn. apply in_or_app. right. auto.
Qed.

Lemma approaches_accounts (rt : PyRuntime) (amap claims : list (string * json))
    (sizing : json) (keys : list string) (prov : MarketSizing.provenance_report)
    (u : list (string * string)) :
  MarketSizing.approaches rt amap claims sizing keys = Ok (prov, u) ->
  (forall k M, In (k, M) u ->
     In k MarketSizing.QUANTITATIVE_PARAMS /\ lookup k amap = None
     /\ In M (map snd MarketSizing.METRICS))
  /\ (forall approach figs metric fp,
        lookup approach prov = Some figs -> lookup metric figs = Some fp ->
        exists approach_data mj upper,
          get sizing approach JNull = Ok approach_data
          /\ get approach_data metric JNull = Ok mj
          /\ lookup metric MarketSizing.METRICS = Some upper
          /\ (forall k c, lookup k (MarketSizing.input_provenances fp) = Some c
                          <-> Spec.quantitative_input mj k /\ lookup k amap = Some c)
          /\ (forall k, Spec.quantitative_input mj k -> lookup k amap = None ->
                        In (k, upper) u)).
Proof.
  revert prov u. induction keys as [|key keys IH]; intros prov u H.
  - cbn in H. apply Ok_inj in H. injection H as <- <-.
    split; [intros k M [] | intros approach figs metric fp Hl; discriminate Hl].
  - cbn [MarketSizing.approaches] in H.
    apply bind_ok in H as (ad & Had & H).
    assert (Hcons : forall figs1 u1 r,
              MarketSizing.figures rt amap claims ad MarketSizing.METRICS = Ok (figs1, u1) ->
              MarketSizing.approaches rt amap claims sizing keys = Ok r ->
              prov = (key, figs1) :: fst r -> u = (u1 ++ snd r)%list ->
              (forall k M, In (k, M) u ->
                 In k MarketSizing.QUANTITATIVE_PARAMS /\ lookup k amap = None
                 /\ In M (map snd MarketSizing.METRICS))
              /\ (forall approach figs metric fp,
                    lookup approach prov = Some figs -> lookup metric figs = Some fp ->
                    exists approach_data mj upper,
                      get sizing approach JNull = Ok approach_data
                      /\ get approach_data metric JNull = Ok mj
                      /\ lookup metric MarketSizing.METRICS = Some upper
                      /\ (forall k c,
                            lookup k (MarketSizing.input_provenances fp) = Some c
                            <-> Spec.quantitative_input mj k /\ lookup k amap = Some c)
                      /\ (forall k, Spec.quantitative_input mj k ->
                                    lookup k amap = None -> In (k, upper) u))).
    { intros figs1 u1 [prov' u'] Hf Hr -> ->. cbn [fst snd].
      destruct (figures_accounts _ _ _ _ _ _ _ Hf) as [Fu Ff].
      destruct (IH _ _ Hr) as [IHu IHf].
      split.
      - intros k M Hin. apply in_app_or in Hin as [Hin|Hin]; eauto.
      - intros approach figs metric fp Hl Hm. cbn [lookup] in Hl.
        destruct (key =? approach) eqn:E.
        + apply String.eqb_eq in E. subst key. injection Hl as <-.
          destruct (Ff _ _ Hm) as (mj & upper & Hmj & Hup & Hres & Hun).
          exists ad, mj, upper. split; [exact Had|]. split; [exact Hmj|].
          split; [exact Hup|]. split; [exact Hres|].
          intros k Hq Hn. apply in_or_app. left. auto.
        + destruct (IHf _ _ _ _ Hl Hm)
            as (ad' & mj & upper & Had' & Hmj & Hup & Hres & Hun).
          exists ad', mj, upper. split; [exact Had'|]. split; [exact Hmj|].
          split; [exact Hup|]. split; [exact Hres|].
          intros k Hq Hn. apply in_or_app. right. auto. }
    destruct ad; try (apply bind_ok in H as ([figs1 u1] & Hf & H);
                      apply bind_ok in H as (r & Hr & H);
                      apply Ok_inj in H; injection H as Hp Hu;
                      eapply Hcons; eauto).
    eapply IH; eauto.
Qed.

(** X11.  Whenever [_compute_provenance] returns, every quantitative
    parameter among the inputs of a reported figure is accounted for
    exactly once: it is in the figure's [input_provenances], with the
    category of the assumption of that name, or, when no assumption has
    that name, in the unresolved list under the figure's upper-case
    metric.  Nothing else is in either place: a key that is not a
    quantitative parameter (an intermediate such as tam or sam) is skipped,
    and every unresolved pair names a quantitative parameter without an
    assumption and one of TAM, SAM, SOM. *)
Theorem quantitative_inputs_accounted
    (rt : PyRuntime) (sizing : json) (validation inputs : artifact)
    (prov : MarketSizing.provenance_report) (u : list (string * string)) :
  MarketSizing._compute_provenance rt sizing validation inputs = Ok (prov, u) ->
  exists assumption_map,
    MarketSizing.build_assumption_map validation = Ok assumption_map
    /\ (forall k M, In (k, M) u ->
          In k MarketSizing.QUANTITATIVE_PARAMS /\ lookup k assumption_map = None
          /\ In M [ "TAM"; "SAM"; "SOM" ])
    /\ (forall approach figs metric fp,
          lookup approach prov = Some figs -> lookup metric figs = Some fp ->
          exists approach_data mj upper,
            get sizing approach JNull = Ok approach_data
            /\ get approach_data metric JNull = Ok mj
            /\ lookup metric MarketSizing.METRICS = Some upper
            /\ (forall k c,
                  lookup k (MarketSizing.input_provenances fp) = Some c
                  <-> Spec.quantitative_input mj k /\ lookup k assumption_map = Some c)
            /\ (forall k, Spec.quantitative_input mj k ->
                          lookup k assumption_map = None -> In (k, upper) u)).
Proof.
  unfold MarketSizing._compute_provenance. intros H.
  apply bind_ok in H as (amap & Ha & H).
  apply bind_ok in H as (claims & Hc & H).
  exists amap. split; [exact Ha|].
  exact (approaches_accounts _ _ _ _ _ _ _ H).
Qed.

Lemma quantitative_inputs_accounted_witness :
  exists prov u figs fp,
    MarketSizing._compute_provenance Examples.plain_rt Examples.sizing_two_inputs
      Examples.validation_arpu_sourced (Val JNull) = Ok (prov, u)
    /\ lookup "top_down" prov = Some figs
    /\ lookup "tam" figs = Some fp
    /\ MarketSizing.input_provenances fp = [("arpu", JStr "sourced")]
    /\ (forall k M, In (k, M) u -> In k MarketSizing.QUANTITATIVE_PARAMS)
    /\ In ("customer_count", "TAM") u.
Proof.
  eexists _, _, _, _.
  split; [reflexivity|]. split; [reflexivity|]. split; [reflexivity|].
  split; [reflexivity|].
  destruct (quantitative_inputs_accounted Examples.plain_rt Examples.sizing_two_inputs
              Examples.validation_arpu_sourced (Val JNull) _ _ eq_refl)
    as (amap & Ha & Hu & Hf).
  split.
  - intros k M Hin. exact (proj1 (Hu k M Hin)).
  - destruct (Hf "top_down" _ "tam" _ eq_refl eq_refl)
      as (ad & mj & upper & Had & Hmj & Hup & Hres & Hun).
    injection Ha as <-. injection Had as <-. injection Hmj as <-. injection Hup as <-.
    apply Hun; [|reflexivity]. split; cbn; tauto.
Defined.


(** ** Counting findings *)

Lemma count_code_app (c : string) (l1 l2 : list warning) :
  Spec.count_code c (l1 ++ l2) = (Spec.count_code c l1 + Spec.count_code c l2)%nat.
Proof. unfold Spec.count_code. now rewrite filter_app, length_app. Qed.

Lemma count_code_none (c : string) (codes : list string) (l : list warning) :
  Forall (fun w => In (code w) codes) l -> str_in c codes = false ->
  Spec.count_code c l = 0%nat.
Proof.
  intros F Hn. unfold Spec.count_code.
  induction F as [|w l Hw _ IH]; [reflexivity|]. cbn [filter].
  destruct (String.eqb_spec (code w) c) as [E|_]; [|exact IH].
  rewrite E in Hw. apply str_in_In in Hw. congruence.
Qed.

Lemma count_code_le (c : string) (l : list warning) :
  (Spec.count_code c l <= List.length l)%nat.
Proof. unfold Spec.count_code. apply filter_length_le. Qed.

Lemma short_nil : Spec.short (Ok []).
Proof. intros ws [= <-]. cbn. lia. Qed.

Lemma short_one (w : warning) : Spec.short (Ok [w]).
Proof. intros ws [= <-]. cbn. lia. Qed.

Lemma short_bind {A} (r : result A) (k : A -> result (list warning)) :
  (forall a, Spec.short (k a)) -> Spec.short (bind r k).
Proof. intros H. destruct r; cbn [bind]; [apply H | intros ws; discriminate]. Qed.

Lemma short_if (b : bool) (r1 r2 : result (list warning)) :
  Spec.short r1 -> Spec.short r2 -> Spec.short (if b then r1 else r2).
Proof. now destruct b. Qed.

Ltac short :=
  repeat
    (lazymatch goal with
     | |- Spec.short (Ok []) => apply short_nil
     | |- Spec.short (Ok [_]) => apply short_one
     | |- Spec.short (bind _ _) => apply short_bind; intros ?
     | |- Spec.short (if _ then _ else _) => apply short_if
     | |- Spec.short (match ?x with _ => _ end) => destruct x
     | |- Spec.short (Raise _) => intros ? ?; discriminate
     | |- Spec.short ?r => let h := head_of r in unfold h
     end).

(** From [r = Ok l]: the codes of [l], by walking down the rule. *)
Ltac codes_of_rule :=
  match goal with
  | Hr : ?r = Ok ?l |- Forall (fun x => In (code x) ?cs) ?l =>
      revert Hr; generalize l; change (Spec.yields (fun x => In (code x) cs) r);
      yields_with ltac:(cbn; tauto)
  end.

Ltac length_of_rule :=
  match goal with
  | Hr : ?r = Ok ?l |- (List.length ?l <= 1)%nat =>
      revert Hr; generalize l; change (Spec.short r); short
  end.

(** Bounds the count of [c] in each list of the sum. *)
Ltac count_each c :=
  repeat
    match goal with
    | |- context [Spec.count_code c ?l] =>
        first
          [ let E := fresh "E" in
            assert (E : Spec.count_code c l = 0%nat)
              by (eapply count_code_none; [eassumption | reflexivity]);
            rewrite E; clear E
          | let n := fresh "n" in
            let L := fresh "L" in
            assert (L : (Spec.count_code c l <= 1)%nat)
              by (eapply Nat.le_trans; [apply count_code_le | eassumption]);
            set (n := Spec.count_code c l) in * ]
    end.

Section DeckRules.
Variable rt : PyRuntime.
Import DeckReview.

Lemma deck_validate_rules (arts : artifacts) (ws : list warning) :
  validate_artifacts rt arts = Ok ws ->
  exists w3 w4 w5 w6 w7 w8,
    ws = (required_rule WARNING_SEVERITY REQUIRED_ARTIFACTS arts
          ++ w3 ++ w4 ++ w5 ++ w6 ++ w7 ++ w8)%list
    /\ (Forall (fun w => In (code w) [ "CHECKLIST_FAILURES_CRITICAL" ]) w3
        /\ Forall (fun w => In (code w) [ "STAGE_MISMATCH" ]) w4
        /\ Forall (fun w => In (code w) [ "STAGE_OUT_OF_SCOPE" ]) w5
        /\ Forall (fun w => In (code w) [ "SLIDE_COUNT_EXTREME" ]) w6
        /\ Forall (fun w => In (code w) [ "UNCITED_CRITIQUE" ]) w7
        /\ Forall (fun w => In (code w) [ "AI_CRITERIA_SKIPPED" ]) w8)
    /\ (List.length w3 <= 1 /\ List.length w4 <= 1 /\ List.length w5 <= 1
        /\ List.length w6 <= 1 /\ List.length w8 <= 1)%nat.
Proof.
  unfold validate_artifacts. intros H.
  apply bind_ok in H as (w3 & H3 & H).
  apply bind_ok in H as (w4 & H4 & H).
  apply bind_ok in H as (w5 & H5 & H).
  apply bind_ok in H as (w6 & H6 & H).
  apply bind_ok in H as (w7 & H7 & H).
  apply bind_ok in H as (w8 & H8 & H).
  apply Ok_inj in H. subst ws.
  exists w3, w4, w5, w6, w7, w8. split; [reflexivity|]. split.
  - repeat split; codes_of_rule.
  - clear H7. repeat split; length_of_rule.
Qed.

End DeckRules.

Section MarketRules.
Variable rt : PyRuntime.
Import MarketSizing.

Lemma optional_rule_emits (arts : artifacts) :
  Forall (fun w => In (code w) [ "CORRUPT_ARTIFACT"; "MISSING_OPTIONAL_ARTIFACT" ])
         (optional_rule arts).
Proof.
  unfold optional_rule. apply Forall_flat_map. intros n.
  destruct (is_CORRUPT _); [repeat constructor; cbn; tauto|].
  destruct (is_None _); repeat constructor; cbn; tauto.
Qed.

Lemma market_validate_rules (arts : artifacts) (ws : list warning) :
  validate_artifacts rt arts = Ok ws ->
  exists w3 w4 w5 w7 w8 w9 w10 w11 w12 w13 w14 w15 w16,
    ws = (required_rule WARNING_SEVERITY REQUIRED_ARTIFACTS arts
          ++ optional_rule arts
          ++ w3 ++ w4 ++ w5 ++ w7 ++ w8 ++ w9 ++ w10 ++ w11 ++ w12 ++ w13 ++ w14
          ++ w15 ++ w16)%list
    /\ over_figures (refuted_claim rt) (art_get arts "validation.json") = Ok w5
    /\ (Forall (fun w => In (code w) [ "UNSOURCED_ASSUMPTIONS" ]) w3
        /\ Forall (fun w => In (code w) [ "UNVALIDATED_CLAIMS" ]) w4
        /\ Forall (fun w => In (code w) [ "REFUTED_MISSING_REASON"; "REFUTED_CLAIMS" ]) w5
        /\ Forall (fun w => In (code w) [ "APPROACH_MISMATCH" ]) w7
        /\ Forall (fun w => In (code w) [ "TAM_DISCREPANCY" ]) w8
        /\ Forall (fun w => In (code w) [ "CHECKLIST_FAILURES" ]) w9
        /\ Forall (fun w => In (code w) [ "CHECKLIST_INCOMPLETE" ]) w10
        /\ Forall (fun w => In (code w) [ "LOW_CHECKLIST_COVERAGE" ]) w11
        /\ Forall (fun w => In (code w) [ "FEW_SENSITIVITY_PARAMS" ]) w12
        /\ Forall (fun w => In (code w) [ "NARROW_AGENT_ESTIMATE_RANGE" ]) w13
        /\ Forall (fun w => In (code w) [ "OVERCLAIMED_VALIDATION" ]) w14
        /\ Forall (fun w => In (code w) [ "DECK_CLAIM_MISMATCH" ]) w15
        /\ Forall (fun w => In (code w) [ "PROVENANCE_UNRESOLVED" ]) w16)
    /\ (List.length w3 <= 1 /\ List.length w7 <= 1 /\ List.length w8 <= 1
        /\ List.length w9 <= 1 /\ List.length w10 <= 1 /\ List.length w11 <= 1
        /\ List.length w12 <= 1 /\ List.length w16 <= 1)%nat.
Proof.
  unfold validate_artifacts. intros H.
  apply bind_ok in H as (w3 & H3 & H).
  apply bind_ok in H as (w4 & H4 & H).
  apply bind_ok in H as (w5 & H5 & H).
  apply bind_ok in H as (w7 & H7 & H).
  apply bind_ok in H as (w8 & H8 & H).
  apply bind_ok in H as (w9 & H9 & H).
  apply bind_ok in H as (w10 & H10 & H).
  apply bind_ok in H as (w11 & H11 & H).
  apply bind_ok in H as (w12 & H12 & H).
  apply bind_ok in H as (w13 & H13 & H).
  apply bind_ok in H as (w14 & H14 & H).
  apply bind_ok in H as (w15 & H15 & H).
  apply bind_ok in H as (w16 & H16 & H).
  apply Ok_inj in H. subst ws.
  exists w3, w4, w5, w7, w8, w9, w10, w11, w12, w13, w14, w15, w16.
  split; [reflexivity|]. split; [exact H5|]. split.
  - repeat split; codes_of_rule.
  - clear H4 H5 H13 H14 H15. repeat split; length_of_rule.
Qed.

End MarketRules.


(** ** Findings that exclude each other *)

Lemma not_emitted (codes : list string) (l : list warning) (w : warning) (c : string) :
  Forall (fun w => In (code w) codes) l -> In w l -> code w = c ->
  str_in c codes = false -> False.
Proof.
  intros F Hin Hc Hn. rewrite Forall_forall in F. apply F in Hin.
  rewrite Hc in Hin. apply str_in_In in Hin. congruence.
Qed.

Lemma required_rule_emits (table : sev_table) (req : list string) (arts : artifacts) :
  Forall (fun w => In (code w) [ "CORRUPT_ARTIFACT"; "MISSING_ARTIFACT" ])
         (required_rule table req arts).
Proof.
  unfold required_rule. apply Forall_flat_map. intros n.
  destruct (is_CORRUPT _); [repeat constructor; cbn; tauto|].
  destruct (is_None _); repeat constructor; cbn; tauto.
Qed.

Section IcRules.
Variable rt : PyRuntime.
Variable now : Z.
Import IcSim.

(** The findings of [validate_artifacts], rule by rule. *)
Lemma ic_validate_rules (arts : artifacts) (ws : list warning) :
  validate_artifacts rt now arts = Ok ws ->
  exists w2 w3 w4 w4b w4c w5 w6 w7 w8 w9 w10 w10b w10c w11 w12 w13,
    ws = (required_rule WARNING_SEVERITY REQUIRED_ARTIFACTS arts
          ++ w2 ++ w3 ++ w4 ++ w4b ++ w4c ++ w5 ++ w6 ++ w7 ++ w8 ++ w9 ++ w10
          ++ w10b ++ w10c ++ w11 ++ w12 ++ w13)%list
    /\ rule_verdict_score rt (art_get arts "score_dimensions.json") = Ok w4
    /\ rule_partner_unanimity (art_get arts "discussion.json") = Ok w5
    /\ rule_zero_applicable (art_get arts "score_dimensions.json") = Ok w6
    /\ rule_degraded arts (art_get arts "discussion.json") = Ok w10
    /\ rule_shallow arts (art_get arts "discussion.json") = Ok w10b
    /\ rule_sequential_fallback (art_get arts "discussion.json") = Ok w13
    /\ rule_schema_drift rt arts = Ok w11
    /\ Forall (fun w => In (code w) [ "BLOCKING_CONFLICT" ]) w2
    /\ Forall (fun w => In (code w) [ "ORPHANED_CONFLICT" ]) w3
    /\ Forall (fun w => In (code w) [ "VERDICT_SCORE_MISMATCH" ]) w4
    /\ Forall (fun w => In (code w) [ "CONSENSUS_SCORE_MISMATCH" ]) w4b
    /\ Forall (fun w => In (code w) [ "UNANIMOUS_VERDICT_MISMATCH" ]) w4c
    /\ Forall (fun w => In (code w) [ "PARTNER_UNANIMITY"; "PARTNER_CONVERGENCE" ]) w5
    /\ Forall (fun w => In (code w) [ "ZERO_APPLICABLE" ]) w6
    /\ Forall (fun w => In (code w) [ "STALE_IMPORT" ]) w7
    /\ Forall (fun w => In (code w) [ "LOW_EVIDENCE" ]) w8
    /\ Forall (fun w => In (code w) [ "FUND_VALIDATION_ERROR" ]) w9
    /\ Forall (fun w => In (code w) [ "DEGRADED_ASSESSMENT" ]) w10
    /\ Forall (fun w => In (code w) [ "SHALLOW_ASSESSMENT" ]) w10b
    /\ Forall (fun w => In (code w) [ "HIGH_NA_COUNT" ]) w10c
    /\ Forall (fun w => In (code w) [ "SCHEMA_DRIFT" ]) w11
    /\ Forall (fun w => In (code w) [ "STAGE_OUT_OF_SCOPE" ]) w12
    /\ Forall (fun w => In (code w) [ "SEQUENTIAL_FALLBACK" ]) w13
    /\ (List.length w2 <= 1 /\ List.length w4 <= 1 /\ List.length w4b <= 1
        /\ List.length w4c <= 1 /\ List.length w6 <= 1 /\ List.length w9 <= 1
        /\ List.length w10c <= 1 /\ List.length w12 <= 1
        /\ List.length w13 <= 1)%nat.
Proof.
  unfold validate_artifacts. intros H.
  apply bind_ok in H as (w2 & H2 & H).
  apply bind_ok in H as (w3 & H3 & H).
  apply bind_ok in H as (w4 & H4 & H).
  apply bind_ok in H as (w4b & H4b & H).
  apply bind_ok in H as (w4c & H4c & H).
  apply bind_ok in H as (w5 & H5 & H).
  apply bind_ok in H as (w6 & H6 & H).
  apply bind_ok in H as (w7 & H7 & H).
  apply bind_ok in H as (w8 & H8 & H).
  apply bind_ok in H as (w9 & H9 & H).
  apply bind_ok in H as (w10 & H10 & H).
  apply bind_ok in H as (w10b & H10b & H).
  apply bind_ok in H as (w10c & H10c & H).
  apply bind_ok in H as (w11 & H11 & H).
  apply bind_ok in H as (w12 & H12 & H).
  apply bind_ok in H as (w13 & H13 & H).
  apply Ok_inj in H. subst ws.
  exists w2, w3, w4, w4b, w4c, w5, w6, w7, w8, w9, w10, w10b, w10c, w11, w12, w13.
  split; [reflexivity|].
  do 7 (split; [assumption|]).
  do 16 (split; [codes_of_rule|]).
  clear H3 H5 H7 H8 H10 H10b H11. repeat split; length_of_rule.
Qed.

Lemma mode_is_one (d : artifact) :
  discussion_mode_is d "sequential" = Ok true ->
  discussion_mode_is d "sub-agent" = Ok true -> False.
Proof.
  unfold discussion_mode_is. destruct (_usable d); [|discriminate].
  destruct (get (val d) "assessment_mode" JNull) as [a|]; [|discriminate].
  cbn [bind]. destruct a; try discriminate. cbn [eq_str].
  intros [= E1] [= E2]. apply String.eqb_eq in E1, E2. congruence.
Qed.

Lemma sequential_fallback_mode (d : artifact) (ws : list warning) (w : warning) :
  rule_sequential_fallback d = Ok ws -> In w ws ->
  discussion_mode_is d "sequential" = Ok true.
Proof.
  unfold rule_sequential_fallback.
  destruct (discussion_mode_is d "sequential") as [[|]|]; cbn [bind]; intros H Hin.
  - reflexivity.
  - apply Ok_inj in H. subst. destruct Hin.
  - discriminate H.
Qed.

Lemma degraded_mode (arts : artifacts) (d : artifact) (ws : list warning) (w : warning) :
  rule_degraded arts d = Ok ws -> In w ws ->
  discussion_mode_is d "sub-agent" = Ok true.
Proof.
  unfold rule_degraded.
  destruct (discussion_mode_is d "sub-agent") as [[|]|]; cbn [bind]; intros H Hin.
  - reflexivity.
  - apply Ok_inj in H. subst. destruct Hin.
  - discriminate H.
Qed.

Lemma shallow_mode (arts : artifacts) (d : artifact) (ws : list warning) (w : warning) :
  rule_shallow arts d = Ok ws -> In w ws ->
  discussion_mode_is d "sub-agent" = Ok true.
Proof.
  unfold rule_shallow.
  destruct (discussion_mode_is d "sub-agent") as [[|]|]; cbn [bind]; intros H Hin.
  - reflexivity.
  - apply Ok_inj in H. subst. destruct Hin.
  - discriminate H.
Qed.

(** Rule 5 reports at most one finding, and the convergence note in
    sub-agent mode only. *)
Lemma partner_unanimity_one (d : artifact) (ws : list warning) :
  rule_partner_unanimity d = Ok ws ->
  (List.length ws <= 1)%nat
  /\ (forall w, In w ws -> code w = "PARTNER_CONVERGENCE" ->
        discussion_mode_is d "sub-agent" = Ok true).
Proof.
  unfold rule_partner_unanimity, discussion_mode_is.
  destruct (_usable d); [|intros [= <-]; split; [cbn; lia | intros w []]].
  destruct (val d) as [| | | | | |kvs];
    try (cbn; discriminate).
  cbn [get bind].
  set (mode_dflt := dget kvs "assessment_mode" (JStr "sequential")).
  assert (Hm : eq_str mode_dflt "sub-agent" = true ->
               eq_str (dget kvs "assessment_mode" JNull) "sub-agent" = true).
  { unfold mode_dflt, dget. destruct (lookup "assessment_mode" kvs); [auto | discriminate]. }
  clearbody mode_dflt.
  destruct (_ =? 3)%nat; [|intros [= <-]; split; [cbn; lia | intros w []]].
  intros H.
  apply bind_ok in H as (vl & _ & H).
  apply bind_ok in H as (ra & _ & H).
  apply bind_ok in H as (di & _ & H).
  destruct (_ =? 1)%nat; [|apply Ok_inj in H; subst; split; [cbn; lia | intros w []]].
  apply bind_ok in H as (no & _ & H).
  destruct (has_identical no).
  - apply Ok_inj in H. subst. split; [cbn; lia|].
    intros w [<-|[]] Hc. discriminate Hc.
  - destruct (eq_str mode_dflt "sub-agent") eqn:E;
      apply Ok_inj in H; subst; (split; [cbn; lia|]).
    + intros w _ _. now rewrite (Hm eq_refl).
    + intros w [].
Qed.

(** The score rule is silent when rule 6 reports. *)
Lemma zero_applicable_suppresses (sd : artifact) (w4 w6 : list warning) :
  rule_verdict_score rt sd = Ok w4 -> rule_zero_applicable sd = Ok w6 ->
  w6 = [] \/ w4 = [].
Proof.
  unfold rule_verdict_score, rule_zero_applicable.
  destruct (_usable sd); [|intros _ [= <-]; now left].
  destruct (get (val sd) "summary" JNull) as [s|]; [|discriminate].
  cbn [bind].
  destruct (str_in_list "ZERO_APPLICABLE_DIMENSIONS" _).
  - intros [= <-] _. now right.
  - intros _ [= <-]. now left.
Qed.

End IcRules.

Ltac elsewhere Hin Hc :=
  repeat (apply in_app_or in Hin as [Hin|Hin]);
  try (exfalso;
       match goal with
       | F : Forall _ ?l, Hi : In _ ?l |- _ =>
           exact (not_emitted _ _ _ _ F Hi Hc eq_refl)
       end).

(** X12.  Findings of the IC simulation that exclude each other.  In the
    findings of one run of [validate_artifacts]: PARTNER_UNANIMITY and
    PARTNER_CONVERGENCE never come together; ZERO_APPLICABLE suppresses
    VERDICT_SCORE_MISMATCH; and SEQUENTIAL_FALLBACK never comes with a
    finding of sub-agent mode (DEGRADED_ASSESSMENT, SHALLOW_ASSESSMENT,
    PARTNER_CONVERGENCE). *)
Theorem exclusive_findings
    (rt : PyRuntime) (now : Z) (arts : artifacts) (ws : list warning) :
  IcSim.validate_artifacts rt now arts = Ok ws ->
  let codes := map code ws in
  ~ (In "PARTNER_UNANIMITY" codes /\ In "PARTNER_CONVERGENCE" codes)
  /\ ~ (In "ZERO_APPLICABLE" codes /\ In "VERDICT_SCORE_MISMATCH" codes)
  /\ (In "SEQUENTIAL_FALLBACK" codes ->
      ~ In "DEGRADED_ASSESSMENT" codes /\ ~ In "SHALLOW_ASSESSMENT" codes
      /\ ~ In "PARTNER_CONVERGENCE" codes).
Proof.
  intros H.
  destruct (ic_validate_rules rt now arts ws H)
    as (w2 & w3 & w4 & w4b & w4c & w5 & w6 & w7 & w8 & w9 & w10 & w10b & w10c
        & w11 & w12 & w13 & Hws & R4 & R5 & R6 & R10 & R10b & R13 & R11
        & F2 & F3 & F4 & F4b & F4c & F5 & F6 & F7 & F8 & F9 & F10 & F10b & F10c
        & F11 & F12 & F13 & _).
  clear H. cbn zeta.
  pose proof (required_rule_emits IcSim.WARNING_SEVERITY IcSim.REQUIRED_ARTIFACTS arts)
    as F1.
  set (w1 := required_rule IcSim.WARNING_SEVERITY IcSim.REQUIRED_ARTIFACTS arts) in *.
  clearbody w1.
  assert (Origin : forall c, In c (map code ws) ->
            exists w, code w = c
              /\ In w (w1
                       ++ w2 ++ w3 ++ w4 ++ w4b ++ w4c ++ w5 ++ w6 ++ w7 ++ w8 ++ w9
                       ++ w10 ++ w10b ++ w10c ++ w11 ++ w12 ++ w13)%list).
  { intros c Hc. apply in_map_iff in Hc as (w & Hc & Hin). exists w. now subst ws. }
  clear Hws.
  destruct (partner_unanimity_one _ _ R5) as [Hone Hconv].
  split; [|split].
  - intros [Hu Hc].
    apply Origin in Hu as (wu & Hcu & Hu). apply Origin in Hc as (wc & Hcc & Hc).
    elsewhere Hu Hcu. elsewhere Hc Hcc.
    destruct w5 as [|x [|y w5]]; [destruct Hu | | cbn in Hone; lia].
    destruct Hu as [<-|[]]. destruct Hc as [<-|[]]. congruence.
  - intros [Hz Hv].
    apply Origin in Hz as (wz & Hcz & Hz). apply Origin in Hv as (wv & Hcv & Hv).
    elsewhere Hz Hcz. elsewhere Hv Hcv.
    destruct (zero_applicable_suppresses rt _ _ _ R4 R6) as [->| ->];
      [destruct Hz | destruct Hv].
  - intros Hs. apply Origin in Hs as (wq & Hcs & Hs). elsewhere Hs Hcs.
    pose proof (sequential_fallback_mode _ _ _ R13 Hs) as Hseq.
    split; [|split]; intros Hx; apply Origin in Hx as (wx & Hcx & Hx);
      elsewhere Hx Hcx; apply (mode_is_one _ Hseq).
    + exact (degraded_mode _ _ _ _ R10 Hx).
    + exact (shallow_mode _ _ _ _ R10b Hx).
    + exact (Hconv _ Hx Hcx).
Qed.

Lemma exclusive_findings_witness :
  exists ws,
    IcSim.validate_artifacts Examples.plain_rt 0 Examples.converged_discussion = Ok ws
    /\ In "PARTNER_CONVERGENCE" (map code ws)
    /\ ~ In "PARTNER_UNANIMITY" (map code ws)
    /\ ~ In "SEQUENTIAL_FALLBACK" (map code ws).
Proof.
  eexists. split; [reflexivity|].
  destruct (exclusive_findings Examples.plain_rt 0 Examples.converged_discussion _ eq_refl)
    as (Hu & _ & Hs).
  assert (Hc : In "PARTNER_CONVERGENCE"
                 (map code
                    (match IcSim.validate_artifacts Examples.plain_rt 0
                             Examples.converged_discussion with
                     | Ok ws => ws
                     | Raise _ => []
                     end))).
  { vm_compute. tauto. }
  split; [exact Hc|]. split.
  - intros Hx. apply Hu. split; [exact Hx | exact Hc].
  - intros Hx. exact (proj2 (proj2 (Hs Hx)) Hc).
Defined.


(** ** Refuted figures *)

Lemma paired_app (l1 l2 : list warning) :
  Spec.refutations_paired l1 = true -> Spec.refutations_paired l2 = true ->
  Spec.refutations_paired (l1 ++ l2) = true.
Proof.
  intros H1 H2. induction l1 as [|w l1 IH]; [exact H2|].
  cbn [app Spec.refutations_paired] in *.
  destruct (code w =? "REFUTED_MISSING_REASON"); [|auto].
  destruct l1 as [|w' l1]; [discriminate H1|].
  apply andb_true_iff in H1 as [Hc Hp]. cbn [app]. rewrite Hc. cbn [andb]. auto.
Qed.

Lemma paired_without (codes : list string) (l : list warning) :
  Forall (fun w => In (code w) codes) l ->
  str_in "REFUTED_MISSING_REASON" codes = false ->
  Spec.refutations_paired l = true.
Proof.
  intros F Hn. induction F as [|w l Hw _ IH]; [reflexivity|].
  cbn [Spec.refutations_paired].
  destruct (String.eqb_spec (code w) "REFUTED_MISSING_REASON") as [E|_]; [|exact IH].
  rewrite E in Hw. apply str_in_In in Hw. congruence.
Qed.

Lemma paired_counts (l : list warning) :
  Spec.refutations_paired l = true ->
  (Spec.count_code "REFUTED_MISSING_REASON" l <= Spec.count_code "REFUTED_CLAIMS" l)%nat.
Proof.
  intros H.
  enough (S : (Spec.count_code "REFUTED_MISSING_REASON" l
               + match l with
                 | w :: _ => if String.eqb (code w) "REFUTED_CLAIMS" then 1 else 0
                 | [] => 0
                 end
               <= Spec.count_code "REFUTED_CLAIMS" l)%nat) by lia.
  unfold Spec.count_code. induction l as [|w rest IH]; [cbn; lia|].
  cbn [Spec.refutations_paired] in H. cbn [filter].
  destruct (String.eqb_spec (code w) "REFUTED_MISSING_REASON") as [E|_].
  - rewrite E. cbn [String.eqb Ascii.eqb Bool.eqb List.length].
    destruct rest as [|w' rest]; [discriminate H|].
    apply andb_true_iff in H as [Hc H]. specialize (IH H). rewrite Hc in IH. lia.
  - specialize (IH H).
    destruct (code w =? "REFUTED_CLAIMS"); cbn [List.length];
      destruct rest as [|w' rest]; try destruct (code w' =? "REFUTED_CLAIMS"); lia.
Qed.

Lemma refuted_claim_paired (rt : PyRuntime) (fig : json) (ws : list warning) :
  MarketSizing.refuted_claim rt fig = Ok ws -> Spec.refutations_paired ws = true.
Proof.
  unfold MarketSizing.refuted_claim. intros H.
  apply bind_ok in H as (st & _ & H).
  destruct (eq_str st "refuted"); [|apply Ok_inj in H; now subst].
  apply bind_ok in H as (d & _ & H).
  apply bind_ok in H as (refutation & _ & H).
  apply Ok_inj in H. subst ws. now destruct (negb (truthy refutation)).
Qed.

Lemma for_each_paired {A} (f : A -> result (list warning)) (l : list A)
    (ws : list warning) :
  (forall x ys, f x = Ok ys -> Spec.refutations_paired ys = true) ->
  for_each f l = Ok ws -> Spec.refutations_paired ws = true.
Proof.
  intros Hf. revert ws. induction l as [|x l IH]; cbn [for_each]; intros ws H.
  - apply Ok_inj in H. now subst.
  - destruct (f x) as [ys|] eqn:Ex; [|discriminate H].
    destruct (for_each f l) as [zs|] eqn:El; [|discriminate H].
    apply Ok_inj in H. subst ws. apply paired_app; eauto.
Qed.

(** X13.  A refuted figure without an explanation is reported twice, in
    this order.  In the findings of the market-sizing [validate_artifacts]
    every REFUTED_MISSING_REASON finding is directly followed by a
    REFUTED_CLAIMS finding; so there are never more of the former than of
    the latter. *)
Theorem missing_reason_followed_by_refuted
    (rt : PyRuntime) (arts : artifacts) (ws : list warning) :
  MarketSizing.validate_artifacts rt arts = Ok ws ->
  Spec.refutations_paired ws = true
  /\ (Spec.count_code "REFUTED_MISSING_REASON" ws
      <= Spec.count_code "REFUTED_CLAIMS" ws)%nat.
Proof.
  intros H.
  destruct (market_validate_rules rt arts ws H)
    as (w3 & w4 & w5 & w7 & w8 & w9 & w10 & w11 & w12 & w13 & w14 & w15 & w16
        & -> & R5
        & (F3 & F4 & F5 & F7 & F8 & F9 & F10 & F11 & F12 & F13 & F14 & F15 & F16)
        & _).
  pose proof (required_rule_emits MarketSizing.WARNING_SEVERITY
                MarketSizing.REQUIRED_ARTIFACTS arts) as F1.
  pose proof (optional_rule_emits arts) as F2.
  set (w1 := required_rule _ _ _) in *. clearbody w1.
  set (w2 := MarketSizing.optional_rule arts) in *. clearbody w2.
  assert (P5 : Spec.refutations_paired w5 = true).
  { unfold MarketSizing.over_figures in R5.
    destruct (_usable _); [|apply Ok_inj in R5; now subst].
    apply bind_ok in R5 as (f & _ & R5). revert R5. apply for_each_paired.
    intros x ys. apply refuted_claim_paired. }
  split.
  - repeat (apply paired_app;
            [first [ exact P5 | eapply paired_without; [eassumption | reflexivity] ]|]).
    eapply paired_without; [eassumption | reflexivity].
  - pose proof (paired_counts w5 P5) as C5.
    rewrite !count_code_app.
    count_each "REFUTED_MISSING_REASON". count_each "REFUTED_CLAIMS". lia.
Qed.

Lemma missing_reason_followed_by_refuted_witness :
  exists ws,
    MarketSizing.validate_artifacts Examples.plain_rt Examples.two_refuted = Ok ws
    /\ Spec.count_code "REFUTED_MISSING_REASON" ws = 1%nat
    /\ Spec.count_code "REFUTED_CLAIMS" ws = 2%nat
    /\ Spec.refutations_paired ws = true.
Proof.
  eexists. split; [reflexivity|]. split; [reflexivity|]. split; [reflexivity|].
  exact (proj1 (missing_reason_followed_by_refuted Examples.plain_rt
                  Examples.two_refuted _ eq_refl)).
Defined.

(** ** Findings reported once *)

Ltac count_each_code :=
  match goal with
  | |- context [Spec.count_code ?c _] => count_each c
  end.

(** X14.  The rules that look at a directory as a whole report at most
    once.  In each of the three scripts the findings of one run of
    [validate_artifacts] hold at most one finding of each code of such a
    rule; only the per-item rules (one finding per artifact, review,
    figure, scenario, import, conflict or dimension) can repeat a code. *)
Theorem singular_findings_once (rt : PyRuntime) (now : Z) (arts : artifacts) :
  (forall ws c, DeckReview.validate_artifacts rt arts = Ok ws ->
     In c Spec.deck_singular_codes -> (Spec.count_code c ws <= 1)%nat)
  /\ (forall ws c, MarketSizing.validate_artifacts rt arts = Ok ws ->
        In c Spec.market_singular_codes -> (Spec.count_code c ws <= 1)%nat)
  /\ (forall ws c, IcSim.validate_artifacts rt now arts = Ok ws ->
        In c Spec.ic_singular_codes -> (Spec.count_code c ws <= 1)%nat).
Proof.
  split; [|split]; intros ws c H Hc.
  - destruct (deck_validate_rules rt arts ws H)
      as (w3 & w4 & w5 & w6 & w7 & w8 & -> & (F3 & F4 & F5 & F6 & F7 & F8)
          & (L3 & L4 & L5 & L6 & L8)).
    pose proof (required_rule_emits DeckReview.WARNING_SEVERITY
                  DeckReview.REQUIRED_ARTIFACTS arts) as F1.
    set (w1 := required_rule _ _ _) in *. clearbody w1.
    rewrite !count_code_app.
    cbn [Spec.deck_singular_codes In] in Hc.
    repeat (destruct Hc as [<-|Hc]; [count_each_code; lia|]). destruct Hc.
  - destruct (market_validate_rules rt arts ws H)
      as (w3 & w4 & w5 & w7 & w8 & w9 & w10 & w11 & w12 & w13 & w14 & w15 & w16
          & -> & _
          & (F3 & F4 & F5 & F7 & F8 & F9 & F10 & F11 & F12 & F13 & F14 & F15 & F16)
          & (L3 & L7 & L8 & L9 & L10 & L11 & L12 & L16)).
    pose proof (required_rule_emits MarketSizing.WARNING_SEVERITY
                  MarketSizing.REQUIRED_ARTIFACTS arts) as F1.
    pose proof (optional_rule_emits arts) as F2.
    set (w1 := required_rule _ _ _) in *. clearbody w1.
    set (w2 := MarketSizing.optional_rule arts) in *. clearbody w2.
    rewrite !count_code_app.
    cbn [Spec.market_singular_codes In] in Hc.
    repeat (destruct Hc as [<-|Hc]; [count_each_code; lia|]). destruct Hc.
  - destruct (ic_validate_rules rt now arts ws H)
      as (w2 & w3 & w4 & w4b & w4c & w5 & w6 & w7 & w8 & w9 & w10 & w10b & w10c
          & w11 & w12 & w13 & -> & R4 & R5 & R6 & R10 & R10b & R13 & R11
          & F2 & F3 & F4 & F4b & F4c & F5 & F6 & F7 & F8 & F9 & F10 & F10b & F10c
          & F11 & F12 & F13
          & (L2 & L4 & L4b & L4c & L6 & L9 & L10c & L12 & L13)).
    destruct (partner_unanimity_one _ _ R5) as [L5 _].
    pose proof (required_rule_emits IcSim.WARNING_SEVERITY
                  IcSim.REQUIRED_ARTIFACTS arts) as F1.
    set (w1 := required_rule _ _ _) in *. clearbody w1.
    rewrite !count_code_app.
    cbn [Spec.ic_singular_codes In] in Hc.
    repeat (destruct Hc as [<-|Hc]; [count_each_code; lia|]). destruct Hc.
Qed.


(** ** The Warnings section *)

Lemma contains_skip (p n h : string) :
  contains n h = true -> contains n (p ++ h) = true.
Proof.
  intros H. induction p as [|c p IH]; [exact H|].
  change (String c p ++ h) with (String c (p ++ h)). cbn [contains].
  rewrite IH. apply orb_true_r.
Qed.

Lemma contains_prefix (n t : string) : contains n (n ++ t) = true.
Proof. apply contains_app. exact (contains_suffix "" n). Qed.

Lemma contains_join (sep x : string) (l : list string) :
  In x l -> contains x (join sep l) = true.
Proof.
  unfold join. induction l as [|y l IH]; [intros []|].
  intros [->|Hin].
  - destruct l; [exact (contains_suffix "" x)|].
    cbn [String.concat]. apply contains_prefix.
  - destruct l as [|z l]; [destruct Hin|].
    cbn [String.concat]. apply contains_skip, contains_skip, IH, Hin.
Qed.

(** X15.  The Warnings section drops no finding.  [_section_warnings]
    returns the empty string exactly when there is no finding; otherwise
    the section begins with the heading and a blank line, ends with a line
    feed, and for every finding holds the line made of its severity icon,
    its label and its message. *)
Theorem warnings_section_lists_every_finding
    (labels : list (string * string)) (rt : PyRuntime) (ws : list warning) :
  (_section_warnings labels rt ws = "" <-> ws = [])
  /\ (ws <> [] ->
      String.prefix ("## Warnings" ++ newline ++ newline)
        (_section_warnings labels rt ws) = true
      /\ exists body, _section_warnings labels rt ws = body ++ newline)
  /\ (forall w, In w ws ->
        contains ("- [" ++ sev_icons (sev w) ++ "] **"
                  ++ _humanize_warning labels rt (code w) ++ ":** " ++ message w)
                 (_section_warnings labels rt ws) = true).
Proof.
  split; [|split].
  - unfold _section_warnings. destruct ws as [|w ws]; cbn [nonempty].
    + tauto.
    + split; [|discriminate]. unfold join. cbn [map String.concat].
      intros H. discriminate H.
  - intros Hne. destruct ws as [|w ws]; [congruence|].
    unfold _section_warnings. cbn [nonempty]. split; [|eauto].
    unfold join. cbn [map String.concat].
    apply prefix_app.
    match goal with
    | |- String.prefix ?p ((?h ++ ?n) ++ ?n ++ ?x) = true =>
        change ((h ++ n) ++ n ++ x) with (p ++ x)
    end.
    apply prefix_app, prefix_refl.
  - intros w Hin. unfold _section_warnings.
    destruct ws as [|w0 ws]; [destruct Hin|]. cbn [nonempty].
    apply contains_app, contains_join. right.
    replace ("- [" ++ sev_icons (sev w) ++ "] **"
             ++ _humanize_warning labels rt (code w) ++ ":** " ++ message w)
      with (warning_line labels rt w).
    + now apply in_map.
    + unfold warning_line. now destruct (sev w).
Qed.

(** ** Labels *)

Lemma labelled_of_lookup (labels : list (string * string)) (w : warning) (l : string) :
  lookup (code w) labels = Some l -> Spec.labelled labels w.
Proof.
  intros H. exists l. split; [exact H|]. intros rt.
  unfold _humanize_warning. now rewrite H.
Qed.

Lemma labelled_of_table (table : sev_table) (labels : list (string * string))
    (w : warning) :
  (forall c, severity_of table c <> None -> lookup c labels <> None) ->
  Spec.from_table table w \/ Spec.acknowledged table w -> Spec.labelled labels w.
Proof.
  intros Hdom H.
  assert (Hs : severity_of table (code w) <> None).
  { destruct H as [H|(_ & H & _)]; unfold Spec.from_table in *; congruence. }
  apply Hdom in Hs. destruct (lookup (code w) labels) as [l|] eqn:E; [|congruence].
  now apply labelled_of_lookup with l.
Qed.

Ltac table_domain :=
  intros c; unfold severity_of; cbn [lookup];
  repeat match goal with
         | |- context [if ?k =? c then _ else _] =>
             destruct (String.eqb_spec k c) as [<-|?]; [cbn; discriminate|]
         end;
  intros H; now destruct H.

Lemma deck_labels_cover (c : string) :
  severity_of DeckReview.WARNING_SEVERITY c <> None ->
  lookup c DeckReview.WARNING_LABELS <> None.
Proof. revert c. unfold DeckReview.WARNING_SEVERITY, DeckReview.WARNING_LABELS. table_domain. Qed.

Lemma market_labels_cover (c : string) :
  severity_of MarketSizing.WARNING_SEVERITY c <> None ->
  lookup c MarketSizing.WARNING_LABELS <> None.
Proof.
  revert c. unfold MarketSizing.WARNING_SEVERITY, MarketSizing.WARNING_LABELS. table_domain.
Qed.

Lemma ic_labels_cover (c : string) :
  severity_of IcSim.WARNING_SEVERITY c <> None ->
  lookup c IcSim.WARNING_LABELS <> None.
Proof. revert c. unfold IcSim.WARNING_SEVERITY, IcSim.WARNING_LABELS. table_domain. Qed.

Lemma section_warnings_labelled (labels : list (string * string)) (rt1 rt2 : PyRuntime)
    (ws : list warning) :
  Forall (Spec.labelled labels) ws ->
  _section_warnings labels rt1 ws = _section_warnings labels rt2 ws.
Proof.
  intros F. unfold _section_warnings. destruct (nonempty ws); [|reflexivity].
  do 3 f_equal. apply map_ext_in. intros w Hin.
  rewrite Forall_forall in F. destruct (F w Hin) as (l & _ & Hl).
  unfold warning_line. now rewrite !Hl.
Qed.

(** X16.  Every finding of a composed report has a label.  In each of the
    three scripts the code of every finding of the validation object is a
    key of the script's [WARNING_LABELS], so [_humanize_warning] never
    falls back on title-casing the code, and the Warnings section rendered
    from these findings does not depend on [str.title]. *)
Theorem composed_findings_have_labels (rt : PyRuntime) (now : Z) :
  (forall render dir r,
     DeckReview.compose rt render dir = Ok r ->
     let ws := warnings (DeckReview.validation_result r) in
     Forall (Spec.labelled DeckReview.WARNING_LABELS) ws
     /\ forall rt', _section_warnings DeckReview.WARNING_LABELS rt' ws
                    = _section_warnings DeckReview.WARNING_LABELS rt ws)
  /\ (forall render dir r,
        MarketSizing.compose rt render dir = Ok r ->
        let ws := warnings (MarketSizing.validation_result r) in
        Forall (Spec.labelled MarketSizing.WARNING_LABELS) ws
        /\ forall rt', _section_warnings MarketSizing.WARNING_LABELS rt' ws
                       = _section_warnings MarketSizing.WARNING_LABELS rt ws)
  /\ (forall render dir r,
        IcSim.compose rt render now dir = Ok r ->
        let ws := warnings (IcSim.validation_result r) in
        Forall (Spec.labelled IcSim.WARNING_LABELS) ws
        /\ forall rt', _section_warnings IcSim.WARNING_LABELS rt' ws
                       = _section_warnings IcSim.WARNING_LABELS rt ws).
Proof.
  assert (Fin : forall table labels ws,
            (forall c, severity_of table c <> None -> lookup c labels <> None) ->
            Forall (fun w => Spec.from_table table w \/ Spec.acknowledged table w) ws ->
            Forall (Spec.labelled labels) ws
            /\ forall rt', _section_warnings labels rt' ws
                           = _section_warnings labels rt ws).
  { intros table labels ws Hdom F.
    assert (L : Forall (Spec.labelled labels) ws).
    { revert F. apply Forall_impl. intros w. now apply labelled_of_table. }
    split; [exact L|]. intros rt'. now apply section_warnings_labelled. }
  split; [|split].
  - intros render dir r H. unfold DeckReview.compose in H.
    apply bind_ok in H as (ws & Hv & H).
    apply bind_ok in H as (ws' & Hr & H).
    apply bind_ok in H as (md & _ & H). apply Ok_inj in H. subst r.
    cbn [DeckReview.validation_result warnings].
    apply (Fin DeckReview.WARNING_SEVERITY); [exact deck_labels_cover|].
    eapply resolved_from_table_or_acknowledged; [|exact Hr].
    eapply deck_validate_from_table; exact Hv.
  - intros render dir r H. unfold MarketSizing.compose in H.
    apply bind_ok in H as (ws & Hv & H).
    apply bind_ok in H as (ws' & Hr & H).
    apply bind_ok in H as (prov & _ & H).
    apply bind_ok in H as (md & _ & H). apply Ok_inj in H. subst r.
    cbn [MarketSizing.validation_result warnings].
    apply (Fin MarketSizing.WARNING_SEVERITY); [exact market_labels_cover|].
    eapply resolved_from_table_or_acknowledged; [|exact Hr].
    eapply market_validate_from_table; exact Hv.
  - intros render dir r H. unfold IcSim.compose in H.
    apply bind_ok in H as (ws & Hv & H).
    apply bind_ok in H as (ws' & Hr & H).
    apply bind_ok in H as (md & _ & H). apply Ok_inj in H. subst r.
    cbn [IcSim.validation_result warnings].
    apply (Fin IcSim.WARNING_SEVERITY); [exact ic_labels_cover|].
    eapply resolved_from_table_or_acknowledged; [|exact Hr].
    eapply ic_validate_from_table; exact Hv.
Qed.

(** ** Table cells *)

Lemma md_safe_cell_text (escaped : bool) (text : string) :
  Spec.cell_text escaped
    (replace_char "010" " " (MarketSizing.replace_char_by "|" "\|" text)) = true.
Proof.
  revert escaped. induction text as [|c text IH]; intros escaped; [reflexivity|].
  cbn [MarketSizing.replace_char_by].
  destruct (Ascii.eqb c "|") eqn:Ebar.
  - cbn [append replace_char Spec.cell_text Ascii.eqb Bool.eqb negb andb orb].
    apply IH.
  - cbn [append replace_char Spec.cell_text].
    destruct (Ascii.eqb c "010") eqn:Enl.
    + cbn [Ascii.eqb Bool.eqb negb andb orb]. apply IH.
    + rewrite Enl, Ebar. cbn [negb andb orb]. apply IH.
Qed.

(** X17.  [_md_safe] makes a text fit for a table cell as far as line
    feeds and vertical bars go: for every text the result holds no line
    feed, and every vertical bar in it stands directly after a backslash.
    A text with neither a line feed nor a vertical bar is returned
    unchanged. *)
Theorem md_safe_escapes_bars_and_line_feeds (text : string) :
  Spec.cell_text false (MarketSizing._md_safe text) = true
  /\ (Spec.plain_text text = true -> MarketSizing._md_safe text = text).
Proof.
  split; [apply md_safe_cell_text|].
  unfold MarketSizing._md_safe. induction text as [|c text IH]; [reflexivity|].
  cbn [Spec.plain_text MarketSizing.replace_char_by]. intros H.
  apply andb_true_iff in H as [H Hp]. apply andb_true_iff in H as [Hn Hb].
  apply negb_true_iff in Hn, Hb. rewrite Hb.
  cbn [append replace_char]. rewrite Hn. f_equal. now apply IH.
Qed.

Lemma md_safe_escapes_bars_and_line_feeds_witness :
  MarketSizing._md_safe "seed" = "seed"
  /\ MarketSizing._md_safe Examples.classification_with_bar = "agent\|estimate x".
Proof.
  split; [|reflexivity].
  apply (md_safe_escapes_bars_and_line_feeds "seed"). reflexivity.
Defined.


(** ** Strict runs over incomplete directories *)

Lemma presence_finding_blocks (guarded : bool) (table : sev_table)
    (req all : list string) (dir : directory) (owner : artifact)
    (rest ws' : list warning) (n : string) :
  In n req -> incl req all -> Spec.absent_or_unparseable (dir n) ->
  severity_of table "MISSING_ARTIFACT" = Some High ->
  severity_of table "CORRUPT_ARTIFACT" = Some High ->
  resolve guarded table owner
    (required_rule table req (load_all dir all) ++ rest)%list = Ok ws' ->
  nonempty (filter blocking ws') = true.
Proof.
  intros Hn Hincl Hf Hm Hc H.
  assert (Hw : exists w, In w (required_rule table req (load_all dir all))
                         /\ sev w = High /\ acceptable table (code w) = false).
  { pose proof (art_get_load_all dir all n (Hincl n Hn)) as Hg.
    destruct Hf as [Hf|Hf]; rewrite Hf in Hg; cbn [_load_artifact] in Hg.
    - eexists. split; [apply required_rule_missing; [exact Hn | now rewrite Hg]|].
      unfold _warn, acceptable, severity_of in *. cbn [sev code]. now rewrite Hm.
    - eexists. split; [apply required_rule_corrupt; [exact Hn | now rewrite Hg]|].
      unfold _warn, acceptable, severity_of in *. cbn [sev code]. now rewrite Hc. }
  destruct Hw as (w & Hin & Hs & Ha).
  apply resolve_relates in H.
  destruct (Forall2_In_l _ _ _ w H (in_or_app _ _ _ (or_introl Hin)))
    as (w' & Hin' & _ & Hsame).
  apply nonempty_filter_iff. exists w'. split; [exact Hin'|].
  rewrite (Hsame Ha). unfold blocking. now rewrite Hs.
Qed.

Lemma strict_run_blocked (fs : filesystem) (R : Type) (compose : string -> result R)
    (warnings_of : R -> list warning) (dumps : bool -> R -> string) (a : args) :
  arg_strict a = true ->
  (forall r, compose (arg_dir a) = Ok r ->
     nonempty (filter blocking (warnings_of r)) = true) ->
  exit_status (main fs R compose warnings_of dumps a) = 1%Z.
Proof.
  intros Hs Hb.
  destruct (main_cases fs R compose warnings_of dumps a)
    as [(text & ->)|(r & ev & _ & Hc & _ & [(_ & _ & ->)|([Hl|Hn] & _)])];
    try reflexivity.
  - congruence.
  - rewrite (Hb r Hc) in Hn. discriminate Hn.
Qed.

(** X18.  No acceptance rescues an incomplete directory.  In each of the
    three scripts a run with [--strict] over a directory in which a
    required artifact is absent or does not parse exits with status 1,
    whatever the other artifacts hold, [accepted_warnings] included, and
    whatever happens on the way (missing directory, exception, unwritable
    output, or the strict check itself). *)
Theorem strict_run_fails_without_required_artifact
    (rt : PyRuntime) (now : Z) (fs : filesystem) (tree : string -> directory)
    (a : args) (n : string) :
  arg_strict a = true ->
  Spec.absent_or_unparseable (tree (arg_dir a) n) ->
  (In n DeckReview.REQUIRED_ARTIFACTS ->
   forall render dumps,
     exit_status (main fs DeckReview.report
                    (fun d => DeckReview.compose rt render (tree d))
                    (fun r => warnings (DeckReview.validation_result r))
                    dumps a) = 1%Z)
  /\ (In n MarketSizing.REQUIRED_ARTIFACTS ->
      forall render dumps,
        exit_status (main fs MarketSizing.report
                       (fun d => MarketSizing.compose rt render (tree d))
                       (fun r => warnings (MarketSizing.validation_result r))
                       dumps a) = 1%Z)
  /\ (In n IcSim.REQUIRED_ARTIFACTS ->
      forall render dumps,
        exit_status (main fs IcSim.report
                       (fun d => IcSim.compose rt render now (tree d))
                       (fun r => warnings (IcSim.validation_result r))
                       dumps a) = 1%Z).
Proof.
  intros Hs Hf. split; [|split]; intros Hn render dumps;
    apply strict_run_blocked; try exact Hs; intros r H.
  - unfold DeckReview.compose in H.
    apply bind_ok in H as (ws & Hv & H).
    apply bind_ok in H as (ws' & Hr & H).
    apply bind_ok in H as (md & _ & H). apply Ok_inj in H. subst r.
    cbn [DeckReview.validation_result warnings].
    destruct (deck_validate_shape _ _ _ Hv) as (rest & -> & _).
    eapply presence_finding_blocks; [exact Hn| |exact Hf| | |exact Hr];
      [apply incl_appl, incl_refl | reflexivity | reflexivity].
  - unfold MarketSizing.compose in H.
    apply bind_ok in H as (ws & Hv & H).
    apply bind_ok in H as (ws' & Hr & H).
    apply bind_ok in H as (prov & _ & H).
    apply bind_ok in H as (md & _ & H). apply Ok_inj in H. subst r.
    cbn [MarketSizing.validation_result warnings].
    destruct (market_validate_shape _ _ _ Hv) as (rest & -> & _).
    eapply presence_finding_blocks; [exact Hn| |exact Hf| | |exact Hr];
      [apply incl_appl, incl_refl | reflexivity | reflexivity].
  - unfold IcSim.compose in H.
    apply bind_ok in H as (ws & Hv & H).
    apply bind_ok in H as (ws' & Hr & H).
    apply bind_ok in H as (md & _ & H). apply Ok_inj in H. subst r.
    cbn [IcSim.validation_result warnings].
    destruct (ic_validate_shape _ _ _ _ Hv) as (pre & w5 & post & -> & _).
    eapply presence_finding_blocks; [exact Hn| |exact Hf| | |exact Hr];
      [apply incl_appl, incl_refl | reflexivity | reflexivity].
Qed.

Lemma strict_run_fails_without_required_artifact_witness :
  exit_status (main Examples.demo_fs DeckReview.report
                 (fun d => DeckReview.compose Examples.plain_rt Examples.demo_render
                             Examples.accept_everything_dir)
                 (fun r => warnings (DeckReview.validation_result r))
                 Examples.demo_dumps Examples.demo_args) = 1%Z.
Proof.
  refine (proj1 (strict_run_fails_without_required_artifact Examples.plain_rt 0
                   Examples.demo_fs (fun _ => Examples.accept_everything_dir)
                   Examples.demo_args "checklist.json" eq_refl _) _ _ _).
  - left. reflexivity.
  - cbn. tauto.
Defined.


(** ** Provenance after validation *)

Section ProvenanceAfterValidation.
Variable rt : PyRuntime.
Import MarketSizing.

Lemma market_validate_claim_rules (arts : artifacts) (ws : list warning) :
  validate_artifacts rt arts = Ok ws ->
  exists w15 w16,
    rule_deck_claim rt (art_get arts "sizing.json") (art_get arts "inputs.json") = Ok w15
    /\ rule_provenance_unresolved rt (art_get arts "sizing.json")
         (art_get arts "validation.json") (art_get arts "inputs.json") = Ok w16.
Proof.
  unfold validate_artifacts. intros H.
  do 11 (let w := fresh "w" in apply bind_ok in H as (w & _ & H)).
  apply bind_ok in H as (w15 & H15 & H).
  apply bind_ok in H as (w16 & H16 & H).
  eauto.
Qed.

Lemma existing_claims_render_safe (inputs : artifact) :
  build_existing_claims (_render_safe inputs) = build_existing_claims inputs.
Proof. destruct inputs; reflexivity. Qed.

Lemma assumption_map_unusable (validation : artifact) :
  _usable validation = false ->
  build_assumption_map (_render_safe validation) = Ok [].
Proof.
  unfold build_assumption_map, _usable. destruct validation as [|j]; [reflexivity|].
  cbn [_render_safe is_CORRUPT negb andb].
  destruct (is_None (Val j)); [reflexivity|]. cbn [negb andb].
  now intros ->.
Qed.

Lemma resolved_inputs_nil (params : list string) : resolved_inputs [] params = [].
Proof. unfold resolved_inputs. induction params; [reflexivity | exact IHparams]. Qed.

(** A figure the claim rule got through has a provenance entry when no
    assumption is known. *)
Lemma figure_after_claim_rule (claims : list (string * json)) (approach_data : json)
    (metric : string * string) (ws : list warning) :
  deck_claim_mismatch rt claims approach_data metric = Ok ws ->
  exists fu, figure rt [] claims approach_data metric = Ok fu.
Proof.
  destruct metric as [name upper]. unfold deck_claim_mismatch, figure. intros H.
  apply bind_ok in H as (mj & -> & H). cbn [bind].
  apply bind_ok in H as (v & Hv & H).
  apply bind_ok in H as (d & Hd & _).
  rewrite resolved_inputs_nil. cbn [classify bind].
  destruct (dget claims name JNull); cbn zeta in *; rewrite ?Hv; cbn [bind];
    rewrite ?Hd; cbn [bind]; eauto.
Qed.

Lemma figures_after_claim_rule (claims : list (string * json)) (approach_data : json)
    (metrics : list (string * string)) (ws : list warning) :
  for_each (deck_claim_mismatch rt claims approach_data) metrics = Ok ws ->
  exists r, figures rt [] claims approach_data metrics = Ok r.
Proof.
  revert ws. induction metrics as [|m metrics IH]; cbn [for_each figures]; intros ws H.
  - eauto.
  - destruct (deck_claim_mismatch rt claims approach_data m) as [w|] eqn:Em;
      [|discriminate H].
    destruct (for_each _ metrics) as [ws0|] eqn:Er; [|discriminate H].
    destruct (figure_after_claim_rule _ _ _ _ Em) as (fu & ->).
    destruct (IH _ eq_refl) as (r & ->). cbn [bind]. eauto.
Qed.

Lemma approaches_after_claim_rule (claims : list (string * json)) (sizing : json)
    (keys : list string) (ws : list warning) :
  for_each (deck_claim_approach rt claims sizing) keys = Ok ws ->
  exists r, approaches rt [] claims sizing keys = Ok r.
Proof.
  revert ws. induction keys as [|k keys IH]; cbn [for_each approaches]; intros ws H.
  - eauto.
  - destruct (deck_claim_approach rt claims sizing k) as [w|] eqn:Ek; [|discriminate H].
    destruct (for_each _ keys) as [ws0|] eqn:Er; [|discriminate H].
    destruct (IH _ eq_refl) as (r & Hr).
    unfold deck_claim_approach in Ek.
    apply bind_ok in Ek as (ad & -> & Ek). cbn [bind].
    destruct ad; try exact (ex_intro _ r Hr);
      destruct (figures_after_claim_rule _ _ _ _ Ek) as (fu & ->);
      rewrite Hr; cbn [bind]; eauto.
Qed.

(** The provenance step of [compose] returns once [validate_artifacts]
    has, provided the validation artifact or the inputs artifact is
    usable. *)
Lemma provenance_after_validation (arts : artifacts) (ws : list warning) :
  validate_artifacts rt arts = Ok ws ->
  _usable (art_get arts "sizing.json") = true ->
  _usable (art_get arts "validation.json") = true
  \/ _usable (art_get arts "inputs.json") = true ->
  exists pu,
    _compute_provenance rt (val (art_get arts "sizing.json"))
      (_render_safe (art_get arts "validation.json"))
      (_render_safe (art_get arts "inputs.json")) = Ok pu.
Proof.
  intros H Hs Hvi.
  destruct (market_validate_claim_rules arts ws H) as (w15 & w16 & R15 & R16).
  destruct (_usable (art_get arts "validation.json")) eqn:Hv.
  - unfold rule_provenance_unresolved in R16. rewrite Hs, Hv in R16. cbn [andb] in R16.
    apply bind_ok in R16 as (pu & Hpu & _). exists pu.
    unfold _compute_provenance in *. rewrite existing_claims_render_safe.
    destruct (art_get arts "validation.json"); [discriminate Hv | exact Hpu].
  - destruct Hvi as [Hvi|Hi]; [discriminate Hvi|].
    unfold rule_deck_claim in R15. rewrite Hs, Hi in R15. cbn [andb] in R15.
    apply bind_ok in R15 as (c & Hc & R15).
    unfold _compute_provenance. rewrite (assumption_map_unusable _ Hv). cbn [bind].
    rewrite existing_claims_render_safe. unfold build_existing_claims.
    assert (Hn : negb (is_None (art_get arts "inputs.json"))
                 && negb (_is_stub (art_get arts "inputs.json")) = true).
    { unfold _usable in Hi. destruct (is_None _); [discriminate Hi|].
      destruct (is_CORRUPT _); [discriminate Hi|]. exact Hi. }
    rewrite Hn, Hc. cbn [bind].
    eapply approaches_after_claim_rule; exact R15.
Qed.

End ProvenanceAfterValidation.

(** X19.  After validation the provenance step does not fail.  In the
    market-sizing [compose], once [validate_artifacts] and the acceptance
    block have returned and the validation artifact or the inputs artifact
    is usable, [_compute_provenance] returns too: [compose] returns
    whenever the section renderers do.  The condition is needed: with
    neither artifact usable [validate_artifacts] can return and [compose]
    still raise, as for a sizing artifact whose approach is a string. *)
Theorem compose_returns_after_validation
    (rt : PyRuntime)
    (render : artifacts -> list warning -> option MarketSizing.provenance_report
              -> result string)
    (dir : directory) :
  let arts := load_all dir (MarketSizing.REQUIRED_ARTIFACTS
                            ++ MarketSizing.OPTIONAL_ARTIFACTS)%list in
  (forall ws ws',
     MarketSizing.validate_artifacts rt arts = Ok ws ->
     resolve false MarketSizing.WARNING_SEVERITY (art_get arts "methodology.json") ws
       = Ok ws' ->
     _usable (art_get arts "validation.json") = true
     \/ _usable (art_get arts "inputs.json") = true ->
     (forall p, exists md, render arts ws' p = Ok md) ->
     exists r, MarketSizing.compose rt render dir = Ok r
               /\ warnings (MarketSizing.validation_result r) = ws')
  /\ (exists ws,
        MarketSizing.validate_artifacts rt
          (load_all Examples.approach_is_a_string
             (MarketSizing.REQUIRED_ARTIFACTS ++ MarketSizing.OPTIONAL_ARTIFACTS)%list)
        = Ok ws
        /\ MarketSizing.compose rt Examples.unit_render Examples.approach_is_a_string
           = Raise AttributeError).
Proof.
  cbn zeta. split.
  - intros ws ws' Hv Hr Hvi Hrender.
    unfold MarketSizing.compose. rewrite Hv. cbn [bind]. rewrite Hr. cbn [bind].
    set (arts := load_all dir _) in *.
    destruct (_usable (_render_safe (art_get arts "sizing.json"))
              && negb (_is_stub (_render_safe (art_get arts "sizing.json")))) eqn:Hs.
    + apply andb_true_iff in Hs as [Hs _].
      assert (Hs' : _usable (art_get arts "sizing.json") = true
                    /\ _render_safe (art_get arts "sizing.json")
                       = art_get arts "sizing.json").
      { destruct (art_get arts "sizing.json"); [discriminate Hs | auto]. }
      destruct Hs' as [Hu ->].
      destruct (provenance_after_validation rt arts ws Hv Hu Hvi) as (pu & ->).
      cbn [bind]. destruct (Hrender (Some (fst pu))) as (md & ->). cbn [bind].
      eexists. split; reflexivity.
    + cbn [bind]. destruct (Hrender None) as (md & Hmd).
      match goal with
      | |- context [bind ?x _] => replace x with (Ok md) by (symmetry; exact Hmd)
      end.
      cbn [bind].
      eexists. split; reflexivity.
  - eexists. split; reflexivity.
Qed.


(** ** Schema drift *)

Lemma filter_out_nil (ks allowed : list string) :
  nonempty (filter (fun k => negb (str_in k allowed)) ks) = false <-> incl ks allowed.
Proof.
  induction ks as [|k ks IH]; cbn [filter].
  - split; [intros _ x [] | reflexivity].
  - destruct (str_in k allowed) eqn:E; cbn [negb].
    + apply str_in_iff in E. rewrite IH. split.
      * intros H x [<-|Hx]; auto.
      * intros H x Hx. apply H. now right.
    + apply str_in_false in E. split; [discriminate|].
      intros H. destruct E. apply H. now left.
Qed.

Lemma for_each_nil {A B} (f : A -> result (list B)) (l : list A) (ys : list B) :
  for_each f l = Ok ys ->
  (ys = [] <-> forall x, In x l -> f x = Ok []).
Proof.
  revert ys. induction l as [|x l IH]; cbn [for_each]; intros ys H.
  - apply Ok_inj in H. subst. split; [intros _ x [] | reflexivity].
  - destruct (f x) as [y|] eqn:Efx; [|discriminate H].
    destruct (for_each f l) as [zs|] eqn:El; [|discriminate H].
    apply Ok_inj in H. subst ys. specialize (IH zs eq_refl). split.
    + intros E. apply app_eq_nil in E as [-> ->].
      intros x' [<-|Hx]; [exact Efx | now apply IH].
    + intros Hall. rewrite (Hall x (or_introl eq_refl)) in Efx. apply Ok_inj in Efx.
      subst y. cbn [app]. apply IH. intros x' Hx. apply Hall. now right.
Qed.

Lemma count_code_all (c : string) (l : list warning) :
  Forall (fun w => In (code w) [c]) l -> Spec.count_code c l = List.length l.
Proof.
  unfold Spec.count_code. induction 1 as [|w l Hw _ IH]; [reflexivity|].
  cbn [filter]. destruct Hw as [Hw|[]]. rewrite <- Hw, String.eqb_refl.
  cbn [List.length]. f_equal. exact IH.
Qed.

Lemma schema_drift_silent (rt : PyRuntime) (arts : artifacts) (name : string)
    (expected : list string) (ws : list warning) :
  IcSim.schema_drift rt arts (name, expected) = Ok ws ->
  (ws = [] <->
   (_usable (art_get arts name) = true ->
    Spec.keys_within name expected (val (art_get arts name)))).
Proof.
  unfold IcSim.schema_drift, Spec.keys_within, Spec.required_keys_of.
  destruct (_usable (art_get arts name)).
  - intros H. apply bind_ok in H as (ks & Hk & H).
    unfold IcSim.keys_of in Hk. destruct (val (art_get arts name)); try discriminate Hk.
    apply Ok_inj in Hk. subst ks. cbn [_as_dict]. apply Ok_inj in H. subst ws.
    rewrite <- !filter_out_nil.
    destruct (nonempty (filter _ (map fst kvs)));
      destruct (nonempty (filter _ _)); cbn [app]; split;
      try discriminate; try tauto; intros H; destruct (H eq_refl); discriminate.
  - intros H. apply Ok_inj in H. subst ws. split; [discriminate | reflexivity].
Qed.

(** X20.  When a run reports no schema drift.  Whenever the IC
    simulation's [validate_artifacts] returns, its findings hold no
    SCHEMA_DRIFT exactly when the top-level keys of every usable artifact
    listed in [EXPECTED_KEYS] lie between the artifact's required keys and
    its expected keys.  The two tables agree with each other: every
    required key is an expected key of the same artifact, and every
    artifact with required keys is listed in [EXPECTED_KEYS], so an
    artifact holding exactly its required keys is never reported. *)
Theorem schema_drift_free
    (rt : PyRuntime) (now : Z) (arts : artifacts) (ws : list warning) :
  IcSim.validate_artifacts rt now arts = Ok ws ->
  (Spec.count_code "SCHEMA_DRIFT" ws = 0%nat <->
   forall name expected,
     In (name, expected) IcSim.EXPECTED_KEYS ->
     _usable (art_get arts name) = true ->
     Spec.keys_within name expected (val (art_get arts name)))
  /\ (forall name expected,
        In (name, expected) IcSim.EXPECTED_KEYS ->
        incl (Spec.required_keys_of name) expected)
  /\ (forall name required,
        In (name, required) IcSim.REQUIRED_KEYS ->
        exists expected, In (name, expected) IcSim.EXPECTED_KEYS).
Proof.
  intros H. split; [|split].
  - destruct (ic_validate_rules rt now arts ws H)
      as (w2 & w3 & w4 & w4b & w4c & w5 & w6 & w7 & w8 & w9 & w10 & w10b & w10c
          & w11 & w12 & w13 & -> & R4 & R5 & R6 & R10 & R10b & R13 & R11
          & F2 & F3 & F4 & F4b & F4c & F5 & F6 & F7 & F8 & F9 & F10 & F10b & F10c
          & F11 & F12 & F13 & _).
    pose proof (required_rule_emits IcSim.WARNING_SEVERITY
                  IcSim.REQUIRED_ARTIFACTS arts) as F1.
    set (w1 := required_rule _ _ _) in *. clearbody w1.
    pose proof (count_code_all "SCHEMA_DRIFT" w11 F11) as C11.
    rewrite !count_code_app.
    repeat match goal with
           | F : Forall _ ?l |- context [Spec.count_code "SCHEMA_DRIFT" ?l] =>
               rewrite (count_code_none "SCHEMA_DRIFT" _ l F eq_refl)
           end.
    rewrite C11, Nat.add_0_r. cbn [Nat.add].
    unfold IcSim.rule_schema_drift in R11.
    rewrite length_zero_iff_nil, (for_each_nil _ _ _ R11). split.
    + intros Hall name expected Hin Hu.
      exact (proj1 (schema_drift_silent rt arts name expected [] (Hall _ Hin)) eq_refl Hu).
    + intros Hall [name expected] Hin.
      destruct (IcSim.schema_drift rt arts (name, expected)) as [l|e] eqn:E.
      * f_equal. apply (schema_drift_silent rt arts name expected l E).
        now apply Hall.
      * exfalso. clear - R11 Hin E.
        revert w11 R11. induction IcSim.EXPECTED_KEYS as [|x l IH]; [destruct Hin|].
        cbn [for_each]. intros w11 R11. destruct Hin as [->|Hin].
        { rewrite E in R11. discriminate R11. }
        destruct (IcSim.schema_drift rt arts x); [|discriminate R11].
        destruct (for_each _ l) eqn:El; [|discriminate R11]. eapply IH; eauto.
  - intros name expected Hin. cbn in Hin.
    repeat (destruct Hin as [[= <- <-]|Hin];
            [vm_compute; intros k Hk; tauto|]).
    destruct Hin.
  - intros name required Hin. cbn in Hin.
    repeat (destruct Hin as [[= <- <-]|Hin];
            [eexists; cbn; eauto 10|]).
    destruct Hin.
Qed.

Lemma schema_drift_free_witness :
  exists ws,
    IcSim.validate_artifacts Examples.plain_rt 0 Examples.drifting_conflict_check = Ok ws
    /\ Spec.count_code "SCHEMA_DRIFT" ws = 2%nat
    /\ ~ Spec.keys_within "conflict_check.json"
           [ "portfolio_size"; "conflicts"; "summary"; "validation" ]
           (val (art_get Examples.drifting_conflict_check "conflict_check.json")).
Proof.
  eexists. split; [reflexivity|]. split; [reflexivity|].
  intros Hk.
  pose proof (proj2 (proj1 (schema_drift_free Examples.plain_rt 0
                              Examples.drifting_conflict_check _ eq_refl))) as Hz.
  enough (E : 2%nat = 0%nat) by discriminate E.
  apply Hz. intros name expected Hin Hu. cbn in Hin.
  repeat (destruct Hin as [[= <- <-]|Hin]; [try discriminate Hu|]);
    try destruct Hin.
  - exact Hk.
  - split; vm_compute; intros k Hx; tauto.
Defined.


(** ** The status of a report *)

Lemma status_reflects_resolved (guarded : bool) (table : sev_table) (owner : artifact)
    (ws ws' : list warning) (found missing : list string) :
  resolve guarded table owner ws = Ok ws' ->
  Spec.status_reflects ws
    {| status := status_of ws'; warnings := ws';
       artifacts_found := found; artifacts_missing := missing |}.
Proof.
  intros H. apply resolve_changes in H. apply Forall2_length in H.
  unfold Spec.status_reflects, status_of. cbn [status warnings].
  split; [now symmetry|].
  destruct ws as [|w ws]; destruct ws' as [|w' ws']; try discriminate H; cbn [nonempty];
    (split; split; intros E; try discriminate E; try reflexivity; now destruct E).
Qed.

(** X21.  Acceptance never turns a report clean.  In each of the three
    scripts the validation object of a composed report holds as many
    findings as [validate_artifacts] returned, and its status is "clean"
    exactly when [validate_artifacts] returned none and "warnings"
    otherwise: a report whose findings are all acknowledged still has the
    status "warnings". *)
Theorem status_reflects_raw_findings (rt : PyRuntime) (now : Z) :
  (forall render dir r,
     DeckReview.compose rt render dir = Ok r ->
     exists raw,
       DeckReview.validate_artifacts rt
         (load_all dir (DeckReview.REQUIRED_ARTIFACTS ++ DeckReview.OPTIONAL_ARTIFACTS))
       = Ok raw
       /\ Spec.status_reflects raw (DeckReview.validation_result r))
  /\ (forall render dir r,
        MarketSizing.compose rt render dir = Ok r ->
        exists raw,
          MarketSizing.validate_artifacts rt
            (load_all dir (MarketSizing.REQUIRED_ARTIFACTS
                           ++ MarketSizing.OPTIONAL_ARTIFACTS))
          = Ok raw
          /\ Spec.status_reflects raw (MarketSizing.validation_result r))
  /\ (forall render dir r,
        IcSim.compose rt render now dir = Ok r ->
        exists raw,
          IcSim.validate_artifacts rt now
            (load_all dir (IcSim.REQUIRED_ARTIFACTS ++ IcSim.OPTIONAL_ARTIFACTS))
          = Ok raw
          /\ Spec.status_reflects raw (IcSim.validation_result r)).
Proof.
  split; [|split].
  - intros render dir r H. unfold DeckReview.compose in H.
    apply bind_ok in H as (ws & Hv & H).
    apply bind_ok in H as (ws' & Hr & H).
    apply bind_ok in H as (md & _ & H). apply Ok_inj in H. subst r.
    exists ws. split; [exact Hv|]. cbn [DeckReview.validation_result].
    eapply status_reflects_resolved; exact Hr.
  - intros render dir r H. unfold MarketSizing.compose in H.
    apply bind_ok in H as (ws & Hv & H).
    apply bind_ok in H as (ws' & Hr & H).
    apply bind_ok in H as (prov & _ & H).
    apply bind_ok in H as (md & _ & H). apply Ok_inj in H. subst r.
    exists ws. split; [exact Hv|]. cbn [MarketSizing.validation_result].
    eapply status_reflects_resolved; exact Hr.
  - intros render dir r H. unfold IcSim.compose in H.
    apply bind_ok in H as (ws & Hv & H).
    apply bind_ok in H as (ws' & Hr & H).
    apply bind_ok in H as (md & _ & H). apply Ok_inj in H. subst r.
    exists ws. split; [exact Hv|]. cbn [IcSim.validation_result].
    eapply status_reflects_resolved; exact Hr.
Qed.

Lemma status_reflects_raw_findings_witness :
  exists r,
    DeckReview.compose Examples.plain_rt Examples.demo_render Examples.accepted_mismatch_dir
    = Ok r
    /\ Forall (fun w => sev w = Acknowledged) (warnings (DeckReview.validation_result r))
    /\ status (DeckReview.validation_result r) = "warnings".
Proof.
  eexists. split; [reflexivity|]. split; [repeat constructor|].
  destruct (proj1 (status_reflects_raw_findings Examples.plain_rt 0)
              Examples.demo_render Examples.accepted_mismatch_dir _ eq_refl)
    as (raw & Hv & _ & _ & Hw).
  apply Hw. intros ->. vm_compute in Hv. discriminate Hv.
Defined.

(** ** The shape of the provenance report *)

Lemma figures_names (rt : PyRuntime) (amap claims : list (string * json))
    (approach_data : json) (metrics : list (string * string))
    (figs : list (string * MarketSizing.figure_provenance)) (u : list (string * string)) :
  MarketSizing.figures rt amap claims approach_data metrics = Ok (figs, u) ->
  map fst figs = map fst metrics.
Proof.
  revert figs u. induction metrics as [|m metrics IH]; intros figs u H.
  - cbn in H. apply Ok_inj in H. now injection H as <- _.
  - cbn [MarketSizing.figures] in H.
    apply bind_ok in H as (fu & _ & H).
    apply bind_ok in H as ([figs' u'] & Hrest & H).
    apply Ok_inj in H. injection H as <- _. cbn [map fst]. f_equal.
    eapply IH; exact Hrest.
Qed.

Lemma approaches_shape (rt : PyRuntime) (amap claims : list (string * json))
    (sizing : json) (keys : list string) (prov : MarketSizing.provenance_report)
    (u : list (string * string)) :
  MarketSizing.approaches rt amap claims sizing keys = Ok (prov, u) ->
  map fst prov = filter (Spec.approach_present sizing) keys
  /\ Forall (fun af => map fst (snd af) = map fst MarketSizing.METRICS) prov.
Proof.
  revert prov u. induction keys as [|k keys IH]; intros prov u H.
  - cbn in H. apply Ok_inj in H. injection H as <- _. split; [reflexivity | constructor].
  - cbn [MarketSizing.approaches] in H.
    apply bind_ok in H as (ad & Had & H).
    assert (Hp : Spec.approach_present sizing k
                 = match ad with JNull => false | _ => true end).
    { unfold Spec.approach_present. destruct sizing; try discriminate Had.
      cbn [get] in Had. apply Ok_inj in Had. now subst ad. }
    cbn [filter]. rewrite Hp.
    assert (Hcons : forall figs1 u1 r,
              MarketSizing.figures rt amap claims ad MarketSizing.METRICS = Ok (figs1, u1) ->
              MarketSizing.approaches rt amap claims sizing keys = Ok r ->
              prov = (k, figs1) :: fst r ->
              map fst prov = k :: filter (Spec.approach_present sizing) keys
              /\ Forall (fun af => map fst (snd af) = map fst MarketSizing.METRICS) prov).
    { intros figs1 u1 [prov' u'] Hf Hr ->. cbn [fst].
      destruct (IH _ _ Hr) as [Hk Hall]. split.
      - cbn [map fst]. now rewrite Hk.
      - constructor; [|exact Hall]. cbn [snd]. eapply figures_names; exact Hf. }
    destruct ad; try (apply bind_ok in H as ([figs1 u1] & Hf & H);
                      apply bind_ok in H as (r & Hr & H);
                      apply Ok_inj in H; injection H as Hprov _;
                      eapply Hcons; eauto).
    eapply IH; exact H.
Qed.

(** X22.  The shape of the provenance report.  Whenever
    [_compute_provenance] returns, the report has an entry for exactly
    those of top_down and bottom_up, in this order, under which the sizing
    artifact holds a value other than [null], and every entry holds
    exactly the three figures tam, sam and som, in this order. *)
Theorem provenance_report_shape
    (rt : PyRuntime) (sizing : json) (validation inputs : artifact)
    (prov : MarketSizing.provenance_report) (u : list (string * string)) :
  MarketSizing._compute_provenance rt sizing validation inputs = Ok (prov, u) ->
  map fst prov = filter (Spec.approach_present sizing) [ "top_down"; "bottom_up" ]
  /\ Forall (fun af => map fst (snd af) = [ "tam"; "sam"; "som" ]) prov.
Proof.
  unfold MarketSizing._compute_provenance. intros H.
  apply bind_ok in H as (amap & _ & H).
  apply bind_ok in H as (claims & _ & H).
  exact (approaches_shape _ _ _ _ _ _ _ H).
Qed.

Lemma provenance_report_shape_witness :
  exists prov u,
    MarketSizing._compute_provenance Examples.plain_rt Examples.sizing_bottom_up_only
      (Val JNull) (Val JNull) = Ok (prov, u)
    /\ map fst prov = [ "bottom_up" ]
    /\ Forall (fun af => map fst (snd af) = [ "tam"; "sam"; "som" ]) prov.
Proof.
  eexists _, _. split; [reflexivity|].
  exact (provenance_report_shape Examples.plain_rt Examples.sizing_bottom_up_only
           (Val JNull) (Val JNull) _ _ eq_refl).
Defined.
